(** * Universal log analyzer: parsing pipeline and anomaly detector

    A shallow embedding of [src/api/main.py] (line parsing, severity and
    network extraction, template bookkeeping, file upload loop) and of
    [src/scripts/anomaly_detector.py] (volume and error-rate detectors, the
    detection cycle), with the properties the specification states about
    them.

    Modelling conventions.
    - A Python [str] is a Rocq [string]; characters are ASCII code points
      (the character classes [\w], [\s], [\d], [str.upper], [str.strip]
      are the ASCII restrictions of the Python ones).  Text beyond ASCII
      is outside the model.
    - [int] raises ValueError on a text of more than 4300 digits, the
      limit that the interpreter starts with.
    - The [re] module is embedded as a backtracking matcher over a regular
      expression syntax tree; every pattern of the source is transcribed
      under the number of the source line that holds it.
    - A [dict] keyed by strings is a [gmap string _]; a caught exception is
      a value of a sum type.
    - A pymongo collection is a list of documents; [update_one] follows
      the update rules of the server, which refuses an update document
      that names one field under two operators.
    - Library calls whose result does not depend on this repository
      (the clock, [datetime] parsing, [json.loads], the template miner,
      the availability of the database, the rolling statistics of pandas)
      are section variables; the examples instantiate them.
    - [float] is IEEE binary64 ([PrimFloat]); the [mean] of a series is
      the sum of its values, taken in order, divided by their number. *)

From Stdlib Require Import ZArith NArith Ascii String List Bool Lia PrimFloat Uint63 Floats.
From stdpp Require Import base option list gmap strings.

Open Scope string_scope.
Open Scope list_scope.

(** ** Characters and Python string methods *)

Module Py.

Definition in_range (lo hi c : ascii) : bool :=
  (N_of_ascii lo <=? N_of_ascii c)%N && (N_of_ascii c <=? N_of_ascii hi)%N.

Definition is_digit (c : ascii) : bool := in_range "0" "9" c.
Definition is_upper (c : ascii) : bool := in_range "A" "Z" c.
Definition is_lower (c : ascii) : bool := in_range "a" "z" c.

(** [\w]: letters, digits and the underscore. *)
Definition is_word (c : ascii) : bool :=
  is_digit c || is_upper c || is_lower c || Ascii.eqb c "_".

(** [str.isspace] and [\s]: code points 9..13 and 28..32. *)
Definition is_space (c : ascii) : bool :=
  let n := N_of_ascii c in
  ((9 <=? n)%N && (n <=? 13)%N) || ((28 <=? n)%N && (n <=? 32)%N).

Definition to_upper (c : ascii) : ascii :=
  if is_lower c then ascii_of_N (N_of_ascii c - 32) else c.

Definition to_lower (c : ascii) : ascii :=
  if is_upper c then ascii_of_N (N_of_ascii c + 32) else c.

Definition chars (s : string) : list ascii := list_ascii_of_string s.
Definition str (l : list ascii) : string := string_of_list_ascii l.

(** [s.upper()] *)
Definition upper (s : string) : string := str (map to_upper (chars s)).

(** [s.strip()] *)
Fixpoint lstrip_chars (l : list ascii) : list ascii :=
  match l with
  | c :: t => if is_space c then lstrip_chars t else l
  | [] => []
  end.

Definition strip_chars (l : list ascii) : list ascii :=
  rev (lstrip_chars (rev (lstrip_chars l))).

Definition strip (s : string) : string := str (strip_chars (chars s)).

(** [s.startswith(p)] on character lists *)
Fixpoint starts_with (p l : list ascii) : bool :=
  match p, l with
  | [], _ => true
  | a :: p', b :: l' => Ascii.eqb a b && starts_with p' l'
  | _ :: _, [] => false
  end.

Definition startswith (s p : string) : bool := starts_with (chars p) (chars s).

(** [p in s] for strings: [p] occurs as a contiguous substring. *)
Fixpoint contains_chars (p l : list ascii) : bool :=
  starts_with p l ||
  match l with
  | [] => false
  | _ :: t => contains_chars p t
  end.

Definition contains (p s : string) : bool := contains_chars (chars p) (chars s).

(** [s.isdigit()]: non-empty and all digits. *)
Definition isdigit (s : string) : bool :=
  match chars s with
  | [] => false
  | l => forallb is_digit l
  end.

(** The value of a run of decimal digits. *)
Definition digit_val (c : ascii) : Z := Z.of_N (N_of_ascii c) - 48.

Definition int_of_digits (l : list ascii) : Z :=
  fold_left (fun acc c => 10 * acc + digit_val c)%Z l 0%Z.

(** [sys.get_int_max_str_digits()], as the interpreter starts with it. *)
Definition max_str_digits : nat := 4300.

(** The white space that [int] skips at both ends: code points 9..13
    and 32. *)
Definition is_int_space (c : ascii) : bool :=
  let n := N_of_ascii c in
  ((9 <=? n)%N && (n <=? 13)%N) || (n =? 32)%N.

Fixpoint lstrip_int (l : list ascii) : list ascii :=
  match l with
  | c :: t => if is_int_space c then lstrip_int t else l
  | [] => []
  end.

(** The digits of an integer literal: a digit first and last, single
    underscores between digits. *)
Fixpoint int_digits (l : list ascii) (after_digit : bool) : option (list ascii) :=
  match l with
  | [] => if after_digit then Some [] else None
  | c :: t =>
      if is_digit c then option_map (cons c) (int_digits t true)
      else if Ascii.eqb c "_" && after_digit then int_digits t false
      else None
  end.

(** [int(s)].  [None] stands for ValueError: the text is no integer
    literal, or it has more than [max_str_digits] digits. *)
Definition int (s : string) : option Z :=
  let body := rev (lstrip_int (rev (lstrip_int (chars s)))) in
  let '(negative, body) :=
    match body with
    | c :: t =>
        if Ascii.eqb c "-" then (true, t)
        else if Ascii.eqb c "+" then (false, t)
        else (false, body)
    | [] => (false, body)
    end in
  match int_digits body false with
  | Some digits =>
      if (length digits <=? max_str_digits)%nat
      then Some (if negative then - int_of_digits digits else int_of_digits digits)%Z
      else None
  | None => None
  end.

(** [s.split('\n')] *)
Definition newline : ascii := ascii_of_N 10.

Fixpoint split_chars (sep : ascii) (cur : list ascii) (l : list ascii)
  : list (list ascii) :=
  match l with
  | [] => [rev cur]
  | c :: t =>
      if Ascii.eqb c sep then rev cur :: split_chars sep [] t
      else split_chars sep (c :: cur) t
  end.

Definition split_lines (s : string) : list string :=
  map str (split_chars newline [] (chars s)).

End Py.

(** ** The [re] module: a backtracking matcher *)

Module Re.

(** One character position of a pattern. *)
Inductive cclass : Type :=
| CLit (c : ascii)                              (* a literal character *)
| CAny                                          (* .   *)
| CDigit                                        (* \d  *)
| CWord                                         (* \w  *)
| CSpace                                        (* \s  *)
| CNotSpace                                     (* \S  *)
| CSet (neg : bool) (rs : list (ascii * ascii)) (* [a-bc-d] and [^...] *).

Inductive regex : Type :=
| Eps
| Chr (c : cclass)
| Seq (r1 r2 : regex)
| Alt (r1 r2 : regex)                 (* r1|r2, r1 tried first *)
| Star (greedy : bool) (r : regex)    (* r* and r*? *)
| Group (name : string) (r : regex)   (* (?P<name>r); (r) is named by its number *)
| Bol                                 (* ^ *)
| Eol                                 (* $ *)
| WordB                               (* \b *).

(** Derived forms, with the backtracking order of the source syntax. *)
Definition Plus (greedy : bool) (r : regex) : regex := Seq r (Star greedy r).
Definition Opt (r : regex) : regex := Alt r Eps.           (* r? *)
Fixpoint Rep (n : nat) (r : regex) : regex :=              (* r{n} *)
  match n with
  | O => Eps
  | S n' => Seq r (Rep n' r)
  end.
Fixpoint UpTo (n : nat) (r : regex) : regex :=             (* r{0,n} *)
  match n with
  | O => Eps
  | S n' => Opt (Seq r (UpTo n' r))
  end.
Definition Range (m n : nat) (r : regex) : regex :=        (* r{m,n} *)
  Seq (Rep m r) (UpTo (n - m) r).
Fixpoint Cat (rs : list regex) : regex :=
  match rs with
  | [] => Eps
  | [r] => r
  | r :: rs' => Seq r (Cat rs')
  end.
Fixpoint Any (rs : list regex) : regex :=                  (* r1|r2|...|rn *)
  match rs with
  | [] => Eps
  | [r] => r
  | r :: rs' => Alt r (Any rs')
  end.
Definition Lit (s : string) : regex := Cat (map (fun c => Chr (CLit c)) (Py.chars s)).
Definition lit (c : ascii) : regex := Chr (CLit c).

(** A matcher state: the character before the cursor, the text after it,
    and the groups closed so far (most recent first). *)
Record mstate : Type := MState {
  prev : option ascii;
  rest : list ascii;
  caps : list (string * list ascii)
}.

Definition ci_eqb (a b : ascii) : bool := Ascii.eqb (Py.to_lower a) (Py.to_lower b).

Definition cmatch (ci : bool) (cl : cclass) (a : ascii) : bool :=
  match cl with
  | CLit c => if ci then ci_eqb c a else Ascii.eqb c a
  | CAny => negb (Ascii.eqb a Py.newline)
  | CDigit => Py.is_digit a
  | CWord => Py.is_word a
  | CSpace => Py.is_space a
  | CNotSpace => negb (Py.is_space a)
  | CSet neg rs =>
      let hit x := existsb (fun '(lo, hi) => Py.in_range lo hi x) rs in
      xorb neg (if ci then hit a || hit (Py.to_lower a) || hit (Py.to_upper a) else hit a)
  end.

Definition is_word_opt (o : option ascii) : bool :=
  match o with
  | Some c => Py.is_word c
  | None => false
  end.

Definition at_boundary (s : mstate) : bool :=
  xorb (is_word_opt (prev s)) (is_word_opt (head (rest s))).

Definition at_end (s : mstate) : bool :=
  match rest s with
  | [] => true
  | [c] => Ascii.eqb c Py.newline
  | _ => false
  end.

Definition orelse {A} (x y : option A) : option A :=
  match x with
  | Some _ => x
  | None => y
  end.

Section Matcher.
Context {A : Type}.
Variable ci : bool.   (* re.IGNORECASE *)

(** The iterations of a starred sub-pattern.  [step k s] matches the
    body once and continues with [k]; an iteration that consumes nothing
    ends the loop there.  [fuel] is the length of the text that is left. *)
Fixpoint star_loop (step : (mstate -> option A) -> mstate -> option A)
  (greedy : bool) (k : mstate -> option A) (fuel : nat) (s : mstate) : option A :=
  match fuel with
  | O => k s
  | S fuel' =>
      let more :=
        step (fun s' =>
                if (length (rest s') <? length (rest s))%nat
                then star_loop step greedy k fuel' s' else None) s in
      if greedy then orelse more (k s) else orelse (k s) more
  end.

(** [rmatch r k s]: match [r] at [s], then continue with [k]; the first
    success in backtracking order is the result. *)
Fixpoint rmatch (r : regex) (k : mstate -> option A) (s : mstate) : option A :=
  match r with
  | Eps => k s
  | Chr cl =>
      match rest s with
      | a :: t => if cmatch ci cl a then k (MState (Some a) t (caps s)) else None
      | [] => None
      end
  | Seq r1 r2 => rmatch r1 (rmatch r2 k) s
  | Alt r1 r2 => orelse (rmatch r1 k s) (rmatch r2 k s)
  | Star greedy r' => star_loop (rmatch r') greedy k (length (rest s)) s
  | Group name r' =>
      rmatch r' (fun s' =>
        let n := (length (rest s) - length (rest s'))%nat in
        k (MState (prev s') (rest s') ((name, firstn n (rest s)) :: caps s'))) s
  | Bol => match prev s with None => k s | Some _ => None end
  | Eol => if at_end s then k s else None
  | WordB => if at_boundary s then k s else None
  end.
End Matcher.

(** A successful match: the text it spans and its groups. *)
Record rmatch_result : Type := Match {
  m_text : list ascii;
  m_caps : list (string * list ascii);
  m_after : mstate
}.

Definition match_at (ci : bool) (r : regex) (p : option ascii) (l : list ascii)
  : option rmatch_result :=
  rmatch ci r (fun s' =>
    Some (Match (firstn (length l - length (rest s')) l) (caps s') s'))
    (MState p l []).

(** [re.match(r, s)]: a match at the start of the string. *)
Definition re_match (ci : bool) (r : regex) (s : string) : option rmatch_result :=
  match_at ci r None (Py.chars s).

(** [re.search(r, s)]: the leftmost match. *)
Fixpoint search_from (ci : bool) (r : regex) (p : option ascii) (l : list ascii)
  : option rmatch_result :=
  match match_at ci r p l with
  | Some m => Some m
  | None =>
      match l with
      | [] => None
      | a :: t => search_from ci r (Some a) t
      end
  end.

Definition re_search (ci : bool) (r : regex) (s : string) : option rmatch_result :=
  search_from ci r None (Py.chars s).

(** [re.finditer(r, s)]: the successive non-overlapping matches, left to
    right.  After an empty match the scan moves one character on. *)
Fixpoint finditer_from (fuel : nat) (ci : bool) (r : regex) (p : option ascii)
  (l : list ascii) : list rmatch_result :=
  match fuel with
  | O => []
  | S fuel' =>
      match match_at ci r p l with
      | Some m =>
          let s' := m_after m in
          if (length (rest s') <? length l)%nat
          then m :: finditer_from fuel' ci r (prev s') (rest s')
          else m :: match l with
                    | [] => []
                    | a :: t => finditer_from fuel' ci r (Some a) t
                    end
      | None =>
          match l with
          | [] => []
          | a :: t => finditer_from fuel' ci r (Some a) t
          end
      end
  end.

Definition re_finditer (ci : bool) (r : regex) (s : string) : list rmatch_result :=
  let l := Py.chars s in finditer_from (S (length l)) ci r None l.

(** [m.group(name)]: [None] when the group took no part in the match. *)
Definition group (m : rmatch_result) (name : string) : option string :=
  match find (fun '(n, _) => String.eqb n name) (m_caps m) with
  | Some (_, t) => Some (Py.str t)
  | None => None
  end.

(** The group names of a pattern, in order of their opening parenthesis. *)
Fixpoint group_names (r : regex) : list string :=
  match r with
  | Seq r1 r2 | Alt r1 r2 => group_names r1 ++ group_names r2
  | Star _ r' => group_names r'
  | Group n r' => n :: group_names r'
  | _ => []
  end.

(** [m.groupdict()]: every named group of the pattern, unmatched ones
    mapped to [None]. *)
Definition groupdict (r : regex) (m : rmatch_result) : list (string * option string) :=
  map (fun n => (n, group m n)) (group_names r).

End Re.

(** ** Severity extraction ([extract_log_level]) *)

Module Severity.
Import Re.

(** [r'\b(W1|W2|...)\b'] *)
Definition keyword_pattern (ws : list string) : regex :=
  Cat [WordB; Group "1" (Any (map Lit ws)); WordB].

(** [LEVEL_PATTERNS], in the order of the source list. *)
Definition LEVEL_PATTERNS : list regex := [
  keyword_pattern ["EMERGENCY"; "EMERG"; "PANIC"];
  keyword_pattern ["ALERT"];
  keyword_pattern ["CRITICAL"; "CRIT"; "FATAL"];
  keyword_pattern ["ERROR"; "ERR"; "FAIL"; "FAILED"];
  keyword_pattern ["WARNING"; "WARN"; "NOTICE"];
  keyword_pattern ["INFO"; "INFORMATION"];
  keyword_pattern ["DEBUG"; "TRACE"]
].

Definition LEVEL_MAP : list (string * string) := [
  ("EMERGENCY", "EMERGENCY"); ("EMERG", "EMERGENCY"); ("PANIC", "EMERGENCY");
  ("ALERT", "ALERT");
  ("CRITICAL", "CRITICAL"); ("CRIT", "CRITICAL"); ("FATAL", "CRITICAL");
  ("ERROR", "ERROR"); ("ERR", "ERROR"); ("FAIL", "ERROR"); ("FAILED", "ERROR");
  ("WARNING", "WARN"); ("WARN", "WARN"); ("NOTICE", "WARN");
  ("INFO", "INFO"); ("INFORMATION", "INFO");
  ("DEBUG", "DEBUG"); ("TRACE", "DEBUG")
].

(** [d.get(k, default)] for a literal dictionary. *)
Fixpoint dict_get {V} (d : list (string * V)) (k : string) (default : V) : V :=
  match d with
  | [] => default
  | (k', v) :: d' => if String.eqb k' k then v else dict_get d' k default
  end.

(** [r'<(\d+)>'] *)
Definition priority_pattern : regex :=
  Cat [lit "<"; Group "1" (Plus true (Chr CDigit)); lit ">"].

Definition severity_map : list (Z * string) := [
  (0, "EMERGENCY"); (1, "ALERT"); (2, "CRITICAL"); (3, "ERROR");
  (4, "WARN"); (5, "NOTICE"); (6, "INFO"); (7, "DEBUG")
]%Z.

Fixpoint zdict_get (d : list (Z * string)) (k : Z) (default : string) : string :=
  match d with
  | [] => default
  | (k', v) :: d' => if Z.eqb k' k then v else zdict_get d' k default
  end.

(** [match.group(1)]; the group of each pattern used here takes part in
    every match of it (lemma [group1_of_keyword_match] below), so the
    text is always present. *)
Definition group1 (m : rmatch_result) : string :=
  match group m "1" with
  | Some t => t
  | None => ""
  end.

(** The loop over [LEVEL_PATTERNS]: the first pattern with a hit returns. *)
Fixpoint explicit_level (patterns : list regex) (message default_level : string)
  : option string :=
  match patterns with
  | [] => None
  | pattern :: patterns' =>
      match re_search true pattern message with
      | Some m =>
          let level_text := Py.upper (group1 m) in
          Some (dict_get LEVEL_MAP level_text default_level)
      | None => explicit_level patterns' message default_level
      end
  end.

(** [any(word in message_upper for word in words)] *)
Definition any_in (words : list string) (message_upper : string) : bool :=
  existsb (fun word => Py.contains word message_upper) words.

(** [None] stands for the ValueError that [int] raises at line 187. *)
Definition extract_log_level (message default_level : string) : option string :=
  match explicit_level LEVEL_PATTERNS message default_level with
  | Some level => Some level
  | None =>
      match re_search false priority_pattern message with
      | Some severity_match =>
          match Py.int (group1 severity_match) with
          | Some n =>
              let severity := (n mod 8)%Z in
              Some (zdict_get severity_map severity default_level)
          | None => None
          end
      | None =>
          let message_upper := Py.upper message in
          if any_in ["FAIL"; "ERROR"; "EXCEPTION"; "CRASH"] message_upper then Some "ERROR"
          else if any_in ["WARN"; "ALERT"; "DENY"; "BLOCK"] message_upper then Some "WARN"
          else if any_in ["DEBUG"; "TRACE"] message_upper then Some "DEBUG"
          else Some default_level
      end
  end.

End Severity.

(** ** JSON values *)

Module Json.

(** What [json.loads] returns. *)
#[warnings="-register-all"]
Inductive json : Type :=
| JNull
| JBool (b : bool)
| JNum (lexeme : string)              (* a number, kept as written *)
| JStr (s : string)
| JArr (items : list json)
| JObj (fields : list (string * json)) (* in source order, duplicates kept *).

Definition dq : ascii := ascii_of_N 34.        (* the double quote *)
Definition bslash : ascii := ascii_of_N 92.    (* the backslash *)

End Json.

(** ** Values, exceptions and dictionaries *)

Module Model.
Import Re.
Export Json.

(** An instant, in seconds; only its identity matters here. *)
Definition datetime : Type := Z.

(** The Python values that the parsing pipeline stores in its
    dictionaries. *)
Inductive value : Type :=
| VNone
| VStr (s : string)
| VList (l : list string)
| VTime (t : datetime)
| VJson (j : json)     (* a JSON number, boolean, array or object *).

Definition of_json (j : json) : value :=
  match j with
  | JNull => VNone
  | JStr s => VStr s
  | _ => VJson j
  end.

(** The exceptions that the code under study can raise and catch with
    [except Exception]. *)
Inductive exn : Type :=
| AttributeError | TypeError | ValueError | KeyError
| JSONDecodeError           (* json: the text is no JSON document *)
| RecursionError            (* the interpreter's limit on nested calls *)
| WriteError                (* pymongo: the server rejected the operation *)
| ConnectionFailure         (* pymongo: the server did not answer *)
| HTTPException (status : Z)
| OtherError.

Inductive result (A : Type) : Type :=
| Ok (a : A)
| Raise (e : exn).
Arguments Ok {A} a.
Arguments Raise {A} e.

(** Sequencing: an exception skips the rest.  With this instance
    [x ← c1; c2] is stdpp's notation for it. *)
#[global] Instance result_bind : MBind result := fun A B f x =>
  match x with
  | Ok a => f a
  | Raise e => Raise e
  end.

(** A call that raises [e] where the model of the callee has [None]. *)
Definition or_raise {A} (e : exn) (o : option A) : result A :=
  match o with
  | Some a => Ok a
  | None => Raise e
  end.

(** The dictionary a JSON object decodes to: a later duplicate of a key
    replaces the earlier one. *)
Definition dict_of_object (fields : list (string * json)) : gmap string value :=
  fold_left (fun m '(k, v) => <[k := of_json v]> m) fields ∅.

(** [{k: v for k, v in d.items() if k not in excluded}] *)
Definition without_keys (excluded : list string) (d : gmap string value)
  : gmap string value :=
  filter (fun kv => kv.1 ∉ excluded) d.

(** [d1.update(d2)]: every key of [d2] is (re)bound to its value in [d2]. *)
Definition update (d1 d2 : gmap string value) : gmap string value := d2 ∪ d1.

(** ** Network extraction ([extract_network_info]) *)

Definition rD : regex := Chr CDigit.        (* \d *)
Definition rW : regex := Chr CWord.         (* \w *)
Definition rS : regex := Chr CSpace.        (* \s *)
Definition rNS : regex := Chr CNotSpace.    (* \S *)
Definition rDot : regex := Chr CAny.        (* .  *)
Definition rQuote : regex := lit dq.        (* the double quote *)

(** [ip_pattern], main.py line 121: a dotted quad of 1 to 3 digits each,
    between word boundaries. *)
Definition ip_pattern : regex :=
  Cat [WordB;
       Group "ip" (Cat [Range 1 3 rD; lit "."; Range 1 3 rD; lit ".";
                        Range 1 3 rD; lit "."; Range 1 3 rD]);
       WordB].

Definition eq_or_colon : regex := Chr (CSet false [("="%char, "="%char); (":"%char, ":"%char)]).

(** [port_patterns], main.py lines 132-137. *)
Definition port_patterns : list regex := [
  Cat [Any [Lit "port"; Lit "PORT"]; Star true rS; eq_or_colon; Star true rS;
       Group "port" (Plus true rD)];
  Cat [Any [Lit "src_port"; Lit "SRC_PORT"; Lit "SPT"]; Star true rS; eq_or_colon;
       Star true rS; Group "port" (Plus true rD)];
  Cat [Any [Lit "dst_port"; Lit "DST_PORT"; Lit "DPT"]; Star true rS; eq_or_colon;
       Star true rS; Group "port" (Plus true rD)];
  Cat [lit ":"; Group "port" (Plus true rD); WordB]
].

(** [proto_patterns], main.py lines 151-154. *)
Definition proto_patterns : list regex := [
  Cat [Any [Lit "proto"; Lit "protocol"; Lit "PROTO"]; Star true rS; eq_or_colon;
       Star true rS; Group "proto" (Plus true rW)];
  Cat [WordB;
       Group "proto" (Any [Lit "TCP"; Lit "UDP"; Lit "ICMP"; Lit "HTTP"; Lit "HTTPS";
                           Lit "FTP"; Lit "SSH"; Lit "SMTP"; Lit "DNS"; Lit "DHCP";
                           Lit "SNMP"]);
       WordB]
].

Definition hex : regex :=
  Chr (CSet false [("0"%char, "9"%char); ("A"%char, "F"%char); ("a"%char, "f"%char)]).
Definition colon_or_dash : regex :=
  Chr (CSet false [(":"%char, ":"%char); ("-"%char, "-"%char)]).

(** [mac_pattern], main.py line 168: six pairs of hexadecimal digits
    separated by colons or dashes, between word boundaries. *)
Definition mac_pattern : regex :=
  Cat [WordB;
       Group "mac" (Cat [Rep 5 (Cat [Rep 2 hex; colon_or_dash]); Rep 2 hex]);
       WordB].

(** [match.group(name)] of a group that takes part in every match. *)
Definition group_text (name : string) (m : rmatch_result) : string :=
  match group m name with
  | Some t => t
  | None => ""
  end.

(** [re.findall] for a pattern with a single group. *)
Definition findall (ci : bool) (r : regex) (name : string) (text : string) : list string :=
  map (group_text name) (re_finditer ci r text).

Definition str_in (x : string) (l : list string) : bool :=
  existsb (String.eqb x) l.

(** The two nested loops that collect [ports]; [int] is called on a
    candidate that is not collected yet, and its ValueError ([None])
    leaves the function. *)
Definition collect_ports (message : string) : option (list string) :=
  fold_left
    (fun collected m =>
       ports ← collected;
       let port := group_text "port" m in
       if str_in port ports then Some ports
       else
         n ← Py.int port;
         if (1 <=? n)%Z && (n <=? 65535)%Z then Some (ports ++ [port]) else Some ports)
    (flat_map (fun pattern => re_finditer true pattern message) port_patterns)
    (Some []).

(** The two nested loops that collect [protocols]. *)
Definition collect_protocols (message : string) : list string :=
  fold_left
    (fun protocols m =>
       let proto := Py.upper (group_text "proto" m) in
       if negb (str_in proto protocols) then protocols ++ [proto] else protocols)
    (flat_map (fun pattern => re_finditer true pattern message) proto_patterns)
    [].

Definition extract_network_info (message : string) : option (gmap string value) :=
  let network_info : gmap string value := ∅ in
  let ips := findall false ip_pattern "ip" message in
  let network_info :=
    match ips with
    | [] => network_info
    | ip0 :: ips' =>
        let network_info := <["ip_addresses" := VList ips]> network_info in
        match ips' with
        | ip1 :: _ => <["dst_ip" := VStr ip1]> (<["src_ip" := VStr ip0]> network_info)
        | [] => <["ip_address" := VStr ip0]> network_info
        end
    end in
  ports ← collect_ports message;
  let network_info :=
    match ports with
    | [] => network_info
    | _ => <["ports" := VList ports]> network_info
    end in
  let protocols := collect_protocols message in
  let network_info :=
    match protocols with
    | [] => network_info
    | _ => <["protocols" := VList protocols]> network_info
    end in
  let macs := findall false mac_pattern "mac" message in
  Some match macs with
       | [] => network_info
       | _ => <["mac_addresses" := VList macs]> network_info
       end.

(** ** The format registry ([LOG_PATTERNS]) *)

Record config : Type := Config {
  pattern : regex;
  timestamp_format : option string;
  level_map : option (list (string * string))
}.

Definition not_rbracket : regex := Chr (CSet true [("]"%char, "]"%char)]).
Definition not_quote : regex := Chr (CSet true [(dq, dq)]).

(** The syslog stamp: three word characters, a day of 1 or 2 digits,
    and hh:mm:ss. *)
Definition month_day_time : regex :=
  Cat [Rep 3 rW; Plus true rS; Range 1 2 rD; Plus true rS;
       Rep 2 rD; lit ":"; Rep 2 rD; lit ":"; Rep 2 rD].

(** yyyy-mm-dd and hh:mm:ss. *)
Definition ymd : regex := Cat [Rep 4 rD; lit "-"; Rep 2 rD; lit "-"; Rep 2 rD].
Definition hms : regex := Cat [Rep 2 rD; lit ":"; Rep 2 rD; lit ":"; Rep 2 rD].

(** A dotted quad of unbounded digit runs, as in the firewall entry. *)
Definition dotted_quad : regex :=
  Cat [Plus true rD; lit "."; Plus true rD; lit "."; Plus true rD; lit "."; Plus true rD].

(** main.py line 57 *)
Definition syslog_pattern : regex :=
  Cat [Bol; Group "timestamp" month_day_time; Plus true rS;
       Group "hostname" (Plus true rNS); Plus true rS;
       Group "program" (Plus false rNS);
       Opt (Cat [lit "["; Group "pid" (Plus true rD); lit "]"]);
       lit ":"; Star true rS; Group "message" (Star true rDot); Eol].

(** The request part shared by the two access-log entries: the bracketed
    stamp, the quoted request line, the status and the size. *)
Definition access_request : list regex :=
  [lit "["; Group "timestamp" (Plus true not_rbracket); lit "]"; Plus true rS;
   rQuote; Group "method" (Plus true rNS); Plus true rS;
   Group "url" (Plus true rNS); Plus true rS;
   Group "protocol" (Plus true rNS); rQuote; Plus true rS;
   Group "status" (Plus true rD); Plus true rS; Group "size" (Plus true rNS)].

(** main.py line 61 *)
Definition apache_access_pattern : regex :=
  Cat ([Bol; Group "remote_addr" (Plus true rNS); Plus true rS;
        Plus true rNS; Plus true rS; Plus true rNS; Plus true rS]
       ++ access_request ++
       [Opt (Cat [Plus true rS; rQuote; Group "referer" (Star true not_quote); rQuote]);
        Star true rS;
        Opt (Cat [rQuote; Group "user_agent" (Star true not_quote); rQuote])]).

(** main.py line 65 *)
Definition nginx_access_pattern : regex :=
  Cat ([Bol; Group "remote_addr" (Plus true rNS); Plus true rS;
        lit "-"; Plus true rS; Plus true rNS; Plus true rS]
       ++ access_request ++
       [Plus true rS; rQuote; Group "referer" (Star true not_quote); rQuote;
        Plus true rS; rQuote; Group "user_agent" (Star true not_quote); rQuote]).

(** main.py line 69; no anchor, lazy gaps between the fields. *)
Definition firewall_pattern : regex :=
  Cat [Star false rDot;
       Group "action" (Any [Lit "ACCEPT"; Lit "DENY"; Lit "DROP"; Lit "REJECT"]);
       Star false rDot; Lit "SRC="; Group "src_ip" dotted_quad;
       Star false rDot; Lit "DST="; Group "dst_ip" dotted_quad;
       Star false rDot; Opt (Cat [Lit "SPT="; Group "src_port" (Plus true rD)]);
       Star false rDot; Opt (Cat [Lit "DPT="; Group "dst_port" (Plus true rD)]);
       Star false rDot; Opt (Cat [Lit "PROTO="; Group "protocol" (Plus true rW)])].

(** main.py line 73 *)
Definition cisco_syslog_pattern : regex :=
  Cat [Bol;
       Group "timestamp" (Cat [month_day_time; Opt (Cat [lit "."; Rep 3 rD])]);
       Star true rS; Opt (Group "timezone" (Plus true rNS)); Star true rS;
       Opt (lit ":"); Star true rS; Opt (lit "%");
       Group "facility" (Plus true rW); lit "-";
       Group "severity" (Plus true rD); lit "-";
       Group "mnemonic" (Plus true rW); lit ":"; Star true rS;
       Group "message" (Star true rDot); Eol].

(** main.py line 77 *)
Definition windows_event_pattern : regex :=
  Cat [Bol; Group "timestamp" (Cat [ymd; Plus true rS; hms]); Plus true rS;
       Group "level" (Plus true rW); Plus true rS;
       Group "event_id" (Plus true rD); Plus true rS;
       Group "source" (Plus true rNS); Plus true rS;
       Group "message" (Star true rDot); Eol].

(** main.py line 81 *)
Definition json_structured_pattern : regex :=
  Cat [Bol; lit "{"; Star true rDot; lit "}"; Eol].

(** main.py line 84 *)
Definition docker_pattern : regex :=
  Cat [Bol;
       Group "timestamp" (Cat [ymd; lit "T"; hms; lit "."; Plus true rD; lit "Z"]);
       Plus true rS; Group "level" (Plus true rW); Plus true rS;
       Group "container_id" (Plus true rW); Plus true rS;
       Group "message" (Star true rDot); Eol].

(** The registry, in the order in which the source dictionary declares
    (and therefore iterates) its entries. *)
Definition LOG_PATTERNS : list (string * config) := [
  ("syslog", Config syslog_pattern (Some "%b %d %H:%M:%S") None);
  ("apache_access", Config apache_access_pattern (Some "%d/%b/%Y:%H:%M:%S %z") None);
  ("nginx_access", Config nginx_access_pattern (Some "%d/%b/%Y:%H:%M:%S %z") None);
  ("firewall", Config firewall_pattern None
     (Some [("ACCEPT", "INFO"); ("DENY", "WARN"); ("DROP", "WARN"); ("REJECT", "ERROR")]));
  ("cisco_syslog", Config cisco_syslog_pattern None
     (Some [("0", "EMERGENCY"); ("1", "ALERT"); ("2", "CRITICAL"); ("3", "ERROR");
            ("4", "WARN"); ("5", "NOTICE"); ("6", "INFO"); ("7", "DEBUG")]));
  ("windows_event", Config windows_event_pattern (Some "%Y-%m-%d %H:%M:%S") None);
  ("json_structured", Config json_structured_pattern None None);
  ("docker", Config docker_pattern (Some "%Y-%m-%dT%H:%M:%S.%fZ") None)
].

Definition PROTOCOL_MAP : list (string * string) := [
  ("1", "ICMP"); ("6", "TCP"); ("17", "UDP"); ("47", "GRE"); ("50", "ESP");
  ("51", "AH"); ("58", "ICMPv6"); ("89", "OSPF"); ("132", "SCTP")
].

(** [match.groupdict()] as a dictionary. *)
Definition captured (r : regex) (m : rmatch_result) : gmap string value :=
  list_to_map
    (map (fun '(n, o) => (n, match o with Some t => VStr t | None => VNone end))
         (groupdict r m)).

Definition is_empty_dict (dict : gmap string value) : bool :=
  match map_to_list dict with
  | [] => true
  | _ :: _ => false
  end.

(** ** Line parsing ([parse_structured_log], [parse_enhanced_log_line]) *)

Record EnhancedLogEntry : Type := Entry {
  e_message : string;
  e_timestamp : datetime;
  e_level : string;
  e_source : string;
  e_log_type : option string;
  e_network_info : gmap string value;
  e_parsed_fields : gmap string value;
  e_metadata : gmap string value
}.

(** The local variables of [parse_enhanced_log_line]. *)
Record locals : Type := Locals {
  l_parsed_fields : gmap string value;
  l_network_info : gmap string value;
  l_metadata : gmap string value;
  l_log_type : string;
  l_level : string;
  l_timestamp : datetime;
  l_message : value
}.

(** [d.get(k, default)] *)
Definition get (dict : gmap string value) (k : string) (default : value) : value :=
  match dict !! k with
  | Some v => v
  | None => default
  end.

(** [s.replace('Z', '+00:00')] *)
Definition replace_Z (text : string) : string :=
  Py.str (flat_map (fun c => if Ascii.eqb c "Z" then Py.chars "+00:00" else [c])
                   (Py.chars text)).

Section Parsing.
(** The clock and the two [datetime] parsers; [None] stands for the
    exception the parser raises on a text it rejects. *)
Variable now : datetime.
Variable strptime : string -> string -> option datetime.
Variable fromisoformat : string -> option datetime.
(** [json.loads], with the exception it raises on a text it does not
    decode: [JSONDecodeError] for a text that is no JSON document, another
    one when a limit of the interpreter is met. *)
Variable json_loads : string -> result json.

(** Lines 217-223: the stamp is parsed when the entry has a format; a
    failure is logged and ignored. *)
Definition add_parsed_timestamp (cfg : config) (parsed_data : gmap string value)
  : gmap string value :=
  match parsed_data !! "timestamp", timestamp_format cfg with
  | Some ts, Some fmt =>
      if String.eqb fmt "" then parsed_data
      else
        match ts with
        | VStr ts_str =>
            match strptime ts_str fmt with
            | Some t => <["parsed_timestamp" := VTime t]> parsed_data
            | None => parsed_data
            end
        | _ => parsed_data
        end
  | _, _ => parsed_data
  end.

(** [level_map.get(v, 'INFO')] *)
Definition mapped_level (lm : list (string * string)) (v : value) : string :=
  match v with
  | VStr k => Severity.dict_get lm k "INFO"
  | _ => "INFO"
  end.

(** Lines 226-230. *)
Definition add_level (cfg : config) (parsed_data : gmap string value)
  : gmap string value :=
  match level_map cfg with
  | Some lm =>
      match parsed_data !! "severity" with
      | Some v => <["level" := VStr (mapped_level lm v)]> parsed_data
      | None =>
          match parsed_data !! "action" with
          | Some v => <["level" := VStr (mapped_level lm v)]> parsed_data
          | None => parsed_data
          end
      end
  | None => parsed_data
  end.

(** The loop of [parse_structured_log] over the registry: the first
    entry whose pattern matches fills [parsed_data] and ends the loop. *)
Fixpoint parse_structured_loop (entries : list (string * config)) (line : string)
  : gmap string value :=
  match entries with
  | [] => ∅
  | (log_type, cfg) :: entries' =>
      match re_match false (pattern cfg) line with
      | Some m =>
          let parsed_data := captured (pattern cfg) m in
          let parsed_data := <["log_type" := VStr log_type]> parsed_data in
          add_level cfg (add_parsed_timestamp cfg parsed_data)
      | None => parse_structured_loop entries' line
      end
  end.

Definition parse_structured_log (line : string) : gmap string value :=
  parse_structured_loop LOG_PATTERNS line.

(** [datetime.fromisoformat(ts_str.replace('Z', '+00:00'))] *)
Definition parse_iso (ts_str : string) : result datetime :=
  match fromisoformat (replace_Z ts_str) with
  | Some t => Ok t
  | None => Raise ValueError
  end.

(** [for field in network_fields: if field in src: ...], with the
    access-log address stored under [src_ip]. *)
Definition copy_network_fields (fields : list string) (src : gmap string value)
  (network_info : gmap string value) : gmap string value :=
  fold_left
    (fun ni field =>
       match src !! field with
       | Some v =>
           if String.eqb field "remote_addr" then <["src_ip" := v]> ni
           else <[field := v]> ni
       | None => ni
       end)
    fields network_info.

(** Lines 504-535: the JSON branch.  A decoding error leaves the
    locals as they were; any other exception leaves the function's
    [try] block. *)
Definition json_branch (line : string) (v : locals) : result locals :=
  match json_loads line with
  | Raise JSONDecodeError => Ok v
  | Raise e => Raise e
  | Ok (JObj fields) =>
      let json_log := dict_of_object fields in
      let message := get json_log "message" (get json_log "msg" (VStr line)) in
      level ← match get json_log "level" (get json_log "severity" (VStr "INFO")) with
               | VStr l => Ok (Py.upper l)
               | _ => Raise AttributeError
               end;
      timestamp ← match json_log !! "timestamp" with
                   | Some (VStr ts_str) => parse_iso ts_str
                   | Some _ => Ok (l_timestamp v)
                   | None =>
                       match json_log !! "time" with
                       | Some (VStr ts_str) => parse_iso ts_str
                       | _ => Ok (l_timestamp v)
                       end
                   end;
      let network_info :=
        copy_network_fields
          ["src_ip"; "dst_ip"; "src_port"; "dst_port"; "protocol"; "ip_address"]
          json_log (l_network_info v) in
      let metadata :=
        without_keys ["message"; "msg"; "level"; "severity"; "timestamp"; "time"]
                     json_log in
      Ok (Locals json_log network_info metadata "json" level timestamp message)
  | Ok _ => Raise AttributeError
  end.

(** Lines 537-562: the registry branch.  (A [level] capture is always a
    string: the registry's [level] groups are not optional.) *)
Definition registry_branch (line : string) (v : locals) : result locals :=
  let structured_data := parse_structured_log line in
  if is_empty_dict structured_data then Ok v
  else
    let log_type :=
      match structured_data !! "log_type" with
      | Some (VStr t) => t
      | _ => "structured"
      end in
    let message := get structured_data "message" (l_message v) in
    level ← match structured_data !! "level" with
             | Some (VStr l) => Ok l
             | Some _ => Raise TypeError
             | None => Ok (l_level v)
             end;
    let timestamp :=
      match structured_data !! "parsed_timestamp" with
      | Some (VTime t) => t
      | _ => l_timestamp v
      end in
    let network_fields :=
      ["src_ip"; "dst_ip"; "src_port"; "dst_port"; "protocol"; "remote_addr"] in
    let network_info :=
      copy_network_fields network_fields structured_data (l_network_info v) in
    let metadata :=
      without_keys (["message"; "level"; "parsed_timestamp"; "log_type"] ++ network_fields)
                   structured_data in
    Ok (Locals structured_data network_info metadata log_type level timestamp message).

(** Lines 572-575: a purely numeric [protocol] is replaced by its name;
    a [protocol] that is not a string has no [isdigit]. *)
Definition map_protocol (network_info : gmap string value)
  : result (gmap string value) :=
  match network_info !! "protocol" with
  | None => Ok network_info
  | Some (VStr proto_num) =>
      if Py.isdigit proto_num
      then Ok (<["protocol" := VStr (Severity.dict_get PROTOCOL_MAP proto_num proto_num)]>
                 network_info)
      else Ok network_info
  | Some _ => Raise AttributeError
  end.

(** Lines 564-586.  [extract_network_info] runs [re.findall] on the
    message, which raises [TypeError] unless it is a string; the
    ValueError of [int] leaves both extraction functions. *)
Definition finish (source : string) (v : locals) : result EnhancedLogEntry :=
  message ← match l_message v with
             | VStr m => Ok m
             | _ => Raise TypeError
             end;
  additional_network_info ← or_raise ValueError (extract_network_info message);
  let network_info := update (l_network_info v) additional_network_info in
  level ← (if String.eqb (l_level v) "INFO"
           then or_raise ValueError (Severity.extract_log_level message "INFO")
           else Ok (l_level v));
  network_info ← map_protocol network_info;
  Ok (Entry message (l_timestamp v) level source (Some (l_log_type v))
            network_info (l_parsed_fields v) (l_metadata v)).

(** The state of the locals at line 563, before message extraction. *)
Definition structured_stage (line : string) : result locals :=
  let init := Locals ∅ ∅ ∅ "unknown" "INFO" now (VStr (Py.strip line)) in
  v ← (if Py.startswith (Py.strip line) "{" then json_branch line init else Ok init);
  if String.eqb (l_log_type v) "unknown" then registry_branch line v else Ok v.

(** The body of the [try] block. *)
Definition parse_body (line source : string) : result EnhancedLogEntry :=
  v ← structured_stage line;
  finish source v.

(** [EnhancedLogEntry(message=line.strip(), source=source)], the value
    of the [except] handler: every other field takes its default. *)
Definition fallback_entry (line source : string) : EnhancedLogEntry :=
  Entry (Py.strip line) now "INFO" source None ∅ ∅ ∅.

Definition parse_enhanced_log_line (line source : string) : option EnhancedLogEntry :=
  if String.eqb (Py.strip line) "" then None
  else
    match parse_body line source with
    | Ok e => Some e
    | Raise _ => Some (fallback_entry line source)
    end.

End Parsing.

End Model.

(** ** [hashlib.md5(...).hexdigest()] (RFC 1321) *)

Module Md5.
Local Open Scope N_scope.

Definition mask32 : N := 4294967295.
Definition add32 (a b : N) : N := N.land (a + b) mask32.
Definition not32 (a : N) : N := N.lxor a mask32.
Definition rotl32 (x c : N) : N :=
  N.land (N.lor (N.shiftl x c) (N.shiftr x (32 - c))) mask32.

(** [K[i] = floor(2^32 * abs(sin(i + 1)))] *)
Definition K : list N := [
  3614090360; 3905402710; 606105819; 3250441966;
  4118548399; 1200080426; 2821735955; 4249261313;
  1770035416; 2336552879; 4294925233; 2304563134;
  1804603682; 4254626195; 2792965006; 1236535329;
  4129170786; 3225465664; 643717713; 3921069994;
  3593408605; 38016083; 3634488961; 3889429448;
  568446438; 3275163606; 4107603335; 1163531501;
  2850285829; 4243563512; 1735328473; 2368359562;
  4294588738; 2272392833; 1839030562; 4259657740;
  2763975236; 1272893353; 4139469664; 3200236656;
  681279174; 3936430074; 3572445317; 76029189;
  3654602809; 3873151461; 530742520; 3299628645;
  4096336452; 1126891415; 2878612391; 4237533241;
  1700485571; 2399980690; 4293915773; 2240044497;
  1873313359; 4264355552; 2734768916; 1309151649;
  4149444226; 3174756917; 718787259; 3951481745
].

Definition shifts : list N := [
  7; 12; 17; 22; 7; 12; 17; 22; 7; 12; 17; 22; 7; 12; 17; 22;
  5; 9; 14; 20; 5; 9; 14; 20; 5; 9; 14; 20; 5; 9; 14; 20;
  4; 11; 16; 23; 4; 11; 16; 23; 4; 11; 16; 23; 4; 11; 16; 23;
  6; 10; 15; 21; 6; 10; 15; 21; 6; 10; 15; 21; 6; 10; 15; 21
].

Definition word_state : Type := (N * N * N * N)%type.

(** One of the 64 steps on a block of sixteen words. *)
Definition step (block : list N) (st : word_state) (i : nat) : word_state :=
  let '(a, b, c, d) := st in
  let n := N.of_nat i in
  let '(f, g) :=
    if (n <? 16) then (N.lor (N.land b c) (N.land (not32 b) d), n)
    else if (n <? 32) then (N.lor (N.land d b) (N.land (not32 d) c), (5 * n + 1) mod 16)
    else if (n <? 48) then (N.lxor (N.lxor b c) d, (3 * n + 5) mod 16)
    else (N.lxor c (N.lor b (not32 d)), (7 * n) mod 16) in
  let f := add32 (add32 (add32 f a) (nth i K 0)) (nth (N.to_nat g) block 0) in
  (d, add32 b (rotl32 f (nth i shifts 0)), b, c).

Definition compress (st : word_state) (block : list N) : word_state :=
  let '(a0, b0, c0, d0) := st in
  let '(a, b, c, d) := fold_left (step block) (seq 0 64) st in
  (add32 a0 a, add32 b0 b, add32 c0 c, add32 d0 d).

(** Little-endian bytes of a word, and back. *)
Definition le_bytes (n : nat) (x : N) : list N :=
  map (fun i => N.land (N.shiftr x (8 * N.of_nat i)) 255) (seq 0 n).

Definition le_word (bs : list N) : N :=
  fold_right (fun b acc => b + 256 * acc) 0 bs.

Fixpoint chunks {T} (size fuel : nat) (l : list T) : list (list T) :=
  match fuel, l with
  | O, _ | _, [] => []
  | S fuel', _ => firstn size l :: chunks size fuel' (skipn size l)
  end.

(** The message, one [0x80] byte, zeros up to 56 modulo 64, and the length
    in bits as eight little-endian bytes. *)
Definition pad (msg : list N) : list N :=
  let len := length msg in
  let zeros := ((64 + 56 - (len + 1) mod 64) mod 64)%nat in
  msg ++ [128] ++ repeat 0 zeros ++ le_bytes 8 (8 * N.of_nat len).

Definition digest (msg : list N) : word_state :=
  let padded := pad msg in
  let blocks := chunks 64 (length padded) padded in
  fold_left (fun st blk => compress st (map le_word (chunks 4 16 blk)))
            blocks
            (1732584193, 4023233417, 2562383102, 271733878).

Definition hex_digit (n : N) : ascii :=
  if n <? 10 then ascii_of_N (48 + n) else ascii_of_N (87 + n).

Definition hex_byte (b : N) : list ascii := [hex_digit (b / 16); hex_digit (b mod 16)].

(** [hashlib.md5(s.encode()).hexdigest()] for ASCII text. *)
Definition hexdigest (text : string) : string :=
  let '(a, b, c, d) := digest (map N_of_ascii (Py.chars text)) in
  Py.str (flat_map hex_byte (le_bytes 4 a ++ le_bytes 4 b ++ le_bytes 4 c ++ le_bytes 4 d)).

(** [hexdigest()[:8]] *)
Definition hash8 (text : string) : string :=
  Py.str (firstn 8 (Py.chars (hexdigest text))).

End Md5.

(** ** The document store (pymongo collections) *)

Module Mongo.
Import Model.

Inductive bson : Type :=
| BNull
| BInt (n : Z)
| BStr (s : string)
| BTime (t : datetime).

Definition bson_eqb (a b : bson) : bool :=
  match a, b with
  | BNull, BNull => true
  | BInt x, BInt y => Z.eqb x y
  | BStr x, BStr y => String.eqb x y
  | BTime x, BTime y => Z.eqb x y
  | _, _ => false
  end.

(** The update operators that the code uses. *)
Inductive operator : Type :=
| op_set            (* $set *)
| op_setOnInsert    (* $setOnInsert *)
| op_inc            (* $inc *).

Definition operator_eqb (a b : operator) : bool :=
  match a, b with
  | op_set, op_set | op_setOnInsert, op_setOnInsert | op_inc, op_inc => true
  | _, _ => false
  end.

(** The fields named by an update document, over all its operators. *)
Definition paths (update : list (operator * list (string * bson))) : list string :=
  flat_map (fun '(_, fields) => map fst fields) update.

Fixpoint has_duplicate (l : list string) : bool :=
  match l with
  | [] => false
  | x :: l' => existsb (String.eqb x) l' || has_duplicate l'
  end.

(** The server refuses an update document in which two operators name the
    same field ("Updating the path 'f' would create a conflict at 'f'"),
    whether the operation would insert or modify. *)
Definition conflicting (update : list (operator * list (string * bson))) : bool :=
  has_duplicate (paths update).

Definition matches (filter : list (string * bson)) (doc : gmap string bson) : bool :=
  forallb (fun '(k, v) =>
             match doc !! k with
             | Some v' => bson_eqb v v'
             | None => false
             end) filter.

Definition apply_set (fields : list (string * bson)) (doc : gmap string bson)
  : gmap string bson :=
  fold_left (fun acc '(k, v) => <[k := v]> acc) fields doc.

(** [$inc]: a missing field is set to the amount; a field that is not a
    number is an error. *)
Definition apply_inc (fields : list (string * bson)) (doc : gmap string bson)
  : result (gmap string bson) :=
  fold_left
    (fun acc '(k, v) =>
       acc ← acc;
       match acc !! k, v with
       | None, BInt _ => Ok (<[k := v]> acc)
       | Some (BInt n), BInt a => Ok (<[k := BInt (n + a)]> acc)
       | _, _ => Raise WriteError
       end)
    fields (Ok doc).

Definition fields_of (op : operator) (update : list (operator * list (string * bson)))
  : list (string * bson) :=
  flat_map (fun '(o, fields) => if operator_eqb o op then fields else []) update.

(** The operators applied to a document; [$setOnInsert] only when the
    document is being inserted. *)
Definition apply_update (inserting : bool)
  (update : list (operator * list (string * bson))) (doc : gmap string bson)
  : result (gmap string bson) :=
  let doc := apply_set (fields_of op_set update) doc in
  let doc := if inserting then apply_set (fields_of op_setOnInsert update) doc else doc in
  apply_inc (fields_of op_inc update) doc.

(** The first document that matches, modified in place. *)
Fixpoint update_first (filter : list (string * bson))
  (update : list (operator * list (string * bson)))
  (coll : list (gmap string bson)) : option (result (list (gmap string bson))) :=
  match coll with
  | [] => None
  | doc :: coll' =>
      if matches filter doc then
        Some (doc' ← apply_update false update doc; Ok (doc' :: coll'))
      else
        match update_first filter update coll' with
        | Some r => Some (coll'' ← r; Ok (doc :: coll''))
        | None => None
        end
  end.

(** [collection.update_one(filter, update, upsert=upsert)] *)
Definition update_one (filter : list (string * bson))
  (update : list (operator * list (string * bson))) (upsert : bool)
  (coll : list (gmap string bson)) : result (list (gmap string bson)) :=
  if conflicting update then Raise WriteError
  else
    match update_first filter update coll with
    | Some r => r
    | None =>
        if upsert then
          doc ← apply_update true update (list_to_map filter);
          Ok (coll ++ [doc])
        else Ok coll
    end.

End Mongo.

(** ** Template bookkeeping and the upload loop *)

Module Ingest.
Import Model Mongo.

(** A template identifier: the miner's cluster number or a fallback
    string. *)
Inductive tid : Type :=
| TInt (n : Z)
| TStr (s : string).

Definition bson_of_tid (t : tid) : bson :=
  match t with
  | TInt n => BInt n
  | TStr s => BStr s
  end.

(** The dictionary that [process_log_with_enhanced_parsing] returns. *)
Record template_info : Type := TemplateInfo {
  template_id : option tid;
  template : option string;
  cluster_size : Z
}.

(** The attributes of an object; [None] when [hasattr] is false. *)
Record miner_object : Type := MinerObject {
  a_cluster_id : option (option tid);
  a_id : option (option tid);
  a_get_template : option (option string);
  a_template : option (option string);
  a_size : option Z;
  a_cluster_size : option Z
}.

(** What [add_log_message] can return, as far as the code inspects it. *)
Inductive miner_result : Type :=
| RNone
| RDict (cluster_id : option tid) (template : option string) (cluster_size : option Z)
| RObject (o : miner_object).

(** A cluster of [drain.id_to_cluster]. *)
Record cluster : Type := Cluster {
  c_get_template : option (option string);
  c_log_template_tokens : option (list string);
  c_size : option Z
}.

(** One persisted log record. *)
Record log_doc : Type := LogDoc {
  d_entry : EnhancedLogEntry;
  d_template : template_info;
  d_file_id : option string;
  d_filename : option string
}.

Record database : Type := Database {
  logs : list log_doc;
  templates : list (gmap string bson);
  files : list (gmap string bson);
  calls : nat                       (* the operations sent so far *)
}.

Definition or_default {T} (o : option T) (default : T) : T :=
  match o with
  | Some x => x
  | None => default
  end.

(** [s.endswith(suffix)] *)
Definition endswith (text suffix : string) : bool :=
  Py.starts_with (rev (Py.chars suffix)) (rev (Py.chars text)).

(** [' '.join(tokens)] *)
Definition join_spaces (tokens : list string) : string := String.concat " " tokens.

Section Service.
(** The clock, the [datetime] parsers and the JSON decoder of the
    parsing stage. *)
Variable now : datetime.
Variable strptime : string -> string -> option datetime.
Variable fromisoformat : string -> option datetime.
Variable json_loads : string -> result json.
(** The template miner: its state, [add_log_message] (which may raise),
    and the view [template_miner.drain.id_to_cluster] ([None] when the
    attribute is missing). *)
Variable miner : Type.
Variable add_log_message : miner -> string -> miner * result miner_result.
Variable id_to_cluster : miner -> option (list (Z * cluster)).
(** Whether [logparser_drain] was initialised. *)
Variable logparser_drain : bool.
(** Whether the database answers its n-th operation. *)
Variable responds : nat -> bool.
(** [content.decode('utf-8')]; [None] stands for UnicodeDecodeError. *)
Variable decode : string -> option string.

Record state : Type := State {
  db : database;
  template_miner : option miner
}.

(** One operation on the [templates] collection. *)
Definition templates_update_one (filter : list (string * bson))
  (update : list (operator * list (string * bson))) (upsert : bool) (d : database)
  : database * result unit :=
  let d' := Database (logs d) (templates d) (files d) (S (calls d)) in
  if responds (calls d) then
    match update_one filter update upsert (templates d) with
    | Ok ts => (Database (logs d) ts (files d) (S (calls d)), Ok tt)
    | Raise e => (d', Raise e)
    end
  else (d', Raise ConnectionFailure).

Definition files_insert_one (doc : gmap string bson) (d : database)
  : database * result unit :=
  if responds (calls d)
  then (Database (logs d) (templates d) (files d ++ [doc]) (S (calls d)), Ok tt)
  else (Database (logs d) (templates d) (files d) (S (calls d)), Raise ConnectionFailure).

Definition files_update_one (filter : list (string * bson))
  (update : list (operator * list (string * bson))) (d : database)
  : database * result unit :=
  let d' := Database (logs d) (templates d) (files d) (S (calls d)) in
  if responds (calls d) then
    match update_one filter update false (files d) with
    | Ok fs => (Database (logs d) (templates d) fs (S (calls d)), Ok tt)
    | Raise e => (d', Raise e)
    end
  else (d', Raise ConnectionFailure).

Definition logs_insert_one (doc : log_doc) (d : database) : database * result unit :=
  if responds (calls d)
  then (Database (logs d ++ [doc]) (templates d) (files d) (S (calls d)), Ok tt)
  else (Database (logs d) (templates d) (files d) (S (calls d)), Raise ConnectionFailure).

(** The three pseudo-templates, lines 400-406, 447-451 and 481-487:
    a prefix and the first 8 hexadecimal digits of the MD5 of the
    message. *)
Definition pseudo_template (prefix message : string) : template_info :=
  TemplateInfo (Some (TStr (prefix ++ Md5.hash8 message))) (Some message) 1.

(** Lines 410-427. *)
Definition read_result (result : miner_result) : template_info :=
  match result with
  | RNone => TemplateInfo None None 0
  | RDict cluster_id template cluster_size =>
      TemplateInfo cluster_id template (or_default cluster_size 0%Z)
  | RObject o =>
      match a_cluster_id o, a_id o with
      | None, None => TemplateInfo None None 0
      | _, _ =>
          let id := match a_cluster_id o with
                    | Some v => v
                    | None => or_default (a_id o) None
                    end in
          let template := match a_get_template o with
                          | Some v => v
                          | None => or_default (a_template o) None
                          end in
          let size := match a_size o with
                      | Some v => v
                      | None => or_default (a_cluster_size o) 0%Z
                      end in
          TemplateInfo id template size
      end
  end.

(** [max(clusters.keys())] and its cluster. *)
Definition max_cluster (clusters : list (Z * cluster)) : option (Z * cluster) :=
  fold_left
    (fun best '(k, c) =>
       match best with
       | Some (k', _) => if (k' <? k)%Z then Some (k, c) else best
       | None => Some (k, c)
       end)
    clusters None.

(** Lines 429-444: when the result carried no id, the cluster with the
    largest id in the miner is taken. *)
Definition rescue_from_clusters (m : miner) (info : template_info) : template_info :=
  match template_id info with
  | Some _ => info
  | None =>
      match id_to_cluster m with
      | Some clusters =>
          match max_cluster clusters with
          | Some (max_id, c) =>
              let template :=
                match c_get_template c with
                | Some v => v
                | None =>
                    match c_log_template_tokens c with
                    | Some tokens => Some (join_spaces tokens)
                    | None => template info
                    end
                end in
              TemplateInfo (Some (TInt max_id)) template (or_default (c_size c) 1%Z)
          | None => info
          end
      | None => info
      end
  end.

(** Lines 446-451. *)
Definition last_resort (message : string) (info : template_info) : template_info :=
  match template_id info with
  | Some _ => info
  | None => pseudo_template "tmpl_" message
  end.

(** The update document of lines 458-473. *)
Definition template_filter (id : tid) : list (string * bson) :=
  [("template_id", bson_of_tid id)].

Definition template_update (result : template_info) (timestamp : datetime)
  : list (operator * list (string * bson)) :=
  [ (op_set, [("template", match template result with
                           | Some t => BStr t
                           | None => BNull
                           end);
              ("last_seen", BTime timestamp);
              ("cluster_size", BInt (cluster_size result))]);
    (op_setOnInsert, [("first_seen", BTime timestamp); ("count", BInt 0)]);
    (op_inc, [("count", BInt 1)]) ].

(** Lines 455-475: the template upsert; its own [try] turns a failure
    into a warning. *)
Definition update_template_statistics (result : template_info) (timestamp : datetime)
  (d : database) : database :=
  match template_id result, template result with
  | Some id, Some t =>
      if String.eqb t "" then d
      else fst (templates_update_one (template_filter id)
                  (template_update result timestamp) true d)
  | _, _ => d
  end.

(** The body of the outer [try] of [process_log_with_enhanced_parsing].
    The early [return] of line 402 leaves without touching the template
    statistics. *)
Definition process_body (message : string) (timestamp : datetime)
  (parser_type : string) (st : state) : state * result template_info :=
  if String.eqb parser_type "logparser" && logparser_drain then
    let result := TemplateInfo (Some (TStr "logparser_template")) (Some message) 1 in
    (State (update_template_statistics result timestamp (db st)) (template_miner st),
     Ok result)
  else
    match template_miner st with
    | None => (st, Ok (pseudo_template "fallback_" message))
    | Some m =>
        match add_log_message m message with
        | (m', Raise e) => (State (db st) (Some m'), Raise e)
        | (m', Ok r) =>
            let result := last_resort message (rescue_from_clusters m' (read_result r)) in
            (State (update_template_statistics result timestamp (db st)) (Some m'),
             Ok result)
        end
    end.

Definition process_log_with_enhanced_parsing (message : string) (timestamp : datetime)
  (parser_type : string) (st : state) : state * template_info :=
  match process_body message timestamp parser_type st with
  | (st', Ok result) => (st', result)
  | (st', Raise _) => (st', pseudo_template "error_" message)
  end.

(** [store_enhanced_log_entry]: a failed insertion is re-raised as an
    HTTP error. *)
Definition store_enhanced_log_entry (log_entry : EnhancedLogEntry)
  (info : template_info) (file_id filename : option string) (st : state)
  : state * result unit :=
  match logs_insert_one (LogDoc log_entry info file_id filename) (db st) with
  | (d, Ok _) => (State d (template_miner st), Ok tt)
  | (d, Raise _) => (State d (template_miner st), Raise (HTTPException 500))
  end.

(** The counters of the upload loop. *)
Record counters : Type := Counters {
  processed_count : nat;
  failed_count : nat
}.

(** One iteration of the loop of lines 663-674. *)
Definition process_line (filename file_id : string) (acc : state * counters)
  (line : string) : state * counters :=
  let '(st, c) := acc in
  match parse_enhanced_log_line now strptime fromisoformat json_loads line filename with
  | Some log_entry =>
      let '(st1, info) :=
        process_log_with_enhanced_parsing (e_message log_entry) (e_timestamp log_entry)
                                          "drain3" st in
      match store_enhanced_log_entry log_entry info (Some file_id) (Some filename) st1 with
      | (st2, Ok _) => (st2, Counters (S (processed_count c)) (failed_count c))
      | (st2, Raise _) => (st2, Counters (processed_count c) (S (failed_count c)))
      end
  | None => (st, Counters (processed_count c) (S (failed_count c)))
  end.

(** [text_content.strip().split('\n')] *)
Definition lines_of (text_content : string) : list string :=
  Py.split_lines (Py.strip text_content).

Definition process_lines (filename file_id : string) (st : state) (lines : list string)
  : state * counters :=
  fold_left (process_line filename file_id) lines (st, Counters 0 0).

Record upload_response : Type := UploadResponse {
  r_file_id : string;
  r_filename : string;
  r_processed_logs : nat;
  r_failed_logs : nat;
  r_file_size : nat
}.

Definition with_db (st : state) (d : database) : state := State d (template_miner st).

(** The handler of the outer [except] (lines 701-709): the manifest is
    marked failed and the request ends with status 500. *)
Definition upload_failed (file_id : string) (st : state)
  : state * result upload_response :=
  let '(d, _) :=
    files_update_one [("file_id", BStr file_id)]
      [(op_set, [("status", BStr "failed")])] (db st) in
  (with_db st d, Raise (HTTPException 500)).

(** [upload_logs], from the extension check to the response.  The file
    is staged on disk in between; [file_id] is the fresh identifier and
    [upload_timestamp] the clock reading of the request. *)
Definition upload_logs (filename content file_id : string) (upload_timestamp : datetime)
  (st : state) : state * result upload_response :=
  if String.eqb filename "" ||
     negb (endswith filename ".log" || endswith filename ".txt" || endswith filename ".json")
  then (st, Raise (HTTPException 400))
  else
    let file_doc : gmap string bson :=
      list_to_map [("file_id", BStr file_id);
                   ("filename", BStr (file_id ++ "_" ++ filename));
                   ("original_filename", BStr filename);
                   ("file_size", BInt (Z.of_nat (String.length content)));
                   ("upload_timestamp", BTime upload_timestamp);
                   ("status", BStr "processing");
                   ("processed_logs", BInt 0);
                   ("failed_logs", BInt 0)] in
    match files_insert_one file_doc (db st) with
    | (d, Raise _) => upload_failed file_id (with_db st d)
    | (d, Ok _) =>
        match decode content with
        | None => upload_failed file_id (with_db st d)
        | Some text_content =>
            let '(st1, c) :=
              process_lines filename file_id (with_db st d) (lines_of text_content) in
            match files_update_one [("file_id", BStr file_id)]
                    [(op_set, [("status", BStr "completed");
                               ("processed_logs", BInt (Z.of_nat (processed_count c)));
                               ("failed_logs", BInt (Z.of_nat (failed_count c)));
                               ("completed_at", BTime now)])] (db st1) with
            | (d1, Raise _) => upload_failed file_id (with_db st1 d1)
            | (d1, Ok _) =>
                (with_db st1 d1,
                 Ok (UploadResponse file_id filename (processed_count c) (failed_count c)
                                    (String.length content)))
            end
        end
    end.

End Service.

End Ingest.

(** ** The anomaly detector ([LogAnomalyDetector]) *)

Module Detector.
Import Model.

(** One row of the data frame that [get_recent_logs] builds. *)
Record log_row : Type := LogRow {
  row_timestamp : Z;          (* seconds *)
  row_level : string;
  row_message : string;
  row_source : string;
  row_template_id : Z;
  row_template : string
}.

Record AnomalyResult : Type := Anomaly {
  a_timestamp : Z;
  a_anomaly_type : string;
  a_severity : string;
  a_log_count : nat;
  a_score : float
}.

(** *** Hourly buckets *)

Definition hour_of (t : Z) : Z := (t / 3600)%Z.

Definition hours_of (df : list log_row) : list Z :=
  map (fun r => hour_of (row_timestamp r)) df.

Definition hour_range (lo hi : Z) : list Z :=
  map (fun i => (lo + Z.of_nat i)%Z) (seq 0 (Z.to_nat (hi - lo + 1))).

Definition count_in (h : Z) (df : list log_row) : nat :=
  length (List.filter (fun r => Z.eqb (hour_of (row_timestamp r)) h) df).

(** Every hour from the first record's to the last record's. *)
Definition spanned_hours (df : list log_row) : list Z :=
  match hours_of df with
  | [] => []
  | h :: hs => hour_range (fold_left Z.min hs h) (fold_left Z.max hs h)
  end.

(** [df.set_index('timestamp').resample('1H').size()]: one bucket per
    hour of the span, empty hours included. *)
Definition resample_size (df : list log_row) : list (Z * nat) :=
  map (fun h => (h, count_in h df)) (spanned_hours df).

(** *** Floating point *)

Definition float_of_nat (n : nat) : float :=
  PrimFloat.of_uint63 (Uint63.of_Z (Z.of_nat n)).

Definition fsum (xs : list float) : float := fold_left PrimFloat.add xs 0%float.

(** [series.mean()] *)
Definition mean (xs : list float) : float :=
  (fsum xs / float_of_nat (length xs))%float.

(** The last [n] elements. *)
Definition lastn {T} (n : nat) (l : list T) : list T := skipn (length l - n) l.

#[warnings="-inexact-float"]
Definition epsilon : float := 1e-6%float.
#[warnings="-inexact-float"]
Definition error_rate_threshold : float := 0.1%float.
Definition volume_spike_threshold : float := 3.0%float.

(** *** Volume detector, lines 90-132 *)

(** [(df_hourly - rolling_mean) / (rolling_std + 1e-6)], element-wise. *)
Fixpoint z_scores_of (xs means stds : list float) : list float :=
  match xs, means, stds with
  | x :: xs', m :: means', sd :: stds' =>
      ((x - m) / (sd + epsilon))%float :: z_scores_of xs' means' stds'
  | _, _, _ => []
  end.

Definition volume_anomaly (bucket : Z * nat) (z_score : float) : AnomalyResult :=
  Anomaly (3600 * fst bucket)
          (if (0 <? z_score)%float then "VOLUME_SPIKE" else "VOLUME_DROP")
          (if (5 <? PrimFloat.abs z_score)%float then "HIGH" else "MEDIUM")
          (snd bucket)
          (PrimFloat.abs z_score).

(** The loop over [z_scores.items()]. *)
Fixpoint volume_loop (buckets : list (Z * nat)) (z_scores : list float)
  : list AnomalyResult :=
  match buckets, z_scores with
  | b :: buckets', z :: z_scores' =>
      if (volume_spike_threshold <? PrimFloat.abs z)%float
      then volume_anomaly b z :: volume_loop buckets' z_scores'
      else volume_loop buckets' z_scores'
  | _, _ => []
  end.

Section Volume.
(** [series.rolling(window=w).mean()] and [series.rolling(window=w).std()]
    of pandas: one value for every bucket, computed from the buckets up
    to it. *)
Variable rolling_mean : nat -> list float -> list float.
Variable rolling_std : nat -> list float -> list float.

Definition detect_volume_anomalies (df : list log_row) : list AnomalyResult :=
  match df with
  | [] => []
  | _ :: _ =>
      let df_hourly := resample_size df in
      if (length df_hourly <? 3)%nat then []
      else
        let window := Nat.min 24 (length df_hourly - 1) in
        let values := map (fun b => float_of_nat (snd b)) df_hourly in
        volume_loop df_hourly
          (z_scores_of values (rolling_mean window values) (rolling_std window values))
  end.

End Volume.

(** *** Error-rate detector, lines 134-181 *)

Definition error_levels : list string := ["ERROR"; "CRITICAL"; "FATAL"; "WARN"].

(** The rows of the grouped table: the hours that hold a record. *)
Definition observed_hours (df : list log_row) : list Z :=
  List.filter (fun h => (0 <? count_in h df)%nat) (spanned_hours df).

(** Its columns: the levels that occur. *)
Definition has_column (df : list log_row) (lvl : string) : bool :=
  existsb (fun r => String.eqb (row_level r) lvl) df.

Definition count_level (h : Z) (lvls : list string) (df : list log_row) : nat :=
  length (List.filter (fun r => Z.eqb (hour_of (row_timestamp r)) h
                                && str_in (row_level r) lvls) df).

(** [df_hourly[error_levels].sum(axis=1)], guarded by [any(...)]: the
    selection of a list of columns raises [KeyError] when one of them is
    missing. *)
Definition error_logs_of (df : list log_row) (hours : list Z) : result (list nat) :=
  if existsb (has_column df) error_levels then
    if forallb (has_column df) error_levels
    then Ok (map (fun h => count_level h error_levels df) hours)
    else Raise KeyError
  else Ok (map (fun _ => 0%nat) hours).

(** [error_logs / (total_logs + 1e-6)] *)
Definition rate_of (errors total : nat) : float :=
  (float_of_nat errors / (float_of_nat total + epsilon))%float.

Definition error_rate_anomaly (h : Z) (rate : float) (total : nat) : AnomalyResult :=
  Anomaly (3600 * h) "HIGH_ERROR_RATE"
          (if (0.5 <? rate)%float then "CRITICAL" else "HIGH")
          total rate.

(** The loop over [error_rate.items()], with the single baseline. *)
Fixpoint error_rate_loop (baseline : float) (rows : list (Z * nat * float))
  : list AnomalyResult :=
  match rows with
  | [] => []
  | (h, total, rate) :: rows' =>
      if (error_rate_threshold <? rate)%float && (baseline * 2 <? rate)%float
      then error_rate_anomaly h rate total :: error_rate_loop baseline rows'
      else error_rate_loop baseline rows'
  end.

Definition detect_error_rate_anomalies (df : list log_row) : result (list AnomalyResult) :=
  match df with
  | [] => Ok []
  | _ :: _ =>
      let hours := observed_hours df in
      let total_logs := map (fun h => count_in h df) hours in
      error_logs ← error_logs_of df hours;
      let error_rate := map (fun '(e, t) => rate_of e t) (combine error_logs total_logs) in
      let baseline_error_rate :=
        if (1 <? length error_rate)%nat then mean (removelast error_rate) else 0%float in
      Ok (error_rate_loop baseline_error_rate
            (combine (combine hours total_logs) error_rate))
  end.

(** *** The detection cycle, lines 438-472 *)

Section Cycle.
(** The rolling statistics of the volume strategy. *)
Variable rolling_mean : nat -> list float -> list float.
Variable rolling_std : nat -> list float -> list float.
(** The four strategies that are not modelled further; each may raise. *)
Variable detect_new_template_anomalies : list log_row -> result (list AnomalyResult).
Variable detect_rare_template_anomalies : list log_row -> result (list AnomalyResult).
Variable detect_ml_anomalies : list log_row -> result (list AnomalyResult).
Variable detect_source_anomalies : list log_row -> result (list AnomalyResult).
(** Whether the database answers its n-th operation. *)
Variable responds : nat -> bool.

Record anomaly_store : Type := AnomalyStore {
  anomalies : list AnomalyResult;
  store_calls : nat
}.

Definition detectors : list (string * (list log_row -> result (list AnomalyResult))) := [
  ("Volume", fun df => Ok (detect_volume_anomalies rolling_mean rolling_std df));
  ("Error Rate", detect_error_rate_anomalies);
  ("New Templates", detect_new_template_anomalies);
  ("Rare Templates", detect_rare_template_anomalies);
  ("ML-based", detect_ml_anomalies);
  ("Source", detect_source_anomalies)
].

(** The first loop: a strategy that raises contributes nothing. *)
Definition run_detectors
  (ds : list (string * (list log_row -> result (list AnomalyResult))))
  (df : list log_row) : list AnomalyResult :=
  fold_left
    (fun all_anomalies '(name, detector) =>
       match detector df with
       | Ok found => all_anomalies ++ found
       | Raise _ => all_anomalies
       end)
    ds [].

(** [store_anomaly]: a failed insertion is logged and dropped. *)
Definition store_anomaly (st : anomaly_store) (a : AnomalyResult) : anomaly_store :=
  if responds (store_calls st)
  then AnomalyStore (anomalies st ++ [a]) (S (store_calls st))
  else AnomalyStore (anomalies st) (S (store_calls st)).

Definition run_detection_with
  (ds : list (string * (list log_row -> result (list AnomalyResult))))
  (df : list log_row) (st : anomaly_store) : anomaly_store * list AnomalyResult :=
  let all_anomalies := run_detectors ds df in
  (fold_left store_anomaly all_anomalies st, all_anomalies).

(** [run_detection], on the data frame that [get_recent_logs] returned. *)
Definition run_detection (df : list log_row) (st : anomaly_store)
  : anomaly_store * list AnomalyResult :=
  run_detection_with detectors df st.

End Cycle.

End Detector.

(** ** Severity extraction as the specification words it *)

Module SeveritySpec.

(** The keyword table as the specification gives it: twelve keywords in
    seven classes, highest priority first; a class is named by its first
    keyword. *)
Definition claimed_keyword_table : list (list string * string) := [
  (["EMERGENCY"; "PANIC"], "EMERGENCY");
  (["ALERT"], "ALERT");
  (["CRITICAL"; "FATAL"], "CRITICAL");
  (["ERROR"; "FAIL"], "ERROR");
  (["WARN"; "NOTICE"], "WARN");
  (["INFO"], "INFO");
  (["DEBUG"; "TRACE"], "DEBUG")
].

(** The keyword table of the amended statement: the same classes with
    the six further keywords EMERG, CRIT, ERR, FAILED, WARNING and
    INFORMATION. *)
Definition keyword_table : list (list string * string) := [
  (["EMERGENCY"; "EMERG"; "PANIC"], "EMERGENCY");
  (["ALERT"], "ALERT");
  (["CRITICAL"; "CRIT"; "FATAL"], "CRITICAL");
  (["ERROR"; "ERR"; "FAIL"; "FAILED"], "ERROR");
  (["WARNING"; "WARN"; "NOTICE"], "WARN");
  (["INFO"; "INFORMATION"], "INFO");
  (["DEBUG"; "TRACE"], "DEBUG")
].

(** Two texts that differ at most in the case of their letters. *)
Fixpoint same_ignoring_case (a b : list ascii) : bool :=
  match a, b with
  | [], [] => true
  | x :: a', y :: b' => Ascii.eqb (Py.to_upper x) (Py.to_upper y) && same_ignoring_case a' b'
  | _, _ => false
  end.

(** The text of length [n] at position [i]. *)
Definition slice (m : list ascii) (i n : nat) : list ascii := firstn n (skipn i m).

Definition word_char_at (m : list ascii) (i : nat) : bool :=
  match nth_error m i with
  | Some c => Py.is_word c
  | None => false
  end.

Definition word_char_before (m : list ascii) (i : nat) : bool :=
  match i with
  | O => false
  | S j => word_char_at m j
  end.

Definition positions (m : list ascii) : list nat := seq 0 (S (length m)).

(** [kw] stands at position [i] of [m] as a whole word: no word
    character touches it on either side. *)
Definition whole_word_at (kw m : list ascii) (i : nat) : bool :=
  same_ignoring_case kw (slice m i (length kw))
  && negb (word_char_before m i)
  && negb (word_char_at m (i + length kw)).

Definition occurs_as_word (kw m : string) : bool :=
  existsb (whole_word_at (Py.chars kw) (Py.chars m)) (positions (Py.chars m)).

(** Step 1: the first class of the table with a keyword in the message. *)
Definition explicit_severity_in (table : list (list string * string)) (m : string)
  : option string :=
  match find (fun row => existsb (fun kw => occurs_as_word kw m) (fst row)) table with
  | Some row => Some (snd row)
  | None => None
  end.

Definition explicit_severity (m : string) : option string :=
  explicit_severity_in keyword_table m.

(** Step 2: a run of digits between angle brackets, at position [i]. *)
Fixpoint digit_run (l : list ascii) : list ascii :=
  match l with
  | c :: t => if Py.is_digit c then c :: digit_run t else []
  | [] => []
  end.

Definition priority_at (m : list ascii) (i : nat) : option (list ascii) :=
  match skipn i m with
  | c :: t =>
      if Ascii.eqb c "<" then
        match digit_run t, skipn (length (digit_run t)) t with
        | _ :: _, c' :: _ => if Ascii.eqb c' ">" then Some (digit_run t) else None
        | _, _ => None
        end
      else None
  | [] => None
  end.

Fixpoint first_defined {T} (f : nat -> option T) (l : list nat) : option T :=
  match l with
  | [] => None
  | i :: l' =>
      match f i with
      | Some x => Some x
      | None => first_defined f l'
      end
  end.

(** The digits of the leftmost priority of the message. *)
Definition syslog_priority (m : string) : option (list ascii) :=
  first_defined (priority_at (Py.chars m)) (positions (Py.chars m)).

(** The standard syslog severities, by code. *)
Definition standard_severity (code : Z) : string :=
  match code with
  | 0 => "EMERGENCY" | 1 => "ALERT" | 2 => "CRITICAL" | 3 => "ERROR"
  | 4 => "WARN" | 5 => "NOTICE" | 6 => "INFO" | _ => "DEBUG"
  end%Z.

(** Step 3: [kw] occurs anywhere in the message, in any case. *)
Definition mentions (m kw : string) : bool :=
  existsb (fun i => same_ignoring_case (Py.chars kw)
                      (slice (Py.chars m) i (length (Py.chars kw))))
          (positions (Py.chars m)).

Definition heuristic_severity (m : string) : option string :=
  if existsb (mentions m) ["FAIL"; "ERROR"; "EXCEPTION"; "CRASH"] then Some "ERROR"
  else if existsb (mentions m) ["WARN"; "ALERT"; "DENY"; "BLOCK"] then Some "WARN"
  else if existsb (mentions m) ["DEBUG"; "TRACE"] then Some "DEBUG"
  else None.

(** The number that a run of digits writes, modulo 8, in the standard
    table. *)
Definition priority_severity (digits : list ascii) : string :=
  standard_severity (Py.int_of_digits digits mod 8).

(** The four steps in order, as the specification words them. *)
Definition claimed_severity_of (m : string) : string :=
  match explicit_severity_in claimed_keyword_table m with
  | Some level => level
  | None =>
      match syslog_priority m with
      | Some digits => priority_severity digits
      | None =>
          match heuristic_severity m with
          | Some level => level
          | None => "INFO"
          end
      end
  end.

(** The four steps of the amended statement: the keyword table has
    eighteen keywords, and a priority of more than 4300 digits has no
    severity ([None]: the conversion of the digits raises ValueError). *)
Definition severity_of (m : string) : option string :=
  match explicit_severity m with
  | Some level => Some level
  | None =>
      match syslog_priority m with
      | Some digits =>
          if (length digits <=? Py.max_str_digits)%nat
          then Some (priority_severity digits)
          else None
      | None =>
          match heuristic_severity m with
          | Some level => Some level
          | None => Some "INFO"
          end
      end
  end.

(** Example: a priority of 4301 digits. *)
Definition overlong_priority : string :=
  Py.str ("<"%char :: repeat "7"%char 4301 ++ [">"%char]).

End SeveritySpec.

(** ** Devices for the proofs about the matcher *)

Module Scan.
Import Re Severity SeveritySpec.

(** The first success of a list of attempts. *)
Fixpoint first_some {A} (l : list (option A)) : option A :=
  match l with
  | [] => None
  | x :: l' => orelse x (first_some l')
  end.

(** Exhaustive checks over the 256 characters. *)
Definition all_ascii : list ascii := map ascii_of_nat (seq 0 256).

(** [w] is a prefix of [l], ignoring case. *)
Fixpoint ci_prefix (w l : list ascii) : bool :=
  match w, l with
  | [], _ => true
  | c :: w', a :: l' => ci_eqb c a && ci_prefix w' l'
  | _ :: _, [] => false
  end.

(** The cursor after [n] characters. *)
Fixpoint advance (n : nat) (p : option ascii) (l : list ascii)
  : option ascii * list ascii :=
  match n, l with
  | S n', a :: t => advance n' (Some a) t
  | _, _ => (p, l)
  end.

Definition after (n : nat) (s : mstate) : mstate :=
  MState (fst (advance n (prev s) (rest s))) (snd (advance n (prev s) (rest s))) (caps s).

(** One alternative of a keyword pattern at a given cursor. *)
Definition keyword_try (p : option ascii) (l : list ascii) (w : string)
  : option rmatch_result :=
  let n := length (Py.chars w) in
  if ci_prefix (Py.chars w) l then
    let p' := fst (advance n p l) in
    if xorb (is_word_opt p') (is_word_opt (head (skipn n l)))
    then Some (Match (firstn n l) [("1", firstn n l)] (MState p' (skipn n l) [("1", firstn n l)]))
    else None
  else None.

Definition is_empty_list {T} (l : list T) : bool :=
  match l with
  | [] => true
  | _ :: _ => false
  end.

(** A keyword: a non-empty run of capital letters. *)
Definition keyword (w : string) : bool :=
  match Py.chars w with
  | [] => false
  | cs => forallb Py.is_upper cs
  end.

Definition is_some {T} (o : option T) : bool :=
  match o with
  | Some _ => true
  | None => false
  end.

(** A keyword ends at the cursor's right without a word character after
    it. *)
Definition ends_word (l : list ascii) (w : string) : bool :=
  ci_prefix (Py.chars w) l
  && negb (is_word_opt (head (skipn (length (Py.chars w)) l))).

(** Some keyword of [ws] stands at the cursor as a whole word. *)
Definition hit_here (ws : list string) (p : option ascii) (l : list ascii) : bool :=
  negb (is_word_opt p) && existsb (ends_word l) ws.

(** [f] holds at the cursor or at some later cursor. *)
Fixpoint any_suffix (f : option ascii -> list ascii -> bool) (p : option ascii)
  (l : list ascii) : bool :=
  f p l ||
  match l with
  | [] => false
  | a :: t => any_suffix f (Some a) t
  end.

(** The result of [f] at the first cursor where it is defined. *)
Fixpoint first_suffix {T} (f : option ascii -> list ascii -> option T)
  (p : option ascii) (l : list ascii) : option T :=
  match f p l with
  | Some x => Some x
  | None =>
      match l with
      | [] => None
      | a :: t => first_suffix f (Some a) t
      end
  end.

(** The character before position [i]. *)
Definition prev_at (m : list ascii) (i : nat) : option ascii :=
  match i with
  | O => None
  | S j => nth_error m j
  end.

(** [d[k]] when the key is present. *)
Fixpoint assoc {V} (d : list (string * V)) (k : string) : option V :=
  match d with
  | [] => None
  | (k', v) :: d' => if String.eqb k' k then Some v else assoc d' k
  end.

(** A row of the table agrees with [LEVEL_PATTERNS] and [LEVEL_MAP]. *)
Definition row_ok (row : list string * string) : bool :=
  negb (is_empty_list (fst row))
  && forallb (fun w => keyword w
                       && match assoc LEVEL_MAP w with
                          | Some lvl => String.eqb lvl (snd row)
                          | None => false
                          end) (fst row).

(** The cursor after the digits at its right. *)
Fixpoint skip_digits (p : option ascii) (l : list ascii) : option ascii * list ascii :=
  match l with
  | c :: t => if Py.is_digit c then skip_digits (Some c) t else (p, l)
  | [] => (p, [])
  end.

(** The digits of a priority that starts at the cursor. *)
Definition priority_here (l : list ascii) : option (list ascii) :=
  match l with
  | c :: t =>
      if Ascii.eqb c "<" then
        match digit_run t, skipn (length (digit_run t)) t with
        | _ :: _, c' :: _ => if Ascii.eqb c' ">" then Some (digit_run t) else None
        | _, _ => None
        end
      else None
  | [] => None
  end.

End Scan.

(** ** A decoder of JSON texts

    The parsing functions take [json.loads] as a parameter; this decoder
    is the one that the examples pass for it.  It follows the scanner of
    the [json] module: the grammar of RFC 8259 with the literals [NaN],
    [Infinity] and [-Infinity], strict strings, and ValueError for an
    integer of more than 4300 digits.  A character beyond ASCII that an
    escape denotes is kept as its UTF-8 bytes.  The interpreter's limit
    on nesting is not part of it. *)

Module JsonText.
Import Model.

Definition malformed {A} : result A := Raise JSONDecodeError.

(** JSON whitespace: space, tab, line feed, carriage return. *)
Definition is_ws (c : ascii) : bool :=
  let n := N_of_ascii c in
  (n =? 32)%N || (n =? 9)%N || (n =? 10)%N || (n =? 13)%N.

Fixpoint skip_ws (l : list ascii) : list ascii :=
  match l with
  | c :: t => if is_ws c then skip_ws t else l
  | [] => []
  end.

Definition hex_val (c : ascii) : option N :=
  let n := N_of_ascii c in
  if Py.is_digit c then Some (n - 48)%N
  else if Py.in_range "a" "f" c then Some (n - 87)%N
  else if Py.in_range "A" "F" c then Some (n - 55)%N
  else None.

Definition hex4 (a b c d : ascii) : option N :=
  match hex_val a, hex_val b, hex_val c, hex_val d with
  | Some x, Some y, Some z, Some w => Some (((x * 16 + y) * 16 + z) * 16 + w)%N
  | _, _, _, _ => None
  end.

Definition unescape (c : ascii) : option ascii :=
  if Ascii.eqb c dq then Some dq
  else if Ascii.eqb c bslash then Some bslash
  else if Ascii.eqb c "/" then Some "/"%char
  else if Ascii.eqb c "b" then Some (ascii_of_N 8)
  else if Ascii.eqb c "f" then Some (ascii_of_N 12)
  else if Ascii.eqb c "n" then Some (ascii_of_N 10)
  else if Ascii.eqb c "r" then Some (ascii_of_N 13)
  else if Ascii.eqb c "t" then Some (ascii_of_N 9)
  else None.

(** The UTF-8 bytes of a code point. *)
Definition utf8 (n : N) : list ascii :=
  (if n <? 128 then [ascii_of_N n]
   else if n <? 2048 then [ascii_of_N (192 + n / 64); ascii_of_N (128 + n mod 64)]
   else if n <? 65536 then
     [ascii_of_N (224 + n / 4096); ascii_of_N (128 + (n / 64) mod 64);
      ascii_of_N (128 + n mod 64)]
   else
     [ascii_of_N (240 + n / 262144); ascii_of_N (128 + (n / 4096) mod 64);
      ascii_of_N (128 + (n / 64) mod 64); ascii_of_N (128 + n mod 64)])%N.

Definition is_high_surrogate (n : N) : bool := ((55296 <=? n) && (n <=? 56319))%N.
Definition is_low_surrogate (n : N) : bool := ((56320 <=? n) && (n <=? 57343))%N.

(** The code point of an escape, from its four hexadecimal digits on; a
    high surrogate takes the low surrogate that an escape right after it
    denotes. *)
Definition scan_escape (l : list ascii) : result (N * list ascii) :=
  match l with
  | h1 :: h2 :: h3 :: h4 :: t =>
      match hex4 h1 h2 h3 h4 with
      | Some n =>
          if is_high_surrogate n then
            match t with
            | b :: u :: g1 :: g2 :: g3 :: g4 :: t' =>
                if Ascii.eqb b bslash && Ascii.eqb u "u" then
                  match hex4 g1 g2 g3 g4 with
                  | Some n' =>
                      if is_low_surrogate n'
                      then Ok ((65536 + (n - 55296) * 1024 + (n' - 56320))%N, t')
                      else Ok (n, t)
                  | None => malformed
                  end
                else Ok (n, t)
            | _ => Ok (n, t)
            end
          else Ok (n, t)
      | None => malformed
      end
  | _ => malformed
  end.

(** The body of a string literal, after its opening quote (strict mode:
    a raw control character is an error).  [fuel] is the length of the
    text. *)
Fixpoint scan_string (fuel : nat) (l acc : list ascii) : result (string * list ascii) :=
  match fuel with
  | O => malformed
  | S fuel' =>
      match l with
      | [] => malformed
      | c :: t =>
          if Ascii.eqb c dq then Ok (Py.str (rev acc), t)
          else if Ascii.eqb c bslash then
            match t with
            | e :: t' =>
                if Ascii.eqb e "u" then
                  '(n, t'') ← scan_escape t';
                  scan_string fuel' t'' (rev (utf8 n) ++ acc)
                else
                  match unescape e with
                  | Some x => scan_string fuel' t' (x :: acc)
                  | None => malformed
                  end
            | [] => malformed
            end
          else if (N_of_ascii c <? 32)%N then malformed
          else scan_string fuel' t (c :: acc)
      end
  end.

Definition string_literal (l : list ascii) : result (string * list ascii) :=
  scan_string (length l) l [].

Fixpoint take_digits (l acc : list ascii) : list ascii * list ascii :=
  match l with
  | c :: t => if Py.is_digit c then take_digits t (c :: acc) else (rev acc, l)
  | [] => (rev acc, [])
  end.

(** A JSON number: optional minus, an integer part without leading
    zeros, an optional fraction, an optional exponent; the longest such
    prefix is taken.  A number without fraction and exponent is converted
    by [int]. *)
Definition scan_number (l : list ascii) : result (string * list ascii) :=
  let '(sign, l1) :=
    match l with
    | c :: t => if Ascii.eqb c "-" then ([c], t) else ([], l)
    | [] => ([], l)
    end in
  let int_part :=
    match l1 with
    | c :: t =>
        if Ascii.eqb c "0" then Some ([c], t)
        else if Py.is_digit c then
          let '(ds, r) := take_digits t [] in Some (c :: ds, r)
        else None
    | [] => None
    end in
  match int_part with
  | None => malformed
  | Some (ip, l2) =>
      let '(frac, l3) :=
        match l2 with
        | c :: t =>
            if Ascii.eqb c "." then
              match take_digits t [] with
              | ([], _) => ([], l2)
              | (ds, r) => (c :: ds, r)
              end
            else ([], l2)
        | [] => ([], l2)
        end in
      let '(ex, l4) :=
        match l3 with
        | c :: t =>
            if Ascii.eqb c "e" || Ascii.eqb c "E" then
              let '(sg, t') :=
                match t with
                | s :: u => if Ascii.eqb s "-" || Ascii.eqb s "+" then ([s], u) else ([], t)
                | [] => ([], t)
                end in
              match take_digits t' [] with
              | ([], _) => ([], l3)
              | (ds, r) => (c :: sg ++ ds, r)
              end
            else ([], l3)
        | [] => ([], l3)
        end in
      match frac, ex with
      | [], [] =>
          _ ← or_raise ValueError (Py.int (Py.str (sign ++ ip)));
          Ok (Py.str (sign ++ ip), l4)
      | _, _ => Ok (Py.str (sign ++ ip ++ frac ++ ex), l4)
      end
  end.

Definition strip_prefix (p : string) (l : list ascii) : option (list ascii) :=
  let pc := Py.chars p in
  if Py.starts_with pc l then Some (skipn (length pc) l) else None.

(** One value at the head of [l] (no leading whitespace), and the text
    after it.  [fuel] bounds the number of nested calls; every call is
    preceded by the consumption of a character. *)
Fixpoint scan_value (fuel : nat) (l : list ascii) : result (json * list ascii) :=
  match fuel with
  | O => malformed
  | S fuel' =>
      match l with
      | [] => malformed
      | c :: t =>
          if Ascii.eqb c dq then
            '(s, r) ← string_literal t;
            Ok (JStr s, r)
          else if Ascii.eqb c "{" then
            match skip_ws t with
            | c' :: t' =>
                if Ascii.eqb c' "}" then Ok (JObj [], t')
                else scan_members fuel' (c' :: t') []
            | [] => malformed
            end
          else if Ascii.eqb c "[" then
            match skip_ws t with
            | c' :: t' =>
                if Ascii.eqb c' "]" then Ok (JArr [], t')
                else scan_items fuel' (c' :: t') []
            | [] => malformed
            end
          else
            match strip_prefix "null" l, strip_prefix "true" l, strip_prefix "false" l with
            | Some r, _, _ => Ok (JNull, r)
            | _, Some r, _ => Ok (JBool true, r)
            | _, _, Some r => Ok (JBool false, r)
            | _, _, _ =>
                match strip_prefix "NaN" l, strip_prefix "Infinity" l,
                      strip_prefix "-Infinity" l with
                | Some r, _, _ => Ok (JNum "NaN", r)
                | _, Some r, _ => Ok (JNum "Infinity", r)
                | _, _, Some r => Ok (JNum "-Infinity", r)
                | _, _, _ =>
                    '(n, r) ← scan_number l;
                    Ok (JNum n, r)
                end
            end
      end
  end
(** The members of an object, from the quote of a key on. *)
with scan_members (fuel : nat) (l : list ascii) (acc : list (string * json))
  : result (json * list ascii) :=
  match fuel with
  | O => malformed
  | S fuel' =>
      match l with
      | c :: t =>
          if Ascii.eqb c dq then
            '(key, r) ← string_literal t;
            match skip_ws r with
            | c1 :: r1 =>
                if Ascii.eqb c1 ":" then
                  '(v, r2) ← scan_value fuel' (skip_ws r1);
                  match skip_ws r2 with
                  | c2 :: r3 =>
                      if Ascii.eqb c2 "}" then Ok (JObj (rev ((key, v) :: acc)), r3)
                      else if Ascii.eqb c2 "," then
                        scan_members fuel' (skip_ws r3) ((key, v) :: acc)
                      else malformed
                  | [] => malformed
                  end
                else malformed
            | [] => malformed
            end
          else malformed
      | [] => malformed
      end
  end
(** The items of an array, from the first character of an item on. *)
with scan_items (fuel : nat) (l : list ascii) (acc : list json)
  : result (json * list ascii) :=
  match fuel with
  | O => malformed
  | S fuel' =>
      '(v, r) ← scan_value fuel' l;
      match skip_ws r with
      | c :: r' =>
          if Ascii.eqb c "]" then Ok (JArr (rev (v :: acc)), r')
          else if Ascii.eqb c "," then scan_items fuel' (skip_ws r') (v :: acc)
          else malformed
      | [] => malformed
      end
  end.

Definition loads (s : string) : result json :=
  let l := Py.chars s in
  '(v, r) ← scan_value (2 * length l + 2) (skip_ws l);
  match skip_ws r with
  | [] => Ok v
  | _ :: _ => malformed
  end.

End JsonText.

(** ** Line classification as the specification words it, and the
    concrete inputs of the examples *)

Module ParseSpec.
Import Re Model.

(** A Rocq string literal cannot hold a double quote: in the example
    lines an apostrophe stands for one. *)
Definition json_quotes (text : string) : string :=
  Py.str (map (fun c => if Ascii.eqb c "'" then dq else c) (Py.chars text)).

(** The library of the examples: the clock reads 0, the two date
    parsers reject every text (no example line carries a date that the
    result depends on), and JSON texts are decoded by [JsonText.loads]. *)
Definition epoch : datetime := 0%Z.
Definition no_strptime (ts fmt : string) : option datetime := None.
Definition no_fromisoformat (ts : string) : option datetime := None.

(** The order in which the registry declares its entries. *)
Definition declared_order : list string :=
  ["syslog"; "apache_access"; "nginx_access"; "firewall"; "cisco_syslog";
   "windows_event"; "json_structured"; "docker"].

Definition pattern_named (name : string) : option regex :=
  match find (fun e => String.eqb (fst e) name) LOG_PATTERNS with
  | Some e => Some (pattern (snd e))
  | None => None
  end.

Definition matches_line (r : regex) (line : string) : bool :=
  match re_match false r line with
  | Some _ => true
  | None => false
  end.

Definition entry_matches (line name : string) : bool :=
  match pattern_named name with
  | Some r => matches_line r line
  | None => false
  end.

Definition decodes_to_object (json_loads : string -> result json) (line : string) : bool :=
  match json_loads line with
  | Ok (JObj _) => true
  | _ => false
  end.

(** The format tag: [json] for a line that starts with a brace and
    decodes to an object; otherwise the first entry, in declared order,
    whose pattern matches; otherwise [unknown]. *)
Definition classify (json_loads : string -> result json) (line : string) : string :=
  if Py.startswith (Py.strip line) "{" && decodes_to_object json_loads line then "json"
  else
    match find (entry_matches line) declared_order with
    | Some name => name
    | None => "unknown"
    end.

(** The network map derived from the structured captures alone: the
    state of [network_info] before the message is looked at. *)
Definition captured_network (now : datetime)
  (strptime : string -> string -> option datetime)
  (fromisoformat : string -> option datetime)
  (json_loads : string -> result json) (line : string)
  : option (gmap string value) :=
  match structured_stage now strptime fromisoformat json_loads line with
  | Ok v => Some (l_network_info v)
  | Raise _ => None
  end.

(** A captured [protocol] after lines 572-575. *)
Definition protocol_name (v : value) : value :=
  match v with
  | VStr p => if Py.isdigit p then VStr (Severity.dict_get PROTOCOL_MAP p p) else v
  | _ => v
  end.

(** Example lines. *)
Definition cisco_line : string :=
  "Jul 10 12:00:01 router %LINK-3-UPDOWN: Interface down".
Definition overwritten_line : string :=
  json_quotes "{'message':'conn 1.1.1.1 to 2.2.2.2','src_ip':'10.1.1.1'}".
Definition explicit_info_line : string :=
  json_quotes "{'level':'INFO','message':'disk ERROR'}".

End ParseSpec.

(** ** Miner failures and the intended upsert, for the statements about
    template bookkeeping *)

Module IngestSpec.
Import Model Mongo Ingest.

Definition is_hex (c : ascii) : bool := Py.is_digit c || Py.in_range "a" "f" c.

(** The two ways in which the miner fails to mine a message, with the
    prefix of the pseudo-template and the state that results: it was
    never initialised, or [add_log_message] raises. *)
Definition miner_failure {miner : Type}
  (add_log_message : miner -> string -> miner * result miner_result)
  (st : state miner) (message : string) : option (string * state miner) :=
  match template_miner miner st with
  | None => Some ("fallback_", st)
  | Some m =>
      match add_log_message m message with
      | (m', Raise _) => Some ("error_", State miner (db miner st) (Some m'))
      | (_, Ok _) => None
      end
  end.

(** The update document of the upsert without the [count] entry of
    [$setOnInsert]. *)
Definition template_update_without_conflict (result : template_info)
  (timestamp : datetime) : list (operator * list (string * bson)) :=
  [ (op_set, [("template", match template result with
                           | Some t => BStr t
                           | None => BNull
                           end);
              ("last_seen", BTime timestamp);
              ("cluster_size", BInt (cluster_size result))]);
    (op_setOnInsert, [("first_seen", BTime timestamp)]);
    (op_inc, [("count", BInt 1)]) ].

(** The library of the examples: no miner state, a database that always
    answers, a decoder that accepts every text. *)
Definition unit_miner_raises (m : unit) (message : string) : unit * result miner_result :=
  (m, Raise OtherError).
Definition no_clusters (m : unit) : option (list (Z * cluster)) := None.
Definition always_responds (n : nat) : bool := true.
Definition decode_ascii (content : string) : option string := Some content.
Definition empty_database : database := Database [] [] [] 0.

(** A service whose miner was never initialised, and one whose miner
    raises on every message. *)
Definition without_miner : state unit := State unit empty_database None.
Definition with_failing_miner : state unit := State unit empty_database (Some tt).

(** An upload of three lines, the second of them blank. *)
Definition three_lines : string :=
  "disk full" ++ String Py.newline ("   " ++ String Py.newline "link up").

End IngestSpec.

(** ** The detectors, bucket by bucket, and the rolling statistics of the
    examples *)

Module DetectorSpec.
Import Model Detector.

(** The [w] values up to and including position [i]. *)
Definition window_ending_at (xs : list float) (w i : nat) : list float :=
  lastn w (firstn (S i) xs).

(** The [w] values before position [i]. *)
Definition window_before (xs : list float) (w i : nat) : list float :=
  lastn w (firstn i xs).

(** What the statements about the volume detector assume of a rolling
    statistic: a bucket that does not close a full window has no value
    (NaN); [min_periods] is the window size. *)
Definition nan_before_full (roll : nat -> list float -> list float) : Prop :=
  forall w xs i x,
    (S i < w)%nat -> nth_error (roll w xs) i = Some x -> x = PrimFloat.nan.

(** The library of the examples: every window is aggregated from its own
    values, the deviation by the two-pass formula of the sample standard
    deviation ([ddof=1]). *)
Definition sample_std (xs : list float) : float :=
  let m := mean xs in
  PrimFloat.sqrt
    (fsum (map (fun x => ((x - m) * (x - m))%float) xs)
     / float_of_nat (length xs - 1))%float.

Fixpoint rolling_from (agg : list float -> float) (w : nat) (seen xs : list float)
  : list float :=
  match xs with
  | [] => []
  | x :: xs' =>
      let seen' := seen ++ [x] in
      (if (length seen' <? w)%nat then PrimFloat.nan else agg (lastn w seen'))
        :: rolling_from agg w seen' xs'
  end.

Definition rolling (agg : list float -> float) (w : nat) (xs : list float) : list float :=
  rolling_from agg w [] xs.

Definition window_mean : nat -> list float -> list float := rolling mean.
Definition window_std : nat -> list float -> list float := rolling sample_std.

Definition z_score (x : float) (window : list float) : float :=
  ((x - mean window) / (sample_std window + epsilon))%float.

Definition bucket_counts (df : list log_row) : list float :=
  map (fun b => float_of_nat (snd b)) (resample_size df).

(** The score of bucket [i] against the [min(24, N-1)] buckets before it. *)
Definition z_against_prior (df : list log_row) (i : nat) : float :=
  let xs := bucket_counts df in
  z_score (nth i xs 0%float) (window_before xs (Nat.min 24 (length xs - 1)) i).

(** What an anomaly says of its bucket, the score apart. *)
Definition report_of (a : AnomalyResult) : Z * string * string * nat :=
  (a_timestamp a, a_anomaly_type a, a_severity a, a_log_count a).

(** The error rate of the bucket of hour [h]. *)
Definition error_rate (df : list log_row) (h : Z) : float :=
  rate_of (count_level h error_levels df) (count_in h df).

Definition error_rates (df : list log_row) : list float :=
  map (error_rate df) (observed_hours df).

(** One baseline for the whole window: the mean rate of all buckets but
    the last. *)
Definition baseline (df : list log_row) : float :=
  if (1 <? length (error_rates df))%nat then mean (removelast (error_rates df))
  else 0%float.

Definition error_rate_anomalies (df : list log_row) : list AnomalyResult :=
  flat_map
    (fun h =>
       let rate := error_rate df h in
       if (error_rate_threshold <? rate)%float && (baseline df * 2 <? rate)%float
       then [Anomaly (3600 * h) "HIGH_ERROR_RATE"
                     (if (0.5 <? rate)%float then "CRITICAL" else "HIGH")
                     (count_in h df) rate]
       else [])
    (observed_hours df).

(** The selection of the four error columns succeeds: all of them occur
    in the window, or the guard finds none of them. *)
Definition columns_selectable (df : list log_row) : bool :=
  implb (existsb (has_column df) error_levels) (forallb (has_column df) error_levels).

(** The mean rate of the buckets before bucket [i]. *)
Definition earlier_mean (df : list log_row) (i : nat) : float :=
  mean (firstn i (error_rates df)).

(** What the strategies that did not raise found, in order. *)
Definition found_by (df : list log_row)
  (entry : string * (list log_row -> result (list AnomalyResult))) : list AnomalyResult :=
  match snd entry df with
  | Ok found => found
  | Raise _ => []
  end.

(** The anomalies that the store accepts, when its next operation is the
    [n]-th. *)
Fixpoint accepted (responds : nat -> bool) (n : nat) (l : list AnomalyResult)
  : list AnomalyResult :=
  match l with
  | [] => []
  | a :: l' => (if responds n then [a] else []) ++ accepted responds (S n) l'
  end.

(** Example windows: [n] records of level [lvl] in hour [h]. *)
Definition rows (h : Z) (n : nat) (lvl : string) : list log_row :=
  repeat (LogRow (3600 * h + 5) lvl "m" "s" 1 "t") n.

(** [n] consecutive hours from hour [h] on, [k] records in each. *)
Fixpoint steady (h : Z) (n k : nat) : list log_row :=
  match n with
  | O => []
  | S n' => rows h k "INFO" ++ steady (h + 1) n' k
  end.

(** 23 hours of 10 records, then one hour of 500. *)
Definition spike_window : list log_row := steady 0 23 10 ++ rows 23 500 "INFO".

(** Three quiet hours, then a burst. *)
Definition burst_window : list log_row :=
  rows 0 1 "INFO" ++ rows 1 1 "INFO" ++ rows 2 1 "INFO" ++ rows 3 50 "INFO".

(** Error rates 0.05, 0.4 and 0.03 over three hours. *)
Definition rate_window : list log_row :=
  rows 0 1 "ERROR" ++ rows 0 19 "INFO" ++ rows 1 4 "ERROR" ++ rows 1 6 "INFO"
  ++ rows 2 1 "CRITICAL" ++ rows 2 1 "FATAL" ++ rows 2 1 "WARN" ++ rows 2 97 "INFO".

Definition never_raises (df : list log_row) : result (list AnomalyResult) := Ok [].
Definition always_raises (df : list log_row) : result (list AnomalyResult) := Raise OtherError.

End DetectorSpec.

(** ** Severity: what the three scans determine *)

Module SeverityMore.
Import SeveritySpec.


(** The eight severity names. *)
Definition level_names : list string :=
  ["EMERGENCY"; "ALERT"; "CRITICAL"; "ERROR"; "WARN"; "NOTICE"; "INFO"; "DEBUG"].

(** What the three scans of a message come to. *)
Inductive scan_outcome : Type :=
| Level (name : string)   (* a scan fired and determined the level *)
| NoLevel                 (* no scan fired *)
| Overlong                (* the priority has more than 4300 digits *).

(** The keyword scan, the priority scan and the heuristic scan, in this
    order. *)
Definition determined_severity (m : string) : scan_outcome :=
  match explicit_severity m with
  | Some level => Level level
  | None =>
      match syslog_priority m with
      | Some digits =>
          if (length digits <=? Py.max_str_digits)%nat
          then Level (priority_severity digits)
          else Overlong
      | None =>
          match heuristic_severity m with
          | Some level => Level level
          | None => NoLevel
          end
      end
  end.

(** What a call with default level [default] then does: it returns a
    level, or raises ValueError ([None]). *)
Definition outcome_with (default : string) (o : scan_outcome) : option string :=
  match o with
  | Level name => Some name
  | NoLevel => Some default
  | Overlong => None
  end.

End SeverityMore.

(** ** Network extraction stage by stage, and more example lines *)

Module ParseMore.
Import Re Model ParseSpec.

Definition port_in_range (port : string) : Prop :=
  exists n, Py.int port = Some n /\ (1 <= n <= 65535)%Z.

(** [if l: d[k] = l] *)
Definition with_list (k : string) (l : list string) (d : gmap string value)
  : gmap string value :=
  match l with
  | [] => d
  | _ => <[k := VList l]> d
  end.

(** Lines 122-129 on an empty dictionary. *)
Definition with_addresses (ips : list string) : gmap string value :=
  match ips with
  | [] => ∅
  | ip0 :: ips' =>
      match ips' with
      | ip1 :: _ =>
          <["dst_ip" := VStr ip1]> (<["src_ip" := VStr ip0]> (<["ip_addresses" := VList ips]> ∅))
      | [] => <["ip_address" := VStr ip0]> (<["ip_addresses" := VList ips]> ∅)
      end
  end.

(** The texts that the port patterns capture, in the order of the two
    loops. *)
Definition port_candidates (message : string) : list string :=
  map (group_text "port")
      (flat_map (fun pattern => re_finditer true pattern message) port_patterns).

(** The state of the port loops after the candidates [seen]: the ports
    collected so far, or the ValueError of a candidate. *)
Definition ports_so_far (seen : list string) (collected : option (list string)) : Prop :=
  match collected with
  | Some ports =>
      List.NoDup ports /\ List.Forall port_in_range ports /\
      (forall port, In port seen -> Py.int port <> None)
  | None => exists port, In port seen /\ Py.int port = None
  end.

(** The dictionary of [extract_network_info] when the port loops have
    collected [ports]. *)
Definition network_of (message : string) (ports : list string) : gmap string value :=
  with_list "mac_addresses" (findall false mac_pattern "mac" message)
    (with_list "protocols" (collect_protocols message)
       (with_list "ports" ports
          (with_addresses (findall false ip_pattern "ip" message)))).

(** The keys that [extract_network_info] can set. *)
Definition network_keys : list string :=
  ["ip_addresses"; "src_ip"; "dst_ip"; "ip_address"; "ports"; "protocols"; "mac_addresses"].

(** Example lines. *)
Definition firewall_line : string :=
  "kernel: DENY IN=eth0 SRC=1.2.3.4 DST=5.6.7.8 SPT=1000 DPT=22 PROTO=TCP".
Definition json_warning_line : string :=
  json_quotes "{'severity':'warning','msg':'link flap on eth0','host':'sw1'}".
Definition plain_line : string := "  connection refused from 10.0.0.5 port 22  ".
Definition protocols_message : string :=
  "tcp 10.0.0.5:443 -> 10.0.0.9:53 proto=udp TCP retransmit".

End ParseMore.

(** ** The Fluent Bit endpoint and the query document *)

Module IngestMore.
Import Model Mongo Ingest.

(** [FluentBitLogEntry], main.py lines 363-367. *)
Record FluentBitLogEntry : Type := FluentBit {
  fb_log : string;
  fb_time : option string;
  fb_tag : option string;
  fb_source : option string
}.

(** [x or y], for an optional string [x] and a string [y]. *)
Definition or_else (x : option string) (y : string) : string :=
  match x with
  | Some s => if String.eqb s "" then y else s
  | None => y
  end.

(** [fb_log.source or fb_log.tag or 'fluent-bit'] *)
Definition source_of (fb : FluentBitLogEntry) : string :=
  or_else (fb_source fb) (or_else (fb_tag fb) "fluent-bit").

(** The dictionary with the tag under [tag] if [fb_log.tag] is true,
    else the empty one. *)
Definition metadata_of (fb : FluentBitLogEntry) : gmap string value :=
  match fb_tag fb with
  | Some t => if negb (String.eqb t "") then {["tag" := VStr t]} else ∅
  | None => ∅
  end.

Record fluent_bit_response : Type := FluentBitResponse {
  fr_processed_logs : nat;
  fr_failed_logs : nat
}.

Section Service.
Variable now : datetime.
Variable fromisoformat : string -> option datetime.
Variable miner : Type.
Variable add_log_message : miner -> string -> miner * result miner_result.
Variable id_to_cluster : miner -> option (list (Z * cluster)).
Variable logparser_drain : bool.
Variable responds : nat -> bool.

(** Lines 994-1001: the clock reading, replaced by the entry's own time
    when that is given and parses; a failure to parse is only logged. *)
Definition timestamp_of (fb : FluentBitLogEntry) : datetime :=
  match fb_time fb with
  | Some t =>
      if negb (String.eqb t "") then
        match fromisoformat (replace_Z t) with
        | Some ts => ts
        | None => now
        end
      else now
  | None => now
  end.

(** Lines 1004-1009: level, format tag, network information and parsed
    fields are left to their defaults. *)
Definition enhanced_entry_of (fb : FluentBitLogEntry) : EnhancedLogEntry :=
  Entry (fb_log fb) (timestamp_of fb) "INFO" (source_of fb) None ∅ ∅ (metadata_of fb).

(** One iteration of the loop of lines 991-1018. *)
Definition ingest_fluent_bit_entry (acc : state miner * counters) (fb : FluentBitLogEntry)
  : state miner * counters :=
  let '(st, c) := acc in
  let enhanced_entry := enhanced_entry_of fb in
  let '(st1, template_info) :=
    process_log_with_enhanced_parsing miner add_log_message id_to_cluster logparser_drain
      responds (e_message enhanced_entry) (e_timestamp enhanced_entry) "drain3" st in
  match store_enhanced_log_entry miner responds enhanced_entry template_info None None st1 with
  | (st2, Ok _) => (st2, Counters (S (processed_count c)) (failed_count c))
  | (st2, Raise _) => (st2, Counters (processed_count c) (S (failed_count c)))
  end.

Definition ingest_fluent_bit_logs (logs : list FluentBitLogEntry) (st : state miner)
  : state miner * fluent_bit_response :=
  let '(st', c) := fold_left ingest_fluent_bit_entry logs (st, Counters 0 0) in
  (st', FluentBitResponse (processed_count c) (failed_count c)).

End Service.

(** *** The query document of [query_logs], lines 1031-1069 *)

(** [LogQueryRequest], lines 329-342 (the paging fields apart). *)
Record LogQueryRequest : Type := Query {
  q_template_id : option tid;
  q_start_time : option datetime;
  q_end_time : option datetime;
  q_level : option string;
  q_source : option string;
  q_message_contains : option string;
  q_file_id : option string;
  q_log_type : option string;
  q_has_network_info : option bool;
  q_protocol : option string;
  q_ip_address : option string
}.

(** The conditions that the query document can hold for a field. *)
#[warnings="-register-all"]
Inductive condition : Type :=
| Equals (v : bson)                                   (* field: v *)
| Between (gte lte : option datetime)                 (* $gte, $lte *)
| Regex (pattern options : string)                    (* $regex, $options *)
| NotEmptyDict                                        (* $ne: {} *)
| EmptyDict                                           (* $eq: {} *)
| AmongStrings (l : list string)                      (* $in *)
| AnyOf (alternatives : list (string * condition))    (* $or *).

(** [mongo_query[k] = c]: a dictionary in insertion order. *)
Definition set_key (k : string) (c : condition) (q : list (string * condition))
  : list (string * condition) :=
  if existsb (fun kc => String.eqb (fst kc) k) q
  then map (fun kc => if String.eqb (fst kc) k then (k, c) else kc) q
  else q ++ [(k, c)].

Definition when_text (o : option string) (f : string -> list (string * condition) ->
                                                list (string * condition))
  (q : list (string * condition)) : list (string * condition) :=
  match o with
  | Some s => if negb (String.eqb s "") then f s q else q
  | None => q
  end.

Definition mongo_query (query : LogQueryRequest) : list (string * condition) :=
  let q := [] in
  let q := match q_template_id query with
           | Some t => set_key "template_id" (Equals (bson_of_tid t)) q
           | None => q
           end in
  let q := match q_start_time query, q_end_time query with
           | None, None => q
           | gte, lte => set_key "timestamp" (Between gte lte) q
           end in
  let q := when_text (q_level query) (fun s => set_key "level" (Equals (BStr s))) q in
  let q := when_text (q_source query) (fun s => set_key "source" (Regex s "i")) q in
  let q := when_text (q_message_contains query)
                     (fun s => set_key "message" (Regex s "i")) q in
  let q := when_text (q_file_id query) (fun s => set_key "file_id" (Equals (BStr s))) q in
  let q := when_text (q_log_type query) (fun s => set_key "log_type" (Equals (BStr s))) q in
  let q := match q_has_network_info query with
           | Some true =>
               set_key "network_info"
                 (match q_has_network_info query with
                  | Some true => NotEmptyDict
                  | _ => EmptyDict
                  end) q
           | _ => q
           end in
  let q := when_text (q_protocol query)
                     (fun s => set_key "network_info.protocols" (AmongStrings [Py.upper s])) q in
  when_text (q_ip_address query)
    (fun s => set_key "$or"
       (AnyOf [("network_info.ip_addresses", AmongStrings [s]);
               ("network_info.src_ip", Equals (BStr s));
               ("network_info.dst_ip", Equals (BStr s))])) q.

(** *** What the statements about stored documents speak of *)

(** A document stored for an upload carries the upload's identifier and
    file name. *)
Definition of_upload (file_id filename : string) (doc : log_doc) : Prop :=
  d_file_id doc = Some file_id /\ d_filename doc = Some filename.

(** A document stored by the Fluent Bit endpoint: only message, time,
    source and the tag are the sender's. *)
Definition plain_document (doc : log_doc) : Prop :=
  e_level (d_entry doc) = "INFO" /\
  e_log_type (d_entry doc) = None /\
  e_network_info (d_entry doc) = ∅ /\
  e_parsed_fields (d_entry doc) = ∅ /\
  e_source (d_entry doc) <> "" /\
  d_file_id doc = None /\ d_filename doc = None.

(** The query document asks nowhere for an empty dictionary. *)
Definition no_empty_dict (kc : string * condition) : Prop := snd kc <> EmptyDict.

(** No document of the collection carries this file identifier. *)
Definition fresh_file_id (file_id : string) (coll : list (gmap string bson)) : Prop :=
  List.Forall (fun doc => matches [("file_id", BStr file_id)] doc = false) coll.

(** The file names that [upload_logs] accepts. *)
Definition supported (filename : string) : bool :=
  negb (String.eqb filename "") &&
  (endswith filename ".log" || endswith filename ".txt" || endswith filename ".json").

(** The request with another [has_network_info]. *)
Definition with_has_network_info (b : option bool) (query : LogQueryRequest)
  : LogQueryRequest :=
  Query (q_template_id query) (q_start_time query) (q_end_time query) (q_level query)
        (q_source query) (q_message_contains query) (q_file_id query) (q_log_type query)
        b (q_protocol query) (q_ip_address query).

(** A miner that answers without a result and holds three clusters. *)
Definition silent_miner (m : unit) (message : string) : unit * result miner_result :=
  (m, Ok RNone).
Definition three_clusters (m : unit) : option (list (Z * cluster)) :=
  Some [(3%Z, Cluster None (Some ["disk"; "<*>"]) (Some 4%Z));
        (7%Z, Cluster (Some (Some "user <*> logged in")) None None);
        (5%Z, Cluster None None None)].
Definition with_silent_miner : state unit :=
  State unit (Database [] [] [] 0) (Some tt).

End IngestMore.

(** ** The source detector ([detect_source_anomalies], lines 372-416) *)

Module DetectorMore.
Import Model Detector DetectorSpec.

(** The keys of a [groupby]: the distinct values, ascending. *)
Fixpoint insert_key (s : string) (keys : list string) : list string :=
  match keys with
  | [] => [s]
  | k :: keys' =>
      if String.eqb s k then keys
      else if String.ltb s k then s :: keys
      else k :: insert_key s keys'
  end.

Definition group_keys (values : list string) : list string :=
  fold_right insert_key [] values.

(** One cell of the table [source_activity]: the records of a source in
    an hour. *)
Definition count_source (source : string) (h : Z) (df : list log_row) : nat :=
  length (List.filter (fun r => Z.eqb (hour_of (row_timestamp r)) h
                                && String.eqb (row_source r) source) df).

(** [source_activity.loc[source]]: one cell for every hour in which some
    source has a record. *)
Definition source_data (df : list log_row) (source : string) : list nat :=
  map (fun h => count_source source h df) (observed_hours df).

(** The body of the loop over the sources; the anomaly is paired with
    the source that its description and its details name. *)
Definition source_silence (now : datetime) (data : list nat) (source : string)
  : list (string * AnomalyResult) :=
  if (list_sum data <? 10)%nat then []
  else
    let recent_activity := list_sum (lastn 2 data) in
    let historical_avg :=
      if (2 <? length data)%nat
      then mean (map float_of_nat (firstn (length data - 2) data))
      else 0%float in
    if (recent_activity =? 0)%nat && (5 <? historical_avg)%float
    then [(source, Anomaly now "SOURCE_SILENCE" "MEDIUM" 0 historical_avg)]
    else [].

Definition silent_sources (now : datetime) (df : list log_row)
  : list (string * AnomalyResult) :=
  match df with
  | [] => []
  | _ :: _ =>
      flat_map (fun source => source_silence now (source_data df source) source)
               (group_keys (map row_source df))
  end.

Definition detect_source_anomalies (now : datetime) (df : list log_row)
  : list AnomalyResult :=
  map snd (silent_sources now df).

(** The records of a source in the whole window. *)
Definition records_of (source : string) (df : list log_row) : nat :=
  length (List.filter (fun r => String.eqb (row_source r) source) df).

(** ** More example windows *)

(** [n] records of source [s] in hour [h]. *)
Definition from_source (s : string) (h : Z) (n : nat) : list log_row :=
  repeat (LogRow (3600 * h + 5) "INFO" "m" s 1 "t") n.

(** Source [db] logs for three hours and stops; source [web] goes on. *)
Definition silence_window : list log_row :=
  from_source "db" 0 6 ++ from_source "db" 1 7 ++ from_source "db" 2 8 ++
  from_source "web" 1 1 ++ from_source "web" 3 2 ++ from_source "web" 4 2.

(** The same hours without the other source. *)
Definition lone_source_window : list log_row :=
  from_source "db" 0 6 ++ from_source "db" 1 7 ++ from_source "db" 2 8.

(** One ERROR among INFO records: CRITICAL, FATAL and WARN do not occur. *)
Definition mixed_window : list log_row := rows 0 1 "ERROR" ++ rows 0 9 "INFO".

(** Three hours of INFO and DEBUG records. *)
Definition calm_window : list log_row :=
  rows 0 5 "INFO" ++ rows 1 7 "DEBUG" ++ rows 2 200 "INFO".

End DetectorMore.

(** ** The console report of the detector ([main], line 542) *)

Module Report.
Import Model Detector.

(** [sorted(anomalies, key=lambda x: x.severity, reverse=True)]: the
    anomalies in descending order of the severity text; anomalies of
    equal severity keep their order. *)
Fixpoint insert_descending (x : AnomalyResult) (sorted : list AnomalyResult)
  : list AnomalyResult :=
  match sorted with
  | [] => [x]
  | y :: sorted' =>
      if String.ltb (a_severity y) (a_severity x) then x :: sorted
      else y :: insert_descending x sorted'
  end.

Definition report_order (anomalies : list AnomalyResult) : list AnomalyResult :=
  fold_left (fun sorted x => insert_descending x sorted) anomalies [].

(** The anomalies of one severity, in their order. *)
Definition of_severity (severity : string) (anomalies : list AnomalyResult)
  : list AnomalyResult :=
  List.filter (fun a => String.eqb (a_severity a) severity) anomalies.

(** The four severities that the data class names. *)
Definition severities : list string := ["LOW"; "MEDIUM"; "HIGH"; "CRITICAL"].

(** Example: one anomaly of each of three severities. *)
Definition three_anomalies : list AnomalyResult :=
  [Anomaly 0 "HIGH_ERROR_RATE" "CRITICAL" 10 1;
   Anomaly 0 "VOLUME_SPIKE" "MEDIUM" 500 4;
   Anomaly 0 "VOLUME_SPIKE" "HIGH" 900 6].

End Report.

(** ** Further example inputs *)

Module MoreExamples.
Import Model ParseSpec.

(** A JSON line whose timestamp is no ISO date. *)
Definition bad_timestamp_line : string :=
  json_quotes "{'level':'error','message':'db down','timestamp':'yesterday'}".

(** An upload that holds only white space. *)
Definition blank_upload : string := "  " ++ String Py.newline "  ".

(** A syslog line, and a [strptime] that reads every stamp as one
    instant. *)
Definition sshd_line : string :=
  "Jul 10 12:00:01 host sshd[1234]: Failed password for root from 10.0.0.5 port 22 ssh2".
Definition one_instant (ts fmt : string) : option datetime := Some 1720612801%Z.

End MoreExamples.

(** * Facts about the matcher *)

Module ReFacts.
Import Re Scan.

Section Ext.
Context {A : Type}.
Variable ci : bool.

Lemma star_loop_ext (step : (mstate -> option A) -> mstate -> option A) greedy k k' fuel :
  (forall k1 k2 s, (forall s', k1 s' = k2 s') -> step k1 s = step k2 s) ->
  (forall s, k s = k' s) ->
  forall s, star_loop step greedy k fuel s = star_loop step greedy k' fuel s.
Proof.
  intros Hstep Hk. induction fuel as [|fuel IH]; intros s; simpl.
  - apply Hk.
  - rewrite (Hk s).
    rewrite (Hstep _ (fun s' => if (length (rest s') <? length (rest s))%nat
                                then star_loop step greedy k' fuel s' else None) s).
    + reflexivity.
    + intros s'. destruct (_ <? _)%nat; [apply IH | reflexivity].
Qed.

Lemma rmatch_ext r : forall (k k' : mstate -> option A) s,
  (forall s', k s' = k' s') -> rmatch ci r k s = rmatch ci r k' s.
Proof.
  induction r as [| cl | r1 IH1 r2 IH2 | r1 IH1 r2 IH2 | g r IH | n r IH | | |];
    intros k k' s Hk; simpl.
  - apply Hk.
  - destruct (rest s); [reflexivity|]. destruct (cmatch ci cl a); [apply Hk | reflexivity].
  - apply IH1. intros s'. apply IH2, Hk.
  - rewrite (IH1 k k' s Hk), (IH2 k k' s Hk). reflexivity.
  - apply star_loop_ext; [|exact Hk]. intros k1 k2 s0 H. apply IH, H.
  - apply IH. intros s'. apply Hk.
  - destruct (prev s); [reflexivity | apply Hk].
  - destruct (at_end s); [apply Hk | reflexivity].
  - destruct (at_boundary s); [apply Hk | reflexivity].
Qed.

Lemma rmatch_Cat_cons r rs (k : mstate -> option A) s :
  rmatch ci (Cat (r :: rs)) k s = rmatch ci r (rmatch ci (Cat rs) k) s.
Proof. destruct rs; reflexivity. Qed.

Lemma orelse_None_r (x : option A) : orelse x None = x.
Proof. destruct x; reflexivity. Qed.

Lemma rmatch_Any rs (k : mstate -> option A) s :
  rs <> [] -> rmatch ci (Any rs) k s = first_some (map (fun r => rmatch ci r k s) rs).
Proof.
  induction rs as [|r rs IH]; [congruence|]. intros _.
  destruct rs as [|r' rs].
  - simpl. symmetry. apply orelse_None_r.
  - change (Any (r :: r' :: rs)) with (Alt r (Any (r' :: rs))).
    change (rmatch ci (Alt r (Any (r' :: rs))) k s)
      with (orelse (rmatch ci r k s) (rmatch ci (Any (r' :: rs)) k s)).
    rewrite IH by congruence. reflexivity.
Qed.

End Ext.

End ReFacts.

(** * Severity extraction follows the four steps *)

Module SeverityFacts.
Import Re Severity SeveritySpec Scan ReFacts.

Lemma all_ascii_complete a : In a all_ascii.
Proof.
  unfold all_ascii. rewrite <- (ascii_nat_embedding a). apply in_map.
  apply in_seq. pose proof (nat_ascii_bounded a). lia.
Qed.

Lemma forall_ascii (P : ascii -> bool) :
  forallb P all_ascii = true -> forall a, P a = true.
Proof. intros H a. rewrite forallb_forall in H. apply H, all_ascii_complete. Qed.

Lemma forall_ascii2 (P : ascii -> ascii -> bool) :
  forallb (fun a => forallb (P a) all_ascii) all_ascii = true ->
  forall a b, P a b = true.
Proof. intros H a b. apply (forall_ascii (P a)). apply (forall_ascii _ H). Qed.

(** A keyword letter matches, ignoring case, exactly the characters whose
    upper case it is; all of them are word characters. *)
Lemma ci_upper_letter c a :
  Py.is_upper c = true ->
  ci_eqb c a = Ascii.eqb (Py.to_upper c) (Py.to_upper a).
Proof.
  intros Hc.
  pose proof (forall_ascii2
    (fun c a => implb (Py.is_upper c)
                  (Bool.eqb (ci_eqb c a) (Ascii.eqb (Py.to_upper c) (Py.to_upper a))))) as H.
  specialize (H ltac:(vm_compute; reflexivity) c a). cbv beta in H.
  rewrite Hc in H. simpl in H. apply Bool.eqb_prop in H. exact H.
Qed.

Lemma ci_upper_letter_word c a :
  Py.is_upper c = true -> ci_eqb c a = true ->
  Py.is_word a = true /\ Py.to_upper a = c.
Proof.
  intros Hc Ha.
  pose proof (forall_ascii2
    (fun c a => implb (Py.is_upper c && ci_eqb c a)
                  (Py.is_word a && Ascii.eqb (Py.to_upper a) c))) as H.
  specialize (H ltac:(vm_compute; reflexivity) c a). cbv beta in H.
  rewrite Hc, Ha in H. simpl in H. apply andb_prop in H as [H1 H2].
  split; [exact H1 | apply Ascii.eqb_eq, H2].
Qed.

Lemma rmatch_Lit {A} w (k : mstate -> option A) s :
  rmatch true (Lit w) k s =
  if ci_prefix (Py.chars w) (rest s) then k (after (length (Py.chars w)) s) else None.
Proof.
  unfold Lit. generalize (Py.chars w) as cs. clear w.
  intros cs. revert k s. induction cs as [|c cs IH]; intros k s.
  - destruct s; reflexivity.
  - rewrite map_cons, rmatch_Cat_cons.
    destruct s as [p [|a t] cp]; [reflexivity|].
    simpl. destruct (ci_eqb c a); [|reflexivity].
    simpl. rewrite IH. reflexivity.
Qed.

Lemma advance_skipn n p l : snd (advance n p l) = skipn n l.
Proof.
  revert p l. induction n as [|n IH]; intros p [|a t]; simpl; try reflexivity. apply IH.
Qed.

Lemma ci_prefix_length w l : ci_prefix w l = true -> (length w <= length l)%nat.
Proof.
  revert l. induction w as [|c w IH]; intros [|a t] H; simpl in *; try lia; try discriminate.
  apply andb_prop in H as [_ H]. apply IH in H. lia.
Qed.

Lemma match_at_keyword ws p l :
  ws <> [] ->
  match_at true (keyword_pattern ws) p l =
  if xorb (is_word_opt p) (is_word_opt (head l))
  then first_some (map (keyword_try p l) ws) else None.
Proof.
  intros Hws. unfold match_at, keyword_pattern.
  rewrite (rmatch_Cat_cons (A:=rmatch_result)). simpl rmatch at 1.
  unfold at_boundary. simpl prev. simpl rest.
  destruct (xorb _ _); [|reflexivity].
  rewrite (rmatch_Any (A:=rmatch_result)) by (destruct ws; [congruence | discriminate]).
  rewrite map_map. f_equal. apply map_ext. intros w.
  rewrite (rmatch_Lit (A:=rmatch_result)). unfold keyword_try. simpl rest.
  destruct (ci_prefix (Py.chars w) l) eqn:Hp; [|reflexivity].
  apply ci_prefix_length in Hp.
  unfold after. simpl. rewrite !advance_skipn. unfold at_boundary. simpl.
  rewrite length_skipn.
  replace (length l - (length l - length (Py.chars w)))%nat with (length (Py.chars w)) by lia.
  destruct (xorb _ _); reflexivity.
Qed.

Lemma keyword_chars w :
  keyword w = true -> Py.chars w <> [] /\ forallb Py.is_upper (Py.chars w) = true.
Proof.
  unfold keyword. destruct (Py.chars w) eqn:E; [discriminate|].
  intros H. split; [discriminate | exact H].
Qed.

Lemma advance_word cs : forall p l,
  forallb Py.is_upper cs = true -> ci_prefix cs l = true ->
  is_word_opt p = true \/ cs <> [] ->
  is_word_opt (fst (advance (length cs) p l)) = true.
Proof.
  induction cs as [|c cs IH]; intros p l Hup Hpre Hne.
  - simpl. destruct Hne as [H|H]; [exact H | congruence].
  - destruct l as [|a t]; [discriminate|]. simpl in *.
    apply andb_prop in Hup as [Hc Hup]. apply andb_prop in Hpre as [Ha Hpre].
    apply IH; [exact Hup | exact Hpre |]. left. simpl.
    apply (ci_upper_letter_word c a Hc Ha).
Qed.

Lemma head_word cs l :
  cs <> [] -> forallb Py.is_upper cs = true -> ci_prefix cs l = true ->
  is_word_opt (head l) = true.
Proof.
  destruct cs as [|c cs]; [congruence|]. intros _ Hup Hpre.
  destruct l as [|a t]; [discriminate|]. simpl in *.
  apply andb_prop in Hup as [Hc _]. apply andb_prop in Hpre as [Ha _].
  apply (ci_upper_letter_word c a Hc Ha).
Qed.

Lemma keyword_try_some w p l :
  keyword w = true -> is_some (keyword_try p l w) = ends_word l w.
Proof.
  intros Hk. apply keyword_chars in Hk as [Hne Hup].
  unfold keyword_try, ends_word.
  destruct (ci_prefix (Py.chars w) l) eqn:Hp; [|reflexivity].
  rewrite (advance_word _ p l Hup Hp (or_intror Hne)). simpl.
  destruct (is_word_opt _); reflexivity.
Qed.

Lemma is_some_first_some {T} (l : list (option T)) :
  is_some (first_some l) = existsb is_some l.
Proof. induction l as [|[x|] l IH]; simpl; auto. Qed.

Lemma match_at_keyword_hit ws p l :
  ws <> [] -> Forall (fun w => keyword w = true) ws ->
  is_some (match_at true (keyword_pattern ws) p l) = hit_here ws p l.
Proof.
  intros Hne Hks. rewrite match_at_keyword by exact Hne. unfold hit_here.
  assert (Hex : is_some (first_some (map (keyword_try p l) ws)) = existsb (ends_word l) ws).
  { rewrite is_some_first_some. clear Hne.
    induction Hks as [|w ws Hw Hks IH]; [reflexivity|].
    simpl. rewrite keyword_try_some by exact Hw. rewrite IH. reflexivity. }
  destruct (existsb (ends_word l) ws) eqn:E.
  - apply existsb_exists in E as (w & Hin & Hw).
    rewrite List.Forall_forall in Hks. specialize (Hks w Hin).
    apply keyword_chars in Hks as [Hn Hup].
    unfold ends_word in Hw. apply andb_prop in Hw as [Hp _].
    rewrite (head_word _ l Hn Hup Hp).
    destruct (is_word_opt p); simpl; [reflexivity | exact Hex].
  - rewrite andb_false_r. destruct (xorb _ _); [exact Hex | reflexivity].
Qed.

(** *** Scanning: [re.search] and positions *)

Lemma search_from_first_suffix ci r p l :
  search_from ci r p l = first_suffix (match_at ci r) p l.
Proof. revert p. induction l as [|a t IH]; intros p; simpl; [|rewrite IH]; reflexivity. Qed.

Lemma is_some_first_suffix {T} (f : option ascii -> list ascii -> option T) p l :
  is_some (first_suffix f p l) = any_suffix (fun p l => is_some (f p l)) p l.
Proof.
  revert p. induction l as [|a t IH]; intros p; simpl.
  - destruct (f p []); reflexivity.
  - destruct (f p (a :: t)); simpl; [reflexivity | apply IH].
Qed.

Lemma any_suffix_ext f g p l :
  (forall p l, f p l = g p l) -> any_suffix f p l = any_suffix g p l.
Proof.
  intros H. revert p. induction l as [|a t IH]; intros p; simpl; rewrite H; [reflexivity|].
  rewrite IH. reflexivity.
Qed.

Lemma skipn_app_length {T} (pre l : list T) : skipn (length pre) (pre ++ l) = l.
Proof. induction pre; simpl; auto. Qed.

Lemma prev_at_snoc pre a t : prev_at (pre ++ a :: t) (S (length pre)) = Some a.
Proof. simpl. rewrite nth_error_app2 by lia. rewrite Nat.sub_diag. reflexivity. Qed.

Lemma snoc_app {T} (pre : list T) a t : (pre ++ [a]) ++ t = pre ++ a :: t.
Proof. rewrite <- app_assoc. reflexivity. Qed.

Lemma length_snoc {T} (pre : list T) a : length (pre ++ [a]) = S (length pre).
Proof. rewrite length_app. simpl. lia. Qed.

Lemma any_suffix_positions_from f pre l :
  any_suffix f (prev_at (pre ++ l) (length pre)) l =
  existsb (fun i => f (prev_at (pre ++ l) i) (skipn i (pre ++ l)))
          (seq (length pre) (S (length l))).
Proof.
  revert pre. induction l as [|a t IH]; intros pre.
  - simpl. rewrite skipn_app_length. reflexivity.
  - specialize (IH (pre ++ [a])).
    rewrite snoc_app, length_snoc, prev_at_snoc in IH.
    change (any_suffix f (prev_at (pre ++ a :: t) (length pre)) (a :: t))
      with (f (prev_at (pre ++ a :: t) (length pre)) (a :: t)
            || any_suffix f (Some a) t).
    rewrite IH.
    change (seq (length pre) (S (length (a :: t))))
      with (length pre :: seq (S (length pre)) (S (length t))).
    cbn [existsb]. rewrite skipn_app_length. reflexivity.
Qed.

Lemma any_suffix_positions f m :
  any_suffix f None m =
  existsb (fun i => f (prev_at m i) (skipn i m)) (positions m).
Proof. exact (any_suffix_positions_from f [] m). Qed.

Lemma first_suffix_positions_from {T} (f : option ascii -> list ascii -> option T) pre l :
  first_suffix f (prev_at (pre ++ l) (length pre)) l =
  first_defined (fun i => f (prev_at (pre ++ l) i) (skipn i (pre ++ l)))
                (seq (length pre) (S (length l))).
Proof.
  revert pre. induction l as [|a t IH]; intros pre.
  - simpl. rewrite skipn_app_length. destruct (f _ _); reflexivity.
  - specialize (IH (pre ++ [a])).
    rewrite snoc_app, length_snoc, prev_at_snoc in IH.
    change (seq (length pre) (S (length (a :: t))))
      with (length pre :: seq (S (length pre)) (S (length t))).
    cbn [first_defined first_suffix]. rewrite skipn_app_length.
    destruct (f _ (a :: t)); [reflexivity | exact IH].
Qed.

Lemma first_suffix_positions {T} (f : option ascii -> list ascii -> option T) m :
  first_suffix f None m =
  first_defined (fun i => f (prev_at m i) (skipn i m)) (positions m).
Proof. exact (first_suffix_positions_from f [] m). Qed.

(** *** Step 1 against the keyword table *)

Lemma same_ignoring_case_prefix cs : forall l,
  forallb Py.is_upper cs = true ->
  same_ignoring_case cs (firstn (length cs) l) = ci_prefix cs l.
Proof.
  induction cs as [|c cs IH]; intros l Hup; [reflexivity|].
  destruct l as [|a t]; [reflexivity|]. simpl in *.
  apply andb_prop in Hup as [Hc Hup].
  rewrite (ci_upper_letter c a Hc), IH by exact Hup. reflexivity.
Qed.

Lemma head_skipn {T} (l : list T) n : head (skipn n l) = nth_error l n.
Proof. revert l. induction n as [|n IH]; intros [|a t]; simpl; auto. Qed.

Lemma skipn_skipn_add {T} (l : list T) i n : skipn n (skipn i l) = skipn (i + n) l.
Proof. revert l. induction i as [|i IH]; intros [|a t]; simpl; auto. destruct n; reflexivity. Qed.

Lemma word_char_before_prev m i : word_char_before m i = is_word_opt (prev_at m i).
Proof. destruct i; reflexivity. Qed.

Lemma whole_word_at_here w m i :
  keyword w = true ->
  whole_word_at (Py.chars w) m i =
  negb (is_word_opt (prev_at m i)) && ends_word (skipn i m) w.
Proof.
  intros Hk. apply keyword_chars in Hk as [_ Hup].
  unfold whole_word_at, ends_word, slice.
  rewrite same_ignoring_case_prefix by exact Hup.
  rewrite word_char_before_prev, head_skipn.
  rewrite <- (head_skipn (skipn i m)), skipn_skipn_add, head_skipn.
  unfold word_char_at, is_word_opt.
  destruct (ci_prefix _ _), (negb _); reflexivity.
Qed.

Lemma existsb_andb_const {T} (b : bool) (f : T -> bool) l :
  existsb (fun x => b && f x) l = b && existsb f l.
Proof. induction l as [|x l IH]; simpl; [destruct b; reflexivity|]. rewrite IH. destruct b; reflexivity. Qed.

Lemma existsb_swap {T U} (f : T -> U -> bool) xs ys :
  existsb (fun x => existsb (fun y => f x y) ys) xs =
  existsb (fun y => existsb (fun x => f x y) xs) ys.
Proof.
  induction xs as [|x xs IH]; simpl.
  - induction ys; simpl; auto.
  - rewrite IH. clear IH. induction ys as [|y ys IH]; simpl; [reflexivity|].
    rewrite <- IH. destruct (f x y), (existsb (f x) ys), (existsb (fun x0 => f x0 y) xs); reflexivity.
Qed.

Lemma existsb_pointwise {T} (f g : T -> bool) l :
  (forall x, f x = g x) -> existsb f l = existsb g l.
Proof. intros H. induction l as [|x l IH]; simpl; [reflexivity|]. rewrite H, IH. reflexivity. Qed.

Lemma hit_here_whole_word ws m i :
  Forall (fun w => keyword w = true) ws ->
  hit_here ws (prev_at m i) (skipn i m) =
  existsb (fun w => whole_word_at (Py.chars w) m i) ws.
Proof.
  intros Hks. unfold hit_here. rewrite <- existsb_andb_const.
  induction Hks as [|w ws Hw Hks IH]; [reflexivity|].
  simpl. rewrite IH, whole_word_at_here by exact Hw. reflexivity.
Qed.

Lemma keyword_search_occurs ws m :
  ws <> [] -> Forall (fun w => keyword w = true) ws ->
  is_some (re_search true (keyword_pattern ws) m) =
  existsb (fun kw => occurs_as_word kw m) ws.
Proof.
  intros Hne Hks. unfold re_search, occurs_as_word.
  rewrite search_from_first_suffix, is_some_first_suffix.
  rewrite (any_suffix_ext _ (hit_here ws))
    by (intros; apply match_at_keyword_hit; assumption).
  rewrite any_suffix_positions, existsb_swap.
  apply existsb_pointwise. intros i. apply hit_here_whole_word, Hks.
Qed.

Lemma first_suffix_some {T} (f : option ascii -> list ascii -> option T) p l x :
  first_suffix f p l = Some x -> exists p' l', f p' l' = Some x.
Proof.
  revert p. induction l as [|a t IH]; intros p; simpl.
  - destruct (f p []) eqn:E; [|discriminate]. intros [= <-]. eauto.
  - destruct (f p (a :: t)) eqn:E; [intros [= <-]; eauto | apply IH].
Qed.

Lemma first_some_in {T} (l : list (option T)) x : first_some l = Some x -> In (Some x) l.
Proof.
  induction l as [|[y|] l IH]; simpl; [discriminate | intros [= ->]; auto | auto].
Qed.

Lemma upper_prefix cs : forall l,
  forallb Py.is_upper cs = true -> ci_prefix cs l = true ->
  map Py.to_upper (firstn (length cs) l) = cs.
Proof.
  induction cs as [|c cs IH]; intros l Hup Hp; [reflexivity|].
  destruct l as [|a t]; [discriminate|]. simpl in *.
  apply andb_prop in Hup as [Hc Hup]. apply andb_prop in Hp as [Ha Hp].
  rewrite IH by assumption. f_equal. apply (ci_upper_letter_word c a Hc Ha).
Qed.

Lemma upper_str cs : Py.upper (Py.str cs) = Py.str (map Py.to_upper cs).
Proof. unfold Py.upper, Py.chars, Py.str. rewrite list_ascii_of_string_of_list_ascii. reflexivity. Qed.

Lemma str_chars w : Py.str (Py.chars w) = w.
Proof. apply string_of_list_ascii_of_string. Qed.

Lemma chars_str cs : Py.chars (Py.str cs) = cs.
Proof. apply list_ascii_of_string_of_list_ascii. Qed.

(** The text of group 1 of a keyword match, in upper case, is one of the
    keywords. *)
Lemma keyword_search_group ws m r :
  ws <> [] -> Forall (fun w => keyword w = true) ws ->
  re_search true (keyword_pattern ws) m = Some r ->
  In (Py.upper (group1 r)) ws.
Proof.
  intros Hne Hks H. unfold re_search in H. rewrite search_from_first_suffix in H.
  apply first_suffix_some in H as (p & l & H).
  rewrite match_at_keyword in H by exact Hne.
  destruct (xorb _ _); [|discriminate].
  apply first_some_in, in_map_iff in H as (w & Hw & Hin).
  rewrite List.Forall_forall in Hks. specialize (Hks w Hin).
  apply keyword_chars in Hks as [_ Hup].
  unfold keyword_try in Hw. destruct (ci_prefix (Py.chars w) l) eqn:Hp; [|discriminate].
  destruct (xorb _ _); [|discriminate]. injection Hw as <-.
  unfold group1, group. simpl.
  rewrite upper_str, upper_prefix, str_chars by assumption. exact Hin.
Qed.

Lemma dict_get_assoc {V} (d : list (string * V)) k default :
  dict_get d k default = match assoc d k with Some v => v | None => default end.
Proof. induction d as [|[k' v] d IH]; simpl; [reflexivity|]. destruct (String.eqb k' k); auto. Qed.

Lemma explicit_level_rows rows m default :
  forallb row_ok rows = true ->
  explicit_level (map (fun row => keyword_pattern (fst row)) rows) m default =
  match find (fun row => existsb (fun kw => occurs_as_word kw m) (fst row)) rows with
  | Some row => Some (snd row)
  | None => None
  end.
Proof.
  induction rows as [|[ws lvl] rows IH]; intros Hok; [reflexivity|].
  cbn [forallb] in Hok. apply andb_prop in Hok as [Hrow Hok].
  unfold row_ok in Hrow. cbn [fst snd] in Hrow. apply andb_prop in Hrow as [Hne Hws].
  assert (Hne' : ws <> []) by (destruct ws; [discriminate | congruence]).
  assert (Hks : Forall (fun w => keyword w = true) ws).
  { apply List.Forall_forall. intros w Hin. rewrite forallb_forall in Hws.
    specialize (Hws w Hin). apply andb_prop in Hws as [H _]. exact H. }
  cbn [map explicit_level find fst snd].
  pose proof (keyword_search_occurs ws m Hne' Hks) as Hocc.
  destruct (re_search true (keyword_pattern ws) m) as [r|] eqn:Hs.
  - simpl in Hocc. rewrite <- Hocc. cbn [snd]. f_equal.
    pose proof (keyword_search_group ws m r Hne' Hks Hs) as Hin.
    rewrite forallb_forall in Hws. specialize (Hws _ Hin).
    apply andb_prop in Hws as [_ Hl]. rewrite dict_get_assoc.
    revert Hl. destruct (assoc LEVEL_MAP _); [|intros Hl; discriminate Hl].
    intros Hl. apply String.eqb_eq, Hl.
  - simpl in Hocc. rewrite <- Hocc. apply IH, Hok.
Qed.

Lemma explicit_level_spec m default :
  explicit_level LEVEL_PATTERNS m default = explicit_severity m.
Proof.
  change LEVEL_PATTERNS with (map (fun row => keyword_pattern (fst row)) keyword_table).
  apply explicit_level_rows. vm_compute. reflexivity.
Qed.

(** *** Step 2: the priority pattern *)

(** A greedy run of digits before a continuation that cannot start at a
    digit takes all the digits. *)
Lemma star_digits {A} (k : mstate -> option A) :
  (forall p c t cp, Py.is_digit c = true -> k (MState p (c :: t) cp) = None) ->
  forall fuel p l cp, (length l <= fuel)%nat ->
  star_loop (rmatch false (Chr CDigit)) true k fuel (MState p l cp) =
  k (MState (fst (skip_digits p l)) (snd (skip_digits p l)) cp).
Proof.
  intros Hk. induction fuel as [|fuel IH]; intros p l cp Hlen.
  - destruct l; [reflexivity | simpl in Hlen; lia].
  - cbn [star_loop]. destruct l as [|a t].
    + reflexivity.
    + cbn [rmatch rest caps cmatch skip_digits].
      destruct (Py.is_digit a) eqn:Ha.
      * replace (length t <? length (a :: t))%nat with true
          by (symmetry; apply Nat.ltb_lt; simpl; lia).
        rewrite IH by (simpl in Hlen; lia).
        rewrite (Hk p a t cp Ha). apply orelse_None_r.
      * reflexivity.
Qed.

Lemma skip_digits_run p l : snd (skip_digits p l) = skipn (length (digit_run l)) l.
Proof.
  revert p. induction l as [|c t IH]; intros p; simpl; [reflexivity|].
  destruct (Py.is_digit c); [apply IH | reflexivity].
Qed.

Lemma digit_run_firstn l : firstn (length (digit_run l)) l = digit_run l.
Proof.
  induction l as [|c t IH]; simpl; [reflexivity|].
  destruct (Py.is_digit c); simpl; [rewrite IH|]; reflexivity.
Qed.

Lemma digit_run_length l : (length (digit_run l) <= length l)%nat.
Proof. induction l as [|c t IH]; simpl; [lia|]. destruct (Py.is_digit c); simpl; lia. Qed.

Lemma digit_not_gt c : Py.is_digit c = true -> Ascii.eqb ">" c = false.
Proof.
  intros H.
  pose proof (forall_ascii (fun c => implb (Py.is_digit c) (negb (Ascii.eqb ">" c)))
                ltac:(vm_compute; reflexivity) c) as H'.
  cbv beta in H'. rewrite H in H'. cbn [implb] in H'. apply negb_true_iff, H'.
Qed.

Lemma match_at_priority p l :
  option_map group1 (match_at false priority_pattern p l) =
  option_map Py.str (priority_here l).
Proof.
  unfold match_at, priority_pattern, priority_here, lit.
  destruct l as [|c t]; [reflexivity|].
  rewrite (rmatch_Cat_cons (A:=rmatch_result)).
  cbn [rmatch rest caps cmatch prev].
  rewrite (Ascii.eqb_sym c "<").
  destruct (Ascii.eqb "<" c); [|reflexivity].
  cbn [Cat Plus rmatch rest caps prev].
  destruct t as [|d1 t1]; [reflexivity|].
  cbn [cmatch digit_run]. destruct (Py.is_digit d1) eqn:Hd1; [|reflexivity].
  cbn [rest caps prev].
  match goal with
  | |- context [star_loop ?st true ?k _ _] =>
      change st with (rmatch (A:=rmatch_result) false (Chr CDigit));
      rewrite (star_digits (A:=rmatch_result) k); [| | lia]
  end.
  2:{ intros p0 c0 t0 cp0 Hc0. cbn [rest caps prev].
      rewrite (digit_not_gt c0 Hc0). reflexivity. }
  rewrite skip_digits_run. cbn [rest caps prev rmatch cmatch length skipn].
  pose proof (digit_run_length t1) as Hlen.
  destruct (skipn (length (digit_run t1)) t1) as [|c' r] eqn:Hrest; [reflexivity|].
  rewrite (Ascii.eqb_sym c' ">").
  destruct (Ascii.eqb ">" c'); [|reflexivity].
  cbn [option_map]. f_equal. unfold group1, group. cbn [m_caps find].
  cbn [String.eqb Ascii.eqb Bool.eqb]. f_equal.
  assert (Hl : length (c' :: r) = (length t1 - length (digit_run t1))%nat)
    by (rewrite <- Hrest; apply length_skipn).
  cbn [length] in *.
  replace (S (length t1) - S (length r))%nat with (S (length (digit_run t1))) by lia.
  cbn [firstn]. rewrite digit_run_firstn. reflexivity.
Qed.

Lemma first_suffix_map {T U} (g : T -> U) (f : option ascii -> list ascii -> option T) p l :
  option_map g (first_suffix f p l) =
  first_suffix (fun p l => option_map g (f p l)) p l.
Proof.
  revert p. induction l as [|a t IH]; intros p; simpl.
  - destruct (f p []); reflexivity.
  - destruct (f p (a :: t)); simpl; [reflexivity | apply IH].
Qed.

Lemma first_suffix_ext {T} (f g : option ascii -> list ascii -> option T) p l :
  (forall p l, f p l = g p l) -> first_suffix f p l = first_suffix g p l.
Proof.
  intros H. revert p. induction l as [|a t IH]; intros p; simpl; rewrite H; [reflexivity|].
  rewrite IH. reflexivity.
Qed.

Lemma first_defined_ext {T} (f g : nat -> option T) l :
  (forall i, f i = g i) -> first_defined f l = first_defined g l.
Proof. intros H. induction l as [|i l IH]; simpl; [reflexivity|]. rewrite H, IH. reflexivity. Qed.

Lemma priority_at_here m i : priority_at m i = priority_here (skipn i m).
Proof. reflexivity. Qed.

(** The text of the group of the leftmost priority. *)
Lemma priority_search m :
  option_map group1 (re_search false priority_pattern m) =
  option_map Py.str (syslog_priority m).
Proof.
  unfold re_search, syslog_priority.
  rewrite search_from_first_suffix, first_suffix_map.
  rewrite (first_suffix_ext _ (fun _ l => option_map Py.str (priority_here l)))
    by (intros p l; apply match_at_priority).
  rewrite <- first_suffix_map, first_suffix_positions. reflexivity.
Qed.

Lemma digit_run_digits l : forallb Py.is_digit (digit_run l) = true.
Proof.
  induction l as [|c t IH]; simpl; [reflexivity|].
  destruct (Py.is_digit c) eqn:Hc; simpl; [rewrite Hc; exact IH | reflexivity].
Qed.

Lemma priority_here_digits l ds :
  priority_here l = Some ds -> ds <> [] /\ forallb Py.is_digit ds = true.
Proof.
  unfold priority_here. destruct l as [|c t]; [discriminate|].
  destruct (Ascii.eqb c "<"); [|discriminate].
  pose proof (digit_run_digits t) as Hd.
  destruct (digit_run t) as [|d ds'] eqn:Hr; [discriminate|].
  destruct (skipn _ t) as [|c' r]; [discriminate|].
  destruct (Ascii.eqb c' ">"); [|discriminate].
  intros H. injection H as <-. split; [discriminate | exact Hd].
Qed.

Lemma first_defined_some {T} (f : nat -> option T) l x :
  first_defined f l = Some x -> exists i, f i = Some x.
Proof.
  induction l as [|i l IH]; simpl; [discriminate|].
  destruct (f i) eqn:Hi; [intros H; injection H as <-; eauto | exact IH].
Qed.

Lemma syslog_priority_digits m ds :
  syslog_priority m = Some ds -> ds <> [] /\ forallb Py.is_digit ds = true.
Proof.
  unfold syslog_priority. intros H.
  apply first_defined_some in H as [i H].
  rewrite priority_at_here in H. apply (priority_here_digits _ _ H).
Qed.

(** *** [int] on a run of digits *)

Lemma digit_not_int_space c : Py.is_digit c = true -> Py.is_int_space c = false.
Proof.
  intros H.
  pose proof (forall_ascii (fun c => implb (Py.is_digit c) (negb (Py.is_int_space c)))
                ltac:(vm_compute; reflexivity) c) as H'.
  cbv beta in H'. rewrite H in H'. cbn [implb] in H'. apply negb_true_iff, H'.
Qed.

Lemma digit_not_sign c :
  Py.is_digit c = true -> Ascii.eqb c "-" = false /\ Ascii.eqb c "+" = false.
Proof.
  intros H.
  pose proof (forall_ascii (fun c => implb (Py.is_digit c)
                                       (negb (Ascii.eqb c "-") && negb (Ascii.eqb c "+")))
                ltac:(vm_compute; reflexivity) c) as H'.
  cbv beta in H'. rewrite H in H'. cbn [implb] in H'.
  apply andb_prop in H' as [H1 H2]. split; apply negb_true_iff; assumption.
Qed.

Lemma lstrip_int_digits ds :
  forallb Py.is_digit ds = true -> Py.lstrip_int ds = ds.
Proof.
  destruct ds as [|c t]; [reflexivity|]. cbn [forallb Py.lstrip_int].
  intros H. apply andb_prop in H as [Hc _].
  rewrite (digit_not_int_space c Hc). reflexivity.
Qed.

Lemma forallb_rev {T} (f : T -> bool) l : forallb f (rev l) = forallb f l.
Proof.
  induction l as [|x l IH]; [reflexivity|]. cbn [rev forallb].
  rewrite forallb_app, IH. cbn [forallb]. rewrite andb_true_r. apply andb_comm.
Qed.

Lemma int_digits_all ds :
  forallb Py.is_digit ds = true -> Py.int_digits ds true = Some ds.
Proof.
  induction ds as [|c t IH]; [reflexivity|]. cbn [forallb Py.int_digits].
  intros H. apply andb_prop in H as [Hc Ht]. rewrite Hc, (IH Ht). reflexivity.
Qed.

(** [int] converts a run of at most 4300 digits and raises on a longer
    one. *)
Lemma int_of_digit_run ds :
  ds <> [] -> forallb Py.is_digit ds = true ->
  Py.int (Py.str ds) =
  if (length ds <=? Py.max_str_digits)%nat then Some (Py.int_of_digits ds) else None.
Proof.
  intros Hne Hd. unfold Py.int. rewrite chars_str.
  rewrite (lstrip_int_digits ds Hd).
  rewrite (lstrip_int_digits (rev ds)) by (rewrite forallb_rev; exact Hd).
  rewrite rev_involutive.
  destruct ds as [|c t]; [congruence|].
  cbn [forallb] in Hd. apply andb_prop in Hd as [Hc Ht].
  destruct (digit_not_sign c Hc) as [-> ->].
  cbn [Py.int_digits]. rewrite Hc, (int_digits_all t Ht). reflexivity.
Qed.

Lemma severity_map_standard k default :
  (0 <= k < 8)%Z -> zdict_get severity_map k default = standard_severity k.
Proof.
  intros H.
  assert (k = 0 \/ k = 1 \/ k = 2 \/ k = 3 \/ k = 4 \/ k = 5 \/ k = 6 \/ k = 7)%Z
    as Hk by lia.
  repeat destruct Hk as [-> | Hk]; try reflexivity. subst. reflexivity.
Qed.

(** *** Step 3: the heuristic scan *)

Lemma upper_fixed c : Py.is_upper c = true -> Py.to_upper c = c.
Proof.
  intros H.
  pose proof (forall_ascii (fun c => implb (Py.is_upper c) (Ascii.eqb (Py.to_upper c) c))
                ltac:(vm_compute; reflexivity) c) as H'.
  cbv beta in H'. rewrite H in H'. apply Ascii.eqb_eq, H'.
Qed.

Lemma starts_with_upper cs : forall l,
  forallb Py.is_upper cs = true ->
  Py.starts_with cs (map Py.to_upper l) = same_ignoring_case cs (firstn (length cs) l).
Proof.
  induction cs as [|c cs IH]; intros l Hup; [reflexivity|].
  destruct l as [|a t]; [reflexivity|]. simpl in *.
  apply andb_prop in Hup as [Hc Hup].
  rewrite IH by exact Hup. rewrite (upper_fixed c Hc). reflexivity.
Qed.

Lemma contains_upper cs p l :
  forallb Py.is_upper cs = true ->
  Py.contains_chars cs (map Py.to_upper l) =
  any_suffix (fun _ l' => same_ignoring_case cs (firstn (length cs) l')) p l.
Proof.
  intros Hup. revert p. induction l as [|a t IH]; intros p.
  - cbn [map Py.contains_chars any_suffix]. f_equal.
    apply (starts_with_upper cs [] Hup).
  - cbn [map Py.contains_chars any_suffix].
    rewrite <- (IH (Some a)). f_equal. apply (starts_with_upper cs (a :: t) Hup).
Qed.

Lemma contains_mentions w m :
  keyword w = true -> Py.contains w (Py.upper m) = mentions m w.
Proof.
  intros Hk. apply keyword_chars in Hk as [_ Hup].
  unfold Py.contains, Py.upper, mentions. rewrite chars_str.
  rewrite (contains_upper _ None _ Hup), any_suffix_positions. reflexivity.
Qed.

Lemma any_in_mentions ws m :
  forallb keyword ws = true -> any_in ws (Py.upper m) = existsb (mentions m) ws.
Proof.
  intros H. unfold any_in. induction ws as [|w ws IH]; [reflexivity|].
  simpl in H. apply andb_prop in H as [Hw H].
  simpl. rewrite contains_mentions by exact Hw. rewrite IH by exact H. reflexivity.
Qed.

(** *** The four steps together *)

(** The second step: the conversion and the table. *)
Lemma priority_step r ds default :
  group1 r = Py.str ds -> ds <> [] -> forallb Py.is_digit ds = true ->
  match Py.int (group1 r) with
  | Some n => Some (zdict_get severity_map (n mod 8)%Z default)
  | None => None
  end =
  if (length ds <=? Py.max_str_digits)%nat then Some (priority_severity ds) else None.
Proof.
  intros -> Hne Hd. rewrite (int_of_digit_run ds Hne Hd).
  destruct (length ds <=? Py.max_str_digits)%nat; [|reflexivity].
  unfold priority_severity. f_equal.
  apply severity_map_standard. apply Z.mod_pos_bound. lia.
Qed.

Lemma extract_log_level_steps m :
  extract_log_level m "INFO" = severity_of m.
Proof.
  unfold extract_log_level, severity_of.
  rewrite explicit_level_spec.
  destruct (explicit_severity m); [reflexivity|].
  pose proof (priority_search m) as Hp.
  pose proof (syslog_priority_digits m) as Hd.
  destruct (re_search false priority_pattern m) as [r|],
           (syslog_priority m) as [ds|]; simpl in Hp; try discriminate.
  - injection Hp as Hp. destruct (Hd ds eq_refl) as [Hne Hds].
    apply (priority_step r ds "INFO" Hp Hne Hds).
  - unfold heuristic_severity.
    rewrite !any_in_mentions by (vm_compute; reflexivity).
    repeat (destruct (existsb _ _); [reflexivity|]). reflexivity.
Qed.

End SeverityFacts.

(** * Facts about line parsing *)

Module ParseFacts.
Import Re Model ParseSpec.

Section WithLibrary.
Variable now : datetime.
Variable strptime : string -> string -> option datetime.
Variable fromisoformat : string -> option datetime.
Variable json_loads : string -> result json.

Lemma add_parsed_timestamp_log_type cfg (parsed_data : gmap string value) :
  add_parsed_timestamp strptime cfg parsed_data !! "log_type" = parsed_data !! "log_type".
Proof.
  unfold add_parsed_timestamp.
  destruct (parsed_data !! "timestamp") as [[| ts | | |]|],
           (timestamp_format cfg) as [fmt|];
    try reflexivity; destruct (String.eqb fmt ""); try reflexivity.
  destruct (strptime ts fmt); [|reflexivity].
  apply lookup_insert_ne. discriminate.
Qed.

Lemma add_level_log_type cfg (parsed_data : gmap string value) :
  add_level cfg parsed_data !! "log_type" = parsed_data !! "log_type".
Proof.
  unfold add_level. destruct (level_map cfg); [|reflexivity].
  destruct (parsed_data !! "severity").
  - apply lookup_insert_ne. discriminate.
  - destruct (parsed_data !! "action"); [|reflexivity].
    apply lookup_insert_ne. discriminate.
Qed.

(** The loop returns the captures of the first entry that matches, tagged
    with its name, and nothing when no entry matches. *)
Lemma parse_structured_loop_first entries line :
  match find (fun e => matches_line (pattern (snd e)) line) entries with
  | Some e =>
      parse_structured_loop strptime entries line !! "log_type" = Some (VStr (fst e))
  | None => parse_structured_loop strptime entries line = ∅
  end.
Proof.
  induction entries as [|[name cfg] entries IH]; [reflexivity|].
  cbn [find parse_structured_loop fst snd]. unfold matches_line at 1.
  destruct (re_match false (pattern cfg) line) as [m|].
  - rewrite add_level_log_type, add_parsed_timestamp_log_type.
    apply lookup_insert_eq.
  - exact IH.
Qed.

Lemma find_declared_order line :
  find (entry_matches line) declared_order =
  match find (fun e => matches_line (pattern (snd e)) line) LOG_PATTERNS with
  | Some e => Some (fst e)
  | None => None
  end.
Proof.
  unfold declared_order, LOG_PATTERNS. cbn [find fst snd pattern].
  change (entry_matches line "syslog") with (matches_line syslog_pattern line).
  change (entry_matches line "apache_access")
    with (matches_line apache_access_pattern line).
  change (entry_matches line "nginx_access")
    with (matches_line nginx_access_pattern line).
  change (entry_matches line "firewall") with (matches_line firewall_pattern line).
  change (entry_matches line "cisco_syslog")
    with (matches_line cisco_syslog_pattern line).
  change (entry_matches line "windows_event")
    with (matches_line windows_event_pattern line).
  change (entry_matches line "json_structured")
    with (matches_line json_structured_pattern line).
  change (entry_matches line "docker") with (matches_line docker_pattern line).
  repeat match goal with
  | |- context [matches_line ?r line] =>
      destruct (matches_line r line); [reflexivity|]
  end.
  reflexivity.
Qed.

Lemma is_empty_dict_empty : is_empty_dict ∅ = true.
Proof. unfold is_empty_dict. rewrite map_to_list_empty. reflexivity. Qed.

Lemma is_empty_dict_lookup (dict : gmap string value) k x :
  dict !! k = Some x -> is_empty_dict dict = false.
Proof.
  intros H. unfold is_empty_dict. destruct (map_to_list dict) eqn:E; [|reflexivity].
  apply map_to_list_empty_iff in E. subst. rewrite lookup_empty in H. discriminate.
Qed.

Lemma registry_branch_log_type line v v' :
  registry_branch strptime line v = Ok v' ->
  l_log_type v' =
  match find (entry_matches line) declared_order with
  | Some name => name
  | None => l_log_type v
  end.
Proof.
  unfold registry_branch, parse_structured_log.
  pose proof (parse_structured_loop_first LOG_PATTERNS line) as H.
  rewrite find_declared_order.
  generalize dependent (parse_structured_loop strptime LOG_PATTERNS line).
  intros structured_data H.
  destruct (find _ LOG_PATTERNS) as [e|].
  - rewrite (is_empty_dict_lookup _ _ _ H), H.
    destruct (structured_data !! "level") as [[]|];
      cbn [mbind result_bind]; intros [= <-]; reflexivity.
  - rewrite H, is_empty_dict_empty. intros [= <-]. reflexivity.
Qed.

Lemma json_branch_log_type line v v' :
  json_branch fromisoformat json_loads line v = Ok v' ->
  l_log_type v' = if decodes_to_object json_loads line then "json" else l_log_type v.
Proof.
  unfold json_branch, decodes_to_object.
  destruct (json_loads line) as [[| | | | |fields]|x]; try discriminate.
  - destruct (get _ "level" _); try discriminate. cbn [mbind result_bind].
    match goal with
    | |- (?t ≫= _) = _ -> _ => destruct t; cbn [mbind result_bind]; [|discriminate]
    end.
    intros [= <-]. reflexivity.
  - destruct x; try discriminate. intros [= <-]. reflexivity.
Qed.

(** What a record that the [try] block returns is made of. *)
Lemma finish_inv source v e :
  finish source v = Ok e ->
  exists m extracted level network_info,
    l_message v = VStr m /\
    extract_network_info m = Some extracted /\
    (if String.eqb (l_level v) "INFO"
     then Severity.extract_log_level m "INFO" = Some level
     else level = l_level v) /\
    map_protocol (update (l_network_info v) extracted) = Ok network_info /\
    e = Entry m (l_timestamp v) level source (Some (l_log_type v))
              network_info (l_parsed_fields v) (l_metadata v).
Proof.
  unfold finish. destruct (l_message v) as [| m | | |]; try discriminate.
  cbn [mbind result_bind].
  destruct (extract_network_info m) as [extracted|] eqn:Hx; [|discriminate].
  cbn [or_raise mbind result_bind].
  destruct (String.eqb (l_level v) "INFO") eqn:Hl.
  - destruct (Severity.extract_log_level m "INFO") as [level|] eqn:Hs; [|discriminate].
    cbn [or_raise mbind result_bind].
    destruct (map_protocol _) as [ni|] eqn:Hm; cbn [mbind result_bind]; [|discriminate].
    intros [= <-]. exists m, extracted, level, ni. repeat split; auto.
  - cbn [mbind result_bind].
    destruct (map_protocol _) as [ni|] eqn:Hm; cbn [mbind result_bind]; [|discriminate].
    intros [= <-]. exists m, extracted, (l_level v), ni. repeat split; auto.
Qed.

Lemma finish_log_type source v e :
  finish source v = Ok e -> e_log_type e = Some (l_log_type v).
Proof.
  intros H. apply finish_inv in H as (m & x & l & ni & _ & _ & _ & _ & ->). reflexivity.
Qed.

Lemma parse_body_classify line source e :
  parse_body now strptime fromisoformat json_loads line source = Ok e ->
  e_log_type e = Some (classify json_loads line).
Proof.
  unfold parse_body, structured_stage, classify.
  destruct (Py.startswith (Py.strip line) "{").
  - destruct (json_branch fromisoformat json_loads line _) as [v|] eqn:Hj;
      cbn [mbind result_bind]; [|discriminate].
    apply json_branch_log_type in Hj. cbn [l_log_type andb] in Hj |- *.
    destruct (decodes_to_object json_loads line).
    + rewrite Hj. cbn [String.eqb Ascii.eqb Bool.eqb]. intros H.
      apply finish_log_type in H. rewrite H, Hj. reflexivity.
    + rewrite Hj. cbn [String.eqb Ascii.eqb Bool.eqb].
      destruct (registry_branch strptime line v) as [v'|] eqn:Hr;
        cbn [mbind result_bind]; [|discriminate].
      apply registry_branch_log_type in Hr. intros H.
      apply finish_log_type in H. rewrite H, Hr, Hj. reflexivity.
  - cbn [mbind result_bind l_log_type andb String.eqb Ascii.eqb Bool.eqb].
    destruct (registry_branch strptime line _) as [v'|] eqn:Hr;
      cbn [mbind result_bind]; [|discriminate].
    apply registry_branch_log_type in Hr. intros H.
    apply finish_log_type in H. rewrite H, Hr. reflexivity.
Qed.

(** *** The network map *)

Lemma extract_network_info_no_protocol message extracted :
  extract_network_info message = Some extracted -> extracted !! "protocol" = None.
Proof.
  unfold extract_network_info.
  destruct (collect_ports message) as [ports|]; [|discriminate].
  cbn [mbind option_bind]. intros [= <-].
  destruct (findall false ip_pattern "ip" message) as [|ip0 [|ip1 ips]];
    destruct ports;
    destruct (collect_protocols message);
    destruct (findall false mac_pattern "mac" message);
    repeat (rewrite lookup_insert_ne by discriminate); apply lookup_empty.
Qed.

Lemma map_protocol_other network_info network_info' k :
  map_protocol network_info = Ok network_info' -> k <> "protocol" ->
  network_info' !! k = network_info !! k.
Proof.
  unfold map_protocol. intros H Hk.
  destruct (network_info !! "protocol") as [[| p | | |]|]; try discriminate.
  - destruct (Py.isdigit p); injection H as <-; [|reflexivity].
    apply lookup_insert_ne. congruence.
  - injection H as <-. reflexivity.
Qed.

Lemma map_protocol_protocol network_info network_info' x :
  map_protocol network_info = Ok network_info' ->
  network_info !! "protocol" = Some x ->
  network_info' !! "protocol" = Some (protocol_name x).
Proof.
  unfold map_protocol. intros H Hx. rewrite Hx in H.
  destruct x as [| p | | |]; try discriminate. cbn [protocol_name].
  destruct (Py.isdigit p); injection H as <-; [apply lookup_insert_eq | exact Hx].
Qed.

Lemma finish_network source v e :
  finish source v = Ok e ->
  exists extracted,
    extract_network_info (e_message e) = Some extracted /\
    map_protocol (update (l_network_info v) extracted) = Ok (e_network_info e).
Proof.
  intros H. apply finish_inv in H as (m & x & l & ni & _ & Hx & _ & Hm & ->).
  exists x. split; assumption.
Qed.

Lemma network_augmented line source captured e :
  captured_network now strptime fromisoformat json_loads line = Some captured ->
  parse_body now strptime fromisoformat json_loads line source = Ok e ->
  exists extracted,
    extract_network_info (e_message e) = Some extracted /\
    (forall k, is_Some (captured !! k) -> is_Some (e_network_info e !! k)) /\
    (forall k y, extracted !! k = Some y -> e_network_info e !! k = Some y) /\
    (forall k x, captured !! k = Some x -> extracted !! k = None ->
                 e_network_info e !! k =
                 Some (if String.eqb k "protocol" then protocol_name x else x)).
Proof.
  unfold captured_network, parse_body.
  destruct (structured_stage now strptime fromisoformat json_loads line) as [v|];
    [|discriminate].
  intros [= <-]. cbn [mbind result_bind]. intros H.
  apply finish_network in H as (extracted & Hx & H).
  exists extracted. split; [exact Hx|].
  assert (Hext : forall k y, extracted !! k = Some y -> e_network_info e !! k = Some y).
  { intros k y Hy. destruct (String.eqb_spec k "protocol") as [-> | Hk].
    - rewrite (extract_network_info_no_protocol _ _ Hx) in Hy. discriminate.
    - rewrite (map_protocol_other _ _ k H Hk). unfold update.
      apply lookup_union_Some_l, Hy. }
  assert (Hcap : forall k x, l_network_info v !! k = Some x -> extracted !! k = None ->
                 e_network_info e !! k =
                 Some (if String.eqb k "protocol" then protocol_name x else x)).
  { intros k x Hx' Hn. destruct (String.eqb_spec k "protocol") as [-> | Hk].
    - apply (map_protocol_protocol _ _ x H). unfold update.
      rewrite lookup_union_r by exact Hn. exact Hx'.
    - rewrite (map_protocol_other _ _ k H Hk). unfold update.
      rewrite lookup_union_r by exact Hn. exact Hx'. }
  split; [|split; assumption].
  intros k [x Hx']. destruct (extracted !! k) as [y|] eqn:Hy.
  - rewrite (Hext k y Hy). eauto.
  - rewrite (Hcap k x Hx' Hy). eauto.
Qed.

(** *** The severity of a record *)

Lemma finish_level source v e :
  finish source v = Ok e ->
  if String.eqb (l_level v) "INFO"
  then Severity.extract_log_level (e_message e) "INFO" = Some (e_level e)
  else e_level e = l_level v.
Proof.
  intros H. apply finish_inv in H as (m & x & l & ni & _ & _ & Hl & _ & ->).
  exact Hl.
Qed.

(** *** Records and the exception handler *)

(** The two ways in which a record comes about: the [try] block returned
    it, or the handler built the default record. *)
Lemma parse_enhanced_log_line_cases line source :
  match parse_enhanced_log_line now strptime fromisoformat json_loads line source with
  | None => Py.strip line = ""
  | Some e =>
      Py.strip line <> "" /\
      (parse_body now strptime fromisoformat json_loads line source = Ok e /\
       e_log_type e = Some (classify json_loads line)
       \/
       (exists x, parse_body now strptime fromisoformat json_loads line source = Raise x) /\
       e = fallback_entry now line source)
  end.
Proof.
  unfold parse_enhanced_log_line.
  destruct (String.eqb_spec (Py.strip line) "") as [E | E]; [exact E|].
  destruct (parse_body now strptime fromisoformat json_loads line source) as [e|x] eqn:Hb.
  - split; [exact E|]. left. split; [reflexivity|].
    exact (parse_body_classify line source e Hb).
  - split; [exact E|]. right. split; [exists x|]; reflexivity.
Qed.

Lemma parse_enhanced_log_line_body line source e :
  parse_enhanced_log_line now strptime fromisoformat json_loads line source = Some e ->
  is_Some (e_log_type e) ->
  parse_body now strptime fromisoformat json_loads line source = Ok e.
Proof.
  intros H Ht. pose proof (parse_enhanced_log_line_cases line source) as Hc.
  rewrite H in Hc. destruct Hc as [_ [[Hb _] | [_ ->]]]; [exact Hb|].
  destruct Ht as [t Ht]. discriminate Ht.
Qed.

End WithLibrary.
End ParseFacts.

(** * Facts about template bookkeeping and the upload loop *)

Module IngestFacts.
Import Model Mongo Ingest IngestSpec.

(** *** The digest *)

Lemma flat_map_hex_length l : length (flat_map Md5.hex_byte l) = (2 * length l)%nat.
Proof. induction l as [|b l IH]; simpl; [reflexivity | rewrite IH; lia]. Qed.

Lemma le_bytes_length n x : length (Md5.le_bytes n x) = n.
Proof. unfold Md5.le_bytes. rewrite length_map, length_seq. reflexivity. Qed.

Lemma hexdigest_length text : length (Py.chars (Md5.hexdigest text)) = 32%nat.
Proof.
  unfold Md5.hexdigest. destruct (Md5.digest _) as [[[a b] c] d].
  unfold Py.chars, Py.str. rewrite list_ascii_of_string_of_list_ascii.
  rewrite flat_map_hex_length, !length_app, !le_bytes_length. reflexivity.
Qed.

Lemma hash8_length text : length (Py.chars (Md5.hash8 text)) = 8%nat.
Proof.
  unfold Md5.hash8, Py.chars, Py.str. rewrite list_ascii_of_string_of_list_ascii.
  rewrite length_firstn. fold (Py.chars (Md5.hexdigest text)).
  rewrite hexdigest_length. reflexivity.
Qed.

Lemma hex_digit_hex n : (n < 16)%N -> is_hex (Md5.hex_digit n) = true.
Proof.
  intros H.
  assert (Hall : forallb (fun i => is_hex (Md5.hex_digit (N.of_nat i))) (seq 0 16) = true)
    by (vm_compute; reflexivity).
  rewrite forallb_forall in Hall.
  rewrite <- (N2Nat.id n). apply Hall. apply in_seq. lia.
Qed.

Lemma hex_byte_hex b : (b < 256)%N -> forallb is_hex (Md5.hex_byte b) = true.
Proof.
  intros H. unfold Md5.hex_byte. cbn [forallb].
  rewrite !hex_digit_hex; [reflexivity | |].
  - apply N.mod_lt. discriminate.
  - apply N.Div0.div_lt_upper_bound. exact H.
Qed.

Lemma le_bytes_small n x : Forall (fun b => (b < 256)%N) (Md5.le_bytes n x).
Proof.
  unfold Md5.le_bytes. apply List.Forall_forall. intros b Hb.
  apply in_map_iff in Hb as (i & <- & _).
  change 255%N with (N.ones 8). rewrite N.land_ones.
  apply N.mod_lt. discriminate.
Qed.

Lemma hexdigest_hex text : forallb is_hex (Py.chars (Md5.hexdigest text)) = true.
Proof.
  unfold Md5.hexdigest. destruct (Md5.digest _) as [[[a b] c] d].
  unfold Py.chars, Py.str. rewrite list_ascii_of_string_of_list_ascii.
  apply forallb_forall. intros ch Hch. apply in_flat_map in Hch as (x & Hx & Hch).
  assert (Hsmall : (x < 256)%N).
  { rewrite !in_app_iff in Hx.
    pose proof (le_bytes_small 4 a) as Ha. pose proof (le_bytes_small 4 b) as Hb.
    pose proof (le_bytes_small 4 c) as Hc. pose proof (le_bytes_small 4 d) as Hd.
    rewrite List.Forall_forall in Ha, Hb, Hc, Hd.
    destruct Hx as [Hx | [Hx | [Hx | Hx]]]; auto. }
  pose proof (hex_byte_hex x Hsmall) as Hh. rewrite forallb_forall in Hh. auto.
Qed.

Lemma hash8_hex text : forallb is_hex (Py.chars (Md5.hash8 text)) = true.
Proof.
  unfold Md5.hash8, Py.chars, Py.str. rewrite list_ascii_of_string_of_list_ascii.
  apply forallb_forall. intros ch Hch.
  pose proof (hexdigest_hex text) as H. rewrite forallb_forall in H.
  apply H. rewrite <- (firstn_skipn 8 (Py.chars (Md5.hexdigest text))).
  apply in_or_app. left. exact Hch.
Qed.

(** *** The template upsert *)

Lemma template_update_conflicting result timestamp :
  conflicting (template_update result timestamp) = true.
Proof. reflexivity. Qed.

Lemma template_upsert_refused id result timestamp coll :
  update_one (template_filter id) (template_update result timestamp) true coll
  = Raise WriteError.
Proof. unfold update_one. rewrite template_update_conflicting. reflexivity. Qed.

(** Without the [count] entry of [$setOnInsert] the store accepts the
    document: two upserts of one template leave one record, counted
    twice, first seen at the first call and last seen at the second. *)
Lemma upsert_without_conflict_twice :
  let upsert ts coll :=
    update_one (template_filter (TInt 1))
      (template_update_without_conflict
         (TemplateInfo (Some (TInt 1)) (Some "user <*> logged in") 1) ts)
      true coll in
  match upsert 10%Z [] ≫= upsert 20%Z with
  | Ok [doc] =>
      doc !! "count" = Some (BInt 2) /\
      doc !! "first_seen" = Some (BTime 10%Z) /\
      doc !! "last_seen" = Some (BTime 20%Z)
  | _ => False
  end.
Proof. vm_compute. repeat split; reflexivity. Qed.

Section WithService.
Variable now : datetime.
Variable strptime : string -> string -> option datetime.
Variable fromisoformat : string -> option datetime.
Variable json_loads : string -> result json.
Variable miner : Type.
Variable add_log_message : miner -> string -> miner * result miner_result.
Variable id_to_cluster : miner -> option (list (Z * cluster)).
Variable logparser_drain : bool.
Variable responds : nat -> bool.
Variable decode : string -> option string.

Lemma templates_update_one_refused id result timestamp d :
  templates (fst (templates_update_one responds (template_filter id)
                    (template_update result timestamp) true d)) = templates d.
Proof.
  unfold templates_update_one. rewrite template_upsert_refused.
  destruct (responds (calls d)); reflexivity.
Qed.

Lemma update_template_statistics_templates result timestamp d :
  templates (update_template_statistics responds result timestamp d) = templates d.
Proof.
  unfold update_template_statistics.
  destruct (template_id result) as [id|], (template result) as [t|]; try reflexivity.
  destruct (String.eqb t ""); [reflexivity|]. apply templates_update_one_refused.
Qed.

Lemma update_template_statistics_logs result timestamp d :
  logs (update_template_statistics responds result timestamp d) = logs d.
Proof.
  unfold update_template_statistics, templates_update_one.
  destruct (template_id result) as [id|], (template result) as [t|]; try reflexivity.
  destruct (String.eqb t ""); [reflexivity|].
  rewrite template_upsert_refused. destruct (responds (calls d)); reflexivity.
Qed.

Lemma iter_update_template_statistics n result timestamp d :
  templates (Nat.iter n (update_template_statistics responds result timestamp) d)
  = templates d.
Proof.
  induction n as [|n IH]; [reflexivity|].
  change (Nat.iter (S n) (update_template_statistics responds result timestamp) d)
    with (update_template_statistics responds result timestamp
            (Nat.iter n (update_template_statistics responds result timestamp) d)).
  rewrite update_template_statistics_templates. exact IH.
Qed.

(** No call of the assembler changes the [templates] collection. *)
Lemma process_log_templates message timestamp parser_type st :
  templates (db miner (fst (process_log_with_enhanced_parsing miner add_log_message
                              id_to_cluster logparser_drain responds message timestamp
                              parser_type st)))
  = templates (db miner st).
Proof.
  unfold process_log_with_enhanced_parsing, process_body.
  destruct (_ && _).
  - cbn [fst db]. apply update_template_statistics_templates.
  - destruct (template_miner miner st) as [m|]; [|reflexivity].
    destruct (add_log_message m message) as [m' [r|e]]; cbn [fst db]; [|reflexivity].
    apply update_template_statistics_templates.
Qed.

(** *** Miner failures *)

Lemma process_on_failure message timestamp st prefix st' :
  miner_failure add_log_message st message = Some (prefix, st') ->
  process_log_with_enhanced_parsing miner add_log_message id_to_cluster logparser_drain
    responds message timestamp "drain3" st = (st', pseudo_template prefix message).
Proof.
  unfold miner_failure, process_log_with_enhanced_parsing, process_body.
  cbn [String.eqb Ascii.eqb Bool.eqb andb].
  destruct (template_miner miner st) as [m|].
  - destruct (add_log_message m message) as [m' [r|e]]; [discriminate|].
    intros [= <- <-]. reflexivity.
  - intros [= <- <-]. reflexivity.
Qed.

Lemma miner_failure_db message st prefix st' :
  miner_failure add_log_message st message = Some (prefix, st') ->
  db miner st' = db miner st /\ (prefix = "fallback_" \/ prefix = "error_").
Proof.
  unfold miner_failure. destruct (template_miner miner st) as [m|].
  - destruct (add_log_message m message) as [m' [r|e]]; [discriminate|].
    intros [= <- <-]. auto.
  - intros [= <- <-]. auto.
Qed.

Lemma miner_failure_prefix message st prefix st' :
  miner_failure add_log_message st message = Some (prefix, st') ->
  prefix = match template_miner miner st with
           | Some _ => "error_"
           | None => "fallback_"
           end.
Proof.
  unfold miner_failure. destruct (template_miner miner st) as [m|].
  - destruct (add_log_message m message) as [m' [r|e]]; [discriminate|].
    intros [= <- <-]. reflexivity.
  - intros [= <- <-]. reflexivity.
Qed.

(** A record whose message the miner fails on is stored with the
    pseudo-template, provided the database answers. *)
Lemma process_line_persists filename file_id st c line entry prefix st' :
  parse_enhanced_log_line now strptime fromisoformat json_loads line filename = Some entry ->
  miner_failure add_log_message st (e_message entry) = Some (prefix, st') ->
  responds (calls (db miner st)) = true ->
  process_line now strptime fromisoformat json_loads miner add_log_message id_to_cluster
    logparser_drain responds filename file_id (st, c) line
  = (State miner
       (Database (logs (db miner st) ++
                    [LogDoc entry (pseudo_template prefix (e_message entry))
                            (Some file_id) (Some filename)])
                 (templates (db miner st)) (files (db miner st))
                 (S (calls (db miner st))))
       (template_miner miner st'),
     Counters (S (processed_count c)) (failed_count c)).
Proof.
  intros Hp Hf Hr. unfold process_line. rewrite Hp.
  rewrite (process_on_failure _ _ st prefix st' Hf).
  destruct (miner_failure_db _ st prefix st' Hf) as [Hdb _].
  unfold store_enhanced_log_entry, logs_insert_one. rewrite Hdb, Hr. reflexivity.
Qed.

(** *** The upload loop *)

Lemma process_line_counts filename file_id st c line :
  let c' := snd (process_line now strptime fromisoformat json_loads miner add_log_message
                   id_to_cluster logparser_drain responds filename file_id (st, c) line) in
  (processed_count c' = S (processed_count c) /\ failed_count c' = failed_count c) \/
  (processed_count c' = processed_count c /\ failed_count c' = S (failed_count c)).
Proof.
  unfold process_line.
  destruct (parse_enhanced_log_line now strptime fromisoformat json_loads line filename) as [e|];
    [|right; split; reflexivity].
  destruct (process_log_with_enhanced_parsing _ _ _ _ _ _ _ _ st) as [st1 info].
  destruct (store_enhanced_log_entry _ _ _ _ _ _ st1) as [st2 [u|x]];
    [left | right]; split; reflexivity.
Qed.

Lemma process_lines_sum filename file_id lines : forall st c,
  let c' := snd (fold_left (process_line now strptime fromisoformat json_loads miner add_log_message
                              id_to_cluster logparser_drain responds filename file_id)
                           lines (st, c)) in
  (processed_count c' + failed_count c' =
   processed_count c + failed_count c + length lines)%nat.
Proof.
  induction lines as [|line lines IH]; intros st c; cbn [fold_left length];
    [cbn [snd]; lia|].
  pose proof (process_line_counts filename file_id st c line) as Hstep.
  destruct (process_line _ _ _ _ _ _ _ _ _ _ _ (st, c) line) as [st1 c1].
  cbn [snd] in Hstep. specialize (IH st1 c1). cbv zeta in IH, Hstep |- *. lia.
Qed.

Lemma blank_line_fails filename file_id st c line :
  Py.strip line = "" ->
  process_line now strptime fromisoformat json_loads miner add_log_message id_to_cluster
    logparser_drain responds filename file_id (st, c) line
  = (st, Counters (processed_count c) (S (failed_count c))).
Proof.
  intros H. unfold process_line, parse_enhanced_log_line. rewrite H. reflexivity.
Qed.

Lemma upload_logs_counters filename content file_id ts st st' resp :
  upload_logs now strptime fromisoformat json_loads miner add_log_message id_to_cluster
    logparser_drain responds decode filename content file_id ts st = (st', Ok resp) ->
  exists text st0,
    decode content = Some text /\
    let c := snd (process_lines now strptime fromisoformat json_loads miner add_log_message
                    id_to_cluster logparser_drain responds filename file_id st0
                    (lines_of text)) in
    r_processed_logs resp = processed_count c /\ r_failed_logs resp = failed_count c.
Proof.
  unfold upload_logs, upload_failed.
  destruct (_ || _); [discriminate|].
  destruct (files_insert_one responds _ (db miner st)) as [d [u|x]].
  2:{ destruct (files_update_one _ _ _ _); discriminate. }
  destruct (decode content) as [text|].
  2:{ destruct (files_update_one _ _ _ _); discriminate. }
  destruct (process_lines _ _ _ _ _ _ _ _ _ _ _ _ (lines_of text)) as [st1 c] eqn:Hl.
  destruct (files_update_one responds _ _ (db miner st1)) as [d1 [u1|x1]].
  2:{ destruct (files_update_one _ _ _ _); discriminate. }
  intros [= <- <-]. exists text, (with_db miner st d). split; [reflexivity|].
  rewrite Hl. split; reflexivity.
Qed.

End WithService.
End IngestFacts.

(** * Facts about the detectors *)

Module DetectorFacts.
Import Model Detector DetectorSpec.

(** *** Not-a-number *)

Lemma sub_nan_r x : (x - nan)%float = nan.
Proof.
  rewrite <- (SF2Prim_Prim2SF (x - nan)), sub_spec.
  change (Prim2SF nan) with SpecFloat.S754_nan.
  destruct (Prim2SF x); reflexivity.
Qed.

Lemma div_nan_l y : (nan / y)%float = nan.
Proof.
  rewrite <- (SF2Prim_Prim2SF (nan / y)), div_spec.
  change (Prim2SF nan) with SpecFloat.S754_nan. reflexivity.
Qed.

(** A bucket whose rolling mean is NaN has no score. *)
Lemma nan_mean_silent x s :
  (volume_spike_threshold <? PrimFloat.abs ((x - nan) / (s + epsilon)))%float = false.
Proof. rewrite sub_nan_r, div_nan_l. reflexivity. Qed.

(** *** The loop over the scores *)

Lemma z_scores_of_nth xs : forall means stds i z,
  nth_error (z_scores_of xs means stds) i = Some z ->
  exists x m s,
    nth_error xs i = Some x /\ nth_error means i = Some m /\ nth_error stds i = Some s /\
    z = ((x - m) / (s + epsilon))%float.
Proof.
  induction xs as [|x xs IH]; intros [|m means] [|s stds] i z;
    cbn [z_scores_of]; try (destruct i; discriminate).
  destruct i as [|i]; cbn [nth_error].
  - intros [= <-]. exists x, m, s. auto.
  - apply IH.
Qed.

(** Every anomaly of the loop belongs to one bucket, whose score exceeds
    the threshold. *)
Lemma volume_loop_in buckets : forall z_scores a,
  In a (volume_loop buckets z_scores) ->
  exists i b z,
    nth_error buckets i = Some b /\ nth_error z_scores i = Some z /\
    (volume_spike_threshold <? PrimFloat.abs z)%float = true /\
    a = volume_anomaly b z.
Proof.
  induction buckets as [|b buckets IH]; intros [|z z_scores] a;
    cbn [volume_loop]; try (intros []).
  destruct (volume_spike_threshold <? PrimFloat.abs z)%float eqn:Hz.
  - intros [<- | Hin].
    + exists 0%nat, b, z. auto.
    + destruct (IH _ _ Hin) as (i & b' & z' & H). exists (S i), b', z'. exact H.
  - intros Hin. destruct (IH _ _ Hin) as (i & b' & z' & H). exists (S i), b', z'. exact H.
Qed.

(** Every anomaly of the volume detector belongs to a bucket that closes
    a full window and whose score exceeds the threshold. *)
Lemma detect_volume_anomalies_in rolling_mean rolling_std df a :
  nan_before_full rolling_mean ->
  In a (detect_volume_anomalies rolling_mean rolling_std df) ->
  let n := length (resample_size df) in
  exists i b,
    nth_error (resample_size df) i = Some b /\
    (3 <= n)%nat /\ (Nat.min 24 (n - 1) <= S i)%nat /\
    exists z, (3 <? PrimFloat.abs z)%float = true /\ a = volume_anomaly b z.
Proof.
  intros Hnan. unfold detect_volume_anomalies. cbv zeta.
  destruct df as [|r df]; [intros []|].
  set (buckets := resample_size (r :: df)).
  destruct (Nat.ltb_spec (length buckets) 3) as [Hn | Hn]; [intros []|].
  intros Hin. apply volume_loop_in in Hin as (i & b & z & Hb & Hz & Hbig & ->).
  apply z_scores_of_nth in Hz as (x & m & s & _ & Hm & _ & ->).
  exists i, b. split; [exact Hb|]. split; [exact Hn|]. split.
  - destruct (Nat.leb_spec (Nat.min 24 (length buckets - 1)) (S i)) as [Hw | Hw];
      [exact Hw|].
    rewrite (Hnan _ _ i m Hw Hm), nan_mean_silent in Hbig. discriminate.
  - eexists. split; [exact Hbig | reflexivity].
Qed.

(** *** The rolling statistics of the examples *)

Lemma rolling_from_positions agg w xs : forall seen,
  rolling_from agg w seen xs =
  map (fun i => if (length seen + S i <? w)%nat then nan
                else agg (lastn w (seen ++ firstn (S i) xs)))
      (seq 0 (length xs)).
Proof.
  induction xs as [|x xs IH]; intros seen; [reflexivity|].
  cbn [rolling_from length seq map]. f_equal.
  - rewrite length_app. cbn [length firstn]. reflexivity.
  - rewrite IH. rewrite <- seq_shift, map_map. apply map_ext. intros i.
    rewrite length_app. cbn [length firstn].
    replace (length seen + 1 + S i)%nat with (length seen + S (S i))%nat by lia.
    rewrite <- app_assoc. reflexivity.
Qed.

Lemma rolling_positions agg w xs :
  rolling agg w xs =
  map (fun i => if (S i <? w)%nat then nan else agg (window_ending_at xs w i))
      (seq 0 (length xs)).
Proof. unfold rolling. rewrite rolling_from_positions. reflexivity. Qed.

Lemma nth_error_seq_0 n i j : nth_error (seq 0 n) i = Some j -> j = i.
Proof.
  intros H. pose proof (nth_error_nth _ _ 0%nat H) as Hn.
  assert (i < n)%nat as Hi.
  { rewrite <- (length_seq n 0). apply nth_error_Some. congruence. }
  rewrite seq_nth in Hn by exact Hi. lia.
Qed.

(** The rolling statistics of the examples have no value before the
    window is full. *)
Lemma rolling_nan_before_full agg : nan_before_full (rolling agg).
Proof.
  intros w xs i x Hi. rewrite rolling_positions, nth_error_map.
  destruct (nth_error (seq 0 (length xs)) i) as [j|] eqn:Hj; [|discriminate].
  apply nth_error_seq_0 in Hj. subst j. cbn [option_map].
  replace (S i <? w)%nat with true by (symmetry; apply Nat.ltb_lt; exact Hi).
  congruence.
Qed.

(** *** Error rates *)

Lemma combine_map_map {T U V} (f : T -> U) (g : T -> V) l :
  combine (map f l) (map g l) = map (fun x => (f x, g x)) l.
Proof. induction l as [|x l IH]; simpl; [reflexivity|]. rewrite IH. reflexivity. Qed.

Lemma combine_map_r {T V} (g : T -> V) l :
  combine l (map g l) = map (fun x => (x, g x)) l.
Proof. induction l as [|x l IH]; simpl; [reflexivity|]. rewrite IH. reflexivity. Qed.

Lemma error_rate_loop_hours b (total rate : Z -> _) hours :
  error_rate_loop b (map (fun h => (h, total h, rate h)) hours) =
  flat_map
    (fun h => if (error_rate_threshold <? rate h)%float && (b * 2 <? rate h)%float
              then [error_rate_anomaly h (rate h) (total h)] else [])
    hours.
Proof.
  induction hours as [|h hours IH]; [reflexivity|].
  cbn [map error_rate_loop flat_map]. rewrite IH.
  destruct (_ && _); reflexivity.
Qed.

Lemma no_error_column df h :
  existsb (has_column df) error_levels = false ->
  count_level h error_levels df = 0%nat.
Proof.
  intros H. unfold count_level.
  replace (List.filter _ df) with (@nil log_row); [reflexivity|].
  symmetry. induction df as [|r df IH]; [reflexivity|].
  cbn [List.filter].
  assert (Hr : str_in (row_level r) error_levels = false).
  { unfold str_in. apply not_true_is_false. intros Hin.
    apply existsb_exists in Hin as (lvl & Hlvl & Heq).
    apply String.eqb_eq in Heq. subst lvl.
    assert (existsb (has_column (r :: df)) error_levels = true) as Hc.
    { apply existsb_exists. exists (row_level r). split; [exact Hlvl|].
      unfold has_column. cbn [existsb]. rewrite String.eqb_refl. reflexivity. }
    congruence. }
  rewrite Hr, andb_false_r. apply IH.
  apply not_true_is_false. intros Hc. apply existsb_exists in Hc as (lvl & Hlvl & Hcol).
  assert (existsb (has_column (r :: df)) error_levels = true) as Hc'.
  { apply existsb_exists. exists lvl. split; [exact Hlvl|].
    unfold has_column in *. cbn [existsb]. rewrite Hcol. apply orb_true_r. }
  congruence.
Qed.

Lemma detect_error_rate_anomalies_buckets df :
  columns_selectable df = true ->
  detect_error_rate_anomalies df = Ok (error_rate_anomalies df).
Proof.
  intros Hsel. unfold detect_error_rate_anomalies.
  destruct df as [|r df]; [reflexivity|].
  set (w := r :: df) in *.
  assert (Herr : error_logs_of w (observed_hours w) =
                 Ok (map (fun h => count_level h error_levels w) (observed_hours w))).
  { unfold error_logs_of. unfold columns_selectable in Hsel.
    destruct (existsb (has_column w) error_levels) eqn:He.
    - cbn [implb] in Hsel. rewrite Hsel. reflexivity.
    - f_equal. apply map_ext. intros h. symmetry. apply no_error_column, He. }
  rewrite Herr. cbn [mbind result_bind]. f_equal.
  rewrite combine_map_map, map_map.
  rewrite combine_map_r, combine_map_map.
  rewrite (error_rate_loop_hours _ (fun h => count_in h w)
             (fun h => rate_of (count_level h error_levels w) (count_in h w))).
  reflexivity.
Qed.

Lemma detect_error_rate_anomalies_missing_column df :
  columns_selectable df = false ->
  detect_error_rate_anomalies df = Raise KeyError.
Proof.
  unfold columns_selectable, detect_error_rate_anomalies, error_logs_of.
  destruct df as [|r df]; [discriminate|].
  destruct (existsb (has_column (r :: df)) error_levels); [|discriminate].
  cbn [implb]. intros ->. reflexivity.
Qed.

(** *** The detection cycle *)

Section WithStore.
Variable responds : nat -> bool.

Lemma run_detectors_from ds df : forall acc,
  fold_left
    (fun all_anomalies '(name, detector) =>
       match detector df with
       | Ok found => all_anomalies ++ found
       | Raise _ => all_anomalies
       end)
    ds acc
  = acc ++ flat_map (found_by df) ds.
Proof.
  induction ds as [|[name detector] ds IH]; intros acc; cbn [fold_left flat_map].
  - rewrite app_nil_r. reflexivity.
  - rewrite IH. unfold found_by at 2. cbn [snd].
    destruct (detector df); [rewrite app_assoc | rewrite app_nil_l]; reflexivity.
Qed.

Lemma run_detectors_found ds df : run_detectors ds df = flat_map (found_by df) ds.
Proof. unfold run_detectors. rewrite run_detectors_from. reflexivity. Qed.

Lemma store_all l : forall st,
  anomalies (fold_left (store_anomaly responds) l st)
  = anomalies st ++ accepted responds (store_calls st) l.
Proof.
  induction l as [|a l IH]; intros st; cbn [fold_left accepted].
  - rewrite app_nil_r. reflexivity.
  - rewrite IH. unfold store_anomaly.
    destruct (responds (store_calls st)); cbn [anomalies store_calls].
    + rewrite <- app_assoc. reflexivity.
    + reflexivity.
Qed.

Lemma accepted_all l : forall n,
  (forall k, responds k = true) -> accepted responds n l = l.
Proof.
  induction l as [|a l IH]; intros n H; cbn [accepted]; [reflexivity|].
  rewrite H, IH by exact H. reflexivity.
Qed.

End WithStore.
End DetectorFacts.

(** * More facts about severity extraction *)

Module SeverityMoreFacts.
Import Re Severity SeveritySpec Scan ReFacts SeverityFacts SeverityMore.

Lemma extract_log_level_default m default :
  extract_log_level m default = outcome_with default (determined_severity m).
Proof.
  unfold extract_log_level, determined_severity.
  rewrite explicit_level_spec.
  destruct (explicit_severity m); [reflexivity|].
  pose proof (priority_search m) as Hp.
  pose proof (syslog_priority_digits m) as Hd.
  destruct (re_search false priority_pattern m) as [r|],
           (syslog_priority m) as [ds|]; simpl in Hp; try discriminate.
  - injection Hp as Hp. destruct (Hd ds eq_refl) as [Hne Hds].
    rewrite (priority_step r ds default Hp Hne Hds).
    destruct (length ds <=? Py.max_str_digits)%nat; reflexivity.
  - unfold heuristic_severity.
    rewrite !any_in_mentions by (vm_compute; reflexivity).
    repeat (destruct (existsb _ _); [reflexivity|]). reflexivity.
Qed.

Lemma standard_severity_name k : (0 <= k < 8)%Z -> In (standard_severity k) level_names.
Proof.
  intros H.
  assert (Hall : forallb (fun i => Model.str_in (standard_severity (Z.of_nat i)) level_names)
                         (seq 0 8) = true) by (vm_compute; reflexivity).
  rewrite forallb_forall in Hall.
  specialize (Hall (Z.to_nat k)). rewrite Z2Nat.id in Hall by lia.
  apply existsb_exists in Hall as (x & Hx & Heq); [|apply in_seq; lia].
  apply String.eqb_eq in Heq. subst. exact Hx.
Qed.

Lemma determined_severity_name m level :
  determined_severity m = Level level -> In level level_names.
Proof.
  unfold determined_severity, explicit_severity, explicit_severity_in.
  destruct (find _ keyword_table) as [row|] eqn:Hf.
  - intros [= <-]. apply find_some in Hf as [Hrow _].
    assert (Hall : forallb (fun row => Model.str_in (snd row) level_names) keyword_table = true)
      by (vm_compute; reflexivity).
    rewrite forallb_forall in Hall. specialize (Hall row Hrow).
    apply existsb_exists in Hall as (x & Hx & Heq).
    apply String.eqb_eq in Heq. subst. exact Hx.
  - destruct (syslog_priority m) as [ds|].
    + destruct (length ds <=? Py.max_str_digits)%nat; [|discriminate].
      intros [= <-]. apply standard_severity_name. apply Z.mod_pos_bound. lia.
    + unfold heuristic_severity.
      repeat (destruct (existsb _ _); [intros [= <-]; vm_compute; tauto|]).
      discriminate.
Qed.

(** The call raises exactly when no keyword stands in the message and
    its leftmost priority has more than 4300 digits. *)
Lemma determined_severity_overlong m :
  determined_severity m = Overlong <->
  explicit_severity m = None /\
  exists digits, syslog_priority m = Some digits /\ (Py.max_str_digits < length digits)%nat.
Proof.
  unfold determined_severity.
  destruct (explicit_severity m) as [level|].
  - split; [discriminate | intros [H _]; discriminate].
  - destruct (syslog_priority m) as [ds|].
    + destruct (Nat.leb_spec (length ds) Py.max_str_digits) as [Hl | Hl].
      * split; [discriminate|]. intros [_ (ds' & [= <-] & H)]. lia.
      * split; [|reflexivity]. intros _. split; [reflexivity|]. exists ds. auto.
    + split.
      * destruct (heuristic_severity m); discriminate.
      * intros [_ (ds & H & _)]. discriminate.
Qed.

(** *** Case *)

Lemma to_upper_idem c : Py.to_upper (Py.to_upper c) = Py.to_upper c.
Proof.
  apply Ascii.eqb_eq.
  apply (forall_ascii (fun c => Ascii.eqb (Py.to_upper (Py.to_upper c)) (Py.to_upper c))).
  vm_compute. reflexivity.
Qed.

Lemma is_word_to_upper c : Py.is_word (Py.to_upper c) = Py.is_word c.
Proof.
  apply Bool.eqb_prop.
  apply (forall_ascii (fun c => Bool.eqb (Py.is_word (Py.to_upper c)) (Py.is_word c))).
  vm_compute. reflexivity.
Qed.

Lemma is_digit_to_upper c : Py.is_digit (Py.to_upper c) = Py.is_digit c.
Proof.
  apply Bool.eqb_prop.
  apply (forall_ascii (fun c => Bool.eqb (Py.is_digit (Py.to_upper c)) (Py.is_digit c))).
  vm_compute. reflexivity.
Qed.

Lemma digit_to_upper c : Py.is_digit c = true -> Py.to_upper c = c.
Proof.
  intros H. apply Ascii.eqb_eq. revert H.
  generalize (forall_ascii
    (fun c => implb (Py.is_digit c) (Ascii.eqb (Py.to_upper c) c))
    ltac:(vm_compute; reflexivity) c).
  destruct (Py.is_digit c); [intros H _; exact H | discriminate].
Qed.

Lemma bracket_to_upper c b :
  b = "<"%char \/ b = ">"%char -> Ascii.eqb (Py.to_upper c) b = Ascii.eqb c b.
Proof.
  intros [-> | ->]; apply Bool.eqb_prop.
  - apply (forall_ascii (fun c => Bool.eqb (Ascii.eqb (Py.to_upper c) "<") (Ascii.eqb c "<"))).
    vm_compute. reflexivity.
  - apply (forall_ascii (fun c => Bool.eqb (Ascii.eqb (Py.to_upper c) ">") (Ascii.eqb c ">"))).
    vm_compute. reflexivity.
Qed.

Lemma chars_upper m : Py.chars (Py.upper m) = map Py.to_upper (Py.chars m).
Proof. unfold Py.upper. apply chars_str. Qed.

Lemma same_ignoring_case_upper a : forall b,
  same_ignoring_case a (map Py.to_upper b) = same_ignoring_case a b.
Proof.
  induction a as [|x a IH]; intros [|y b]; simpl; try reflexivity.
  rewrite to_upper_idem, IH. reflexivity.
Qed.

Lemma slice_upper m i n :
  slice (map Py.to_upper m) i n = map Py.to_upper (slice m i n).
Proof. unfold slice. rewrite skipn_map, firstn_map. reflexivity. Qed.

Lemma word_char_at_upper m i : word_char_at (map Py.to_upper m) i = word_char_at m i.
Proof.
  unfold word_char_at. rewrite nth_error_map.
  destruct (nth_error m i); simpl; [apply is_word_to_upper | reflexivity].
Qed.

Lemma whole_word_at_upper kw m i :
  whole_word_at kw (map Py.to_upper m) i = whole_word_at kw m i.
Proof.
  unfold whole_word_at, word_char_before.
  rewrite slice_upper, same_ignoring_case_upper, word_char_at_upper.
  destruct i; [|rewrite word_char_at_upper]; reflexivity.
Qed.

Lemma occurs_as_word_upper kw m : occurs_as_word kw (Py.upper m) = occurs_as_word kw m.
Proof.
  unfold occurs_as_word, positions. rewrite chars_upper, length_map.
  apply existsb_pointwise. intros i. apply whole_word_at_upper.
Qed.

Lemma explicit_severity_upper m : explicit_severity (Py.upper m) = explicit_severity m.
Proof.
  unfold explicit_severity, explicit_severity_in.
  assert (H : forall rows : list (list string * string),
    find (fun row => existsb (fun kw => occurs_as_word kw (Py.upper m)) (fst row)) rows =
    find (fun row => existsb (fun kw => occurs_as_word kw m) (fst row)) rows).
  { induction rows as [|row rows IH]; simpl; [reflexivity|].
    rewrite (existsb_pointwise _ (fun kw => occurs_as_word kw m))
      by (intros kw; apply occurs_as_word_upper).
    rewrite IH. reflexivity. }
  rewrite H. reflexivity.
Qed.

Lemma digit_run_upper l : digit_run (map Py.to_upper l) = digit_run l.
Proof.
  induction l as [|c l IH]; simpl; [reflexivity|].
  rewrite is_digit_to_upper. destruct (Py.is_digit c) eqn:E; [|reflexivity].
  rewrite IH, (digit_to_upper c E). reflexivity.
Qed.

Lemma priority_at_upper m i : priority_at (map Py.to_upper m) i = priority_at m i.
Proof.
  unfold priority_at. rewrite skipn_map.
  destruct (skipn i m) as [|c t]; simpl; [reflexivity|].
  rewrite bracket_to_upper by auto. destruct (Ascii.eqb c "<"); [|reflexivity].
  rewrite digit_run_upper, skipn_map.
  destruct (digit_run t) as [|d ds]; [reflexivity|].
  destruct (skipn (length (d :: ds)) t) as [|c' t']; simpl; [reflexivity|].
  rewrite bracket_to_upper by auto. reflexivity.
Qed.

Lemma syslog_priority_upper m : syslog_priority (Py.upper m) = syslog_priority m.
Proof.
  unfold syslog_priority, positions. rewrite chars_upper, length_map.
  apply first_defined_ext. intros i. apply priority_at_upper.
Qed.

Lemma mentions_upper m kw : mentions (Py.upper m) kw = mentions m kw.
Proof.
  unfold mentions, positions. rewrite chars_upper, length_map.
  apply existsb_pointwise. intros i. rewrite slice_upper. apply same_ignoring_case_upper.
Qed.

Lemma heuristic_severity_upper m : heuristic_severity (Py.upper m) = heuristic_severity m.
Proof.
  unfold heuristic_severity.
  rewrite !(existsb_pointwise (mentions (Py.upper m)) (mentions m))
    by (intros kw; apply mentions_upper).
  reflexivity.
Qed.

Lemma determined_severity_upper m :
  determined_severity (Py.upper m) = determined_severity m.
Proof.
  unfold determined_severity.
  rewrite explicit_severity_upper, syslog_priority_upper, heuristic_severity_upper.
  reflexivity.
Qed.

End SeverityMoreFacts.

(** * More facts about network extraction and line parsing *)

Module ParseMoreFacts.
Import Re Model ParseSpec ParseFacts ParseMore.

(** *** The lists of [extract_network_info] *)

Lemma str_in_false x l : str_in x l = false -> ~ In x l.
Proof.
  unfold str_in. intros H Hin.
  assert (existsb (String.eqb x) l = true) as Ht.
  { apply existsb_exists. exists x. split; [exact Hin | apply String.eqb_refl]. }
  congruence.
Qed.

Lemma NoDup_snoc {T} (l : list T) x : List.NoDup l -> ~ In x l -> List.NoDup (l ++ [x]).
Proof.
  intros Hl Hx. induction Hl as [|y l Hy Hl IH]; simpl.
  - constructor; [intros []|constructor].
  - constructor.
    + rewrite in_app_iff. simpl. intros [H | [H | []]]; [auto|].
      subst. apply Hx. left. reflexivity.
    + apply IH. intros H. apply Hx. right. exact H.
Qed.

Lemma fold_left_invariant {A B} (P : A -> Prop) (f : A -> B -> A) l :
  (forall a b, P a -> P (f a b)) -> forall a, P a -> P (fold_left f l a).
Proof.
  intros Hf. induction l as [|b l IH]; intros a Ha; cbn [fold_left]; [exact Ha|].
  apply IH, Hf, Ha.
Qed.

Lemma str_in_true x l : str_in x l = true -> In x l.
Proof.
  unfold str_in. intros H. apply existsb_exists in H as (y & Hy & Heq).
  apply String.eqb_eq in Heq. subst. exact Hy.
Qed.

Lemma collect_ports_from (ms : list rmatch_result) : forall seen collected,
  ports_so_far seen collected ->
  ports_so_far (seen ++ map (group_text "port") ms)
    (fold_left
       (fun collected m =>
          ports ← collected;
          let port := group_text "port" m in
          if str_in port ports then Some ports
          else
            n ← Py.int port;
            if (1 <=? n)%Z && (n <=? 65535)%Z then Some (ports ++ [port]) else Some ports)
       ms collected).
Proof.
  induction ms as [|m ms IH]; intros seen collected H; cbn [map fold_left].
  - rewrite app_nil_r. exact H.
  - replace (seen ++ group_text "port" m :: map (group_text "port") ms)
      with ((seen ++ [group_text "port" m]) ++ map (group_text "port") ms)
      by (rewrite <- app_assoc; reflexivity).
    apply IH. destruct collected as [ports|]; cbn [mbind option_bind].
    + destruct H as (Hnd & Hall & Hseen). cbv zeta.
      destruct (str_in (group_text "port" m) ports) eqn:Hin.
      * repeat split; try assumption. intros port Hp.
        apply in_app_or in Hp as [Hp | [<- | []]]; [exact (Hseen port Hp)|].
        apply str_in_true in Hin. rewrite List.Forall_forall in Hall.
        destruct (Hall _ Hin) as (n & -> & _). discriminate.
      * destruct (Py.int (group_text "port" m)) as [n|] eqn:Hn; cbn [mbind option_bind].
        -- assert (Hseen' : forall port, In port (seen ++ [group_text "port" m]) ->
                                         Py.int port <> None).
           { intros port Hp. apply in_app_or in Hp as [Hp | [<- | []]];
               [exact (Hseen port Hp) | congruence]. }
           destruct (1 <=? n)%Z eqn:Hlo; cbn [andb]; [|repeat split; assumption].
           destruct (n <=? 65535)%Z eqn:Hhi; [|repeat split; assumption].
           repeat split; [| |exact Hseen'].
           ++ apply NoDup_snoc; [exact Hnd | apply str_in_false, Hin].
           ++ apply Forall_app. split; [exact Hall|]. constructor; [|constructor].
              exists n. split; [exact Hn | lia].
        -- exists (group_text "port" m). split; [|exact Hn].
           apply in_or_app. right. left. reflexivity.
    + destruct H as (port & Hp & Hn). exists port. split; [|exact Hn].
      apply in_or_app. left. exact Hp.
Qed.

Lemma collect_ports_spec message :
  ports_so_far (port_candidates message) (collect_ports message).
Proof.
  unfold collect_ports, port_candidates.
  apply (collect_ports_from _ [] (Some [])).
  repeat split; [constructor | constructor | intros port []].
Qed.

Lemma upper_idem s : Py.upper (Py.upper s) = Py.upper s.
Proof.
  unfold Py.upper at 1. rewrite SeverityMoreFacts.chars_upper, map_map.
  unfold Py.upper. f_equal. apply map_ext. intros c.
  apply SeverityMoreFacts.to_upper_idem.
Qed.

Lemma collect_protocols_spec message :
  List.NoDup (collect_protocols message) /\
  List.Forall (fun p => Py.upper p = p) (collect_protocols message).
Proof.
  unfold collect_protocols.
  apply (fold_left_invariant
           (fun protocols => List.NoDup protocols /\
                             List.Forall (fun p => Py.upper p = p) protocols));
    [|split; constructor].
  intros protocols m [Hnd Hall].
  destruct (negb (str_in (Py.upper (group_text "proto" m)) protocols)) eqn:Hin; [|auto].
  apply negb_true_iff in Hin. split.
  - apply NoDup_snoc; [exact Hnd | apply str_in_false, Hin].
  - apply Forall_app. split; [exact Hall|]. constructor; [|constructor].
    apply upper_idem.
Qed.

(** *** The keys of [extract_network_info] *)

Lemma extract_network_info_stages message :
  extract_network_info message = option_map (network_of message) (collect_ports message).
Proof.
  unfold extract_network_info, network_of, with_list, with_addresses.
  destruct (collect_ports message) as [ports|]; [|reflexivity].
  cbn [mbind option_bind option_map].
  destruct (findall false ip_pattern "ip" message) as [|ip0 [|ip1 ips]];
    destruct ports;
    destruct (collect_protocols message);
    destruct (findall false mac_pattern "mac" message); reflexivity.
Qed.

Lemma with_list_lookup k l d k' :
  with_list k l d !! k' =
  if String.eqb k k' then match l with [] => d !! k' | _ => Some (VList l) end
  else d !! k'.
Proof.
  unfold with_list. destruct (String.eqb_spec k k') as [<- | Hne].
  - destruct l; [reflexivity | apply lookup_insert_eq].
  - destruct l; [reflexivity | apply lookup_insert_ne; exact Hne].
Qed.


Lemma with_addresses_lookup ips k :
  with_addresses ips !! k =
  match ips with
  | [] => None
  | ip0 :: ips' =>
      if String.eqb k "ip_addresses" then Some (VList ips)
      else match ips' with
           | ip1 :: _ =>
               if String.eqb k "src_ip" then Some (VStr ip0)
               else if String.eqb k "dst_ip" then Some (VStr ip1)
               else None
           | [] => if String.eqb k "ip_address" then Some (VStr ip0) else None
           end
  end.
Proof.
  unfold with_addresses. destruct ips as [|ip0 [|ip1 ips]]; [apply lookup_empty | |].
  - destruct (String.eqb_spec k "ip_addresses") as [-> | H1].
    + rewrite lookup_insert_ne by discriminate. apply lookup_insert_eq.
    + destruct (String.eqb_spec k "ip_address") as [-> | H2]; [apply lookup_insert_eq|].
      rewrite !lookup_insert_ne by congruence. apply lookup_empty.
  - destruct (String.eqb_spec k "ip_addresses") as [-> | H1].
    + rewrite !lookup_insert_ne by discriminate. apply lookup_insert_eq.
    + destruct (String.eqb_spec k "src_ip") as [-> | H2].
      * rewrite lookup_insert_ne by discriminate. apply lookup_insert_eq.
      * destruct (String.eqb_spec k "dst_ip") as [-> | H3]; [apply lookup_insert_eq|].
        rewrite !lookup_insert_ne by congruence. apply lookup_empty.
Qed.

Lemma network_of_lookup message ports k :
  network_of message ports !! k =
  if String.eqb k "mac_addresses" then
    match findall false mac_pattern "mac" message with
    | [] => None
    | macs => Some (VList macs)
    end
  else if String.eqb k "protocols" then
    match collect_protocols message with
    | [] => None
    | protocols => Some (VList protocols)
    end
  else if String.eqb k "ports" then
    match ports with
    | [] => None
    | _ => Some (VList ports)
    end
  else with_addresses (findall false ip_pattern "ip" message) !! k.
Proof.
  unfold network_of. rewrite !with_list_lookup.
  rewrite (String.eqb_sym "mac_addresses" k), (String.eqb_sym "protocols" k),
          (String.eqb_sym "ports" k).
  destruct (String.eqb_spec k "mac_addresses") as [-> | H1].
  { destruct (findall false mac_pattern "mac" message); [|reflexivity].
    cbn [String.eqb Ascii.eqb Bool.eqb]. rewrite with_addresses_lookup.
    destruct (findall false ip_pattern "ip" message) as [|ip0 [|ip1 ips]]; reflexivity. }
  destruct (String.eqb_spec k "protocols") as [-> | H2].
  { destruct (collect_protocols message); [|reflexivity].
    cbn [String.eqb Ascii.eqb Bool.eqb]. rewrite with_addresses_lookup.
    destruct (findall false ip_pattern "ip" message) as [|ip0 [|ip1 ips]]; reflexivity. }
  destruct (String.eqb_spec k "ports") as [-> | H3]; [|reflexivity].
  destruct ports; [|reflexivity].
  rewrite with_addresses_lookup.
  destruct (findall false ip_pattern "ip" message) as [|ip0 [|ip1 ips]]; reflexivity.
Qed.

(** The dictionary that [extract_network_info] returns. *)
Lemma extract_network_info_returns message extracted :
  extract_network_info message = Some extracted ->
  exists ports, collect_ports message = Some ports /\ extracted = network_of message ports.
Proof.
  rewrite extract_network_info_stages.
  destruct (collect_ports message) as [ports|]; [|discriminate].
  intros [= <-]. exists ports. auto.
Qed.

(** *** Records *)

Section WithLibrary.
Variable now : datetime.
Variable strptime : string -> string -> option datetime.
Variable fromisoformat : string -> option datetime.
Variable json_loads : string -> result json.

Lemma parse_body_inv line source e :
  parse_body now strptime fromisoformat json_loads line source = Ok e ->
  exists v,
    structured_stage now strptime fromisoformat json_loads line = Ok v /\
    finish source v = Ok e.
Proof.
  unfold parse_body.
  destruct (structured_stage now strptime fromisoformat json_loads line) as [v|];
    cbn [mbind result_bind]; [eauto | discriminate].
Qed.

(** A captured [protocol] that is not a string makes the [try] block
    raise. *)
Lemma parse_body_protocol_not_str line source captured x :
  captured_network now strptime fromisoformat json_loads line = Some captured ->
  captured !! "protocol" = Some x ->
  (forall s, x <> VStr s) ->
  exists err, parse_body now strptime fromisoformat json_loads line source = Raise err.
Proof.
  intros Hc Hx Hns.
  destruct (parse_body now strptime fromisoformat json_loads line source) as [e|err] eqn:Hb;
    [exfalso | eauto].
  unfold captured_network in Hc.
  apply parse_body_inv in Hb as (v & Hv & Hf). rewrite Hv in Hc. injection Hc as <-.
  apply finish_inv in Hf as (m & extracted & level & ni & _ & He & _ & Hm & _).
  unfold map_protocol, update in Hm.
  rewrite (lookup_union_r _ _ _ (extract_network_info_no_protocol _ _ He)), Hx in Hm.
  destruct x as [| s | | |]; try discriminate. exact (Hns s eq_refl).
Qed.

Lemma parse_enhanced_log_line_raise line source err :
  Py.strip line <> "" ->
  parse_body now strptime fromisoformat json_loads line source = Raise err ->
  parse_enhanced_log_line now strptime fromisoformat json_loads line source
  = Some (fallback_entry now line source).
Proof.
  intros Hs Hb. unfold parse_enhanced_log_line. rewrite Hb.
  destruct (String.eqb_spec (Py.strip line) ""); [contradiction | reflexivity].
Qed.

(** The locals after the JSON branch on a line that decodes to an
    object. *)
Lemma structured_stage_json line fields v :
  Py.startswith (Py.strip line) "{" = true ->
  json_loads line = Ok (JObj fields) ->
  structured_stage now strptime fromisoformat json_loads line = Ok v ->
  let json_log := dict_of_object fields in
  l_log_type v = "json" /\
  l_parsed_fields v = json_log /\
  l_message v = get json_log "message" (get json_log "msg" (VStr line)) /\
  l_metadata v =
    without_keys ["message"; "msg"; "level"; "severity"; "timestamp"; "time"] json_log /\
  exists l,
    get json_log "level" (get json_log "severity" (VStr "INFO")) = VStr l /\
    l_level v = Py.upper l.
Proof.
  intros Hs Hl. unfold structured_stage. rewrite Hs.
  unfold json_branch. rewrite Hl.
  destruct (get (dict_of_object fields) "level" _) as [| l | | |] eqn:Hlevel;
    cbn [mbind result_bind]; try discriminate.
  match goal with
  | |- mbind _ (mbind _ ?t) = _ -> _ => destruct t as [ts|]
  end; cbn [mbind result_bind l_log_type String.eqb Ascii.eqb Bool.eqb]; [|discriminate].
  intros [= <-]. cbn [l_log_type l_parsed_fields l_message l_metadata l_level].
  repeat split. exists l. split; reflexivity.
Qed.

(** The fields of a record made from a JSON object. *)
Lemma json_record line source fields e :
  Py.startswith (Py.strip line) "{" = true ->
  json_loads line = Ok (JObj fields) ->
  parse_body now strptime fromisoformat json_loads line source = Ok e ->
  let json_log := dict_of_object fields in
  e_log_type e = Some "json" /\
  e_parsed_fields e = json_log /\
  VStr (e_message e) = get json_log "message" (get json_log "msg" (VStr line)) /\
  e_metadata e =
    without_keys ["message"; "msg"; "level"; "severity"; "timestamp"; "time"] json_log /\
  exists l,
    get json_log "level" (get json_log "severity" (VStr "INFO")) = VStr l /\
    if String.eqb (Py.upper l) "INFO"
    then Severity.extract_log_level (e_message e) "INFO" = Some (e_level e)
    else e_level e = Py.upper l.
Proof.
  intros Hs Hl Hb. apply parse_body_inv in Hb as (v & Hv & Hf).
  destruct (structured_stage_json line fields v Hs Hl Hv)
    as (Ht & Hp & Hm & Hmeta & l & Hlevel & Hlv).
  apply finish_inv in Hf as (m & extracted & level & ni & Hm' & _ & Hlevel' & _ & ->).
  cbn [e_log_type e_parsed_fields e_message e_metadata e_level]. cbv zeta.
  rewrite Ht, Hp, Hmeta, <- Hm, Hm'. repeat split.
  exists l. split; [exact Hlevel|]. rewrite Hlv in Hlevel'. exact Hlevel'.
Qed.

(** The metadata of a record is a part of its parsed fields. *)
Lemma json_branch_metadata line v v' :
  json_branch fromisoformat json_loads line v = Ok v' ->
  l_metadata v ⊆ l_parsed_fields v -> l_metadata v' ⊆ l_parsed_fields v'.
Proof.
  unfold json_branch.
  destruct (json_loads line) as [[| | | | |fields]|x]; try discriminate.
  - destruct (get _ "level" _); try discriminate. cbn [mbind result_bind].
    match goal with
    | |- (?t ≫= _) = _ -> _ => destruct t as [ts|]
    end; cbn [mbind result_bind]; [|discriminate].
    intros [= <-] _. cbn [l_metadata l_parsed_fields]. apply map_filter_subseteq.
  - destruct x; try discriminate. intros [= <-] H. exact H.
Qed.

Lemma registry_branch_metadata line v v' :
  registry_branch strptime line v = Ok v' ->
  l_metadata v ⊆ l_parsed_fields v -> l_metadata v' ⊆ l_parsed_fields v'.
Proof.
  unfold registry_branch.
  generalize (parse_structured_log strptime line). intros structured_data.
  destruct (is_empty_dict structured_data); [intros [= <-] H; exact H|].
  destruct (structured_data !! "level") as [[]|]; cbn [mbind result_bind];
    try discriminate; intros [= <-] _; cbn [l_metadata l_parsed_fields];
    apply map_filter_subseteq.
Qed.

Lemma parse_body_metadata line source e :
  parse_body now strptime fromisoformat json_loads line source = Ok e ->
  e_metadata e ⊆ e_parsed_fields e.
Proof.
  intros Hb. apply parse_body_inv in Hb as (v' & Hs & Hf).
  unfold structured_stage in Hs.
  set (init := Locals ∅ ∅ ∅ "unknown" "INFO" now (VStr (Py.strip line))) in Hs.
  assert (Hinit : l_metadata init ⊆ l_parsed_fields init) by reflexivity.
  destruct (if Py.startswith (Py.strip line) "{"
            then json_branch fromisoformat json_loads line init
            else Ok init) as [v|] eqn:Hj; cbn [mbind result_bind] in Hs; [|discriminate].
  assert (Hv : l_metadata v ⊆ l_parsed_fields v).
  { destruct (Py.startswith (Py.strip line) "{").
    - exact (json_branch_metadata line init v Hj Hinit).
    - injection Hj as <-. exact Hinit. }
  assert (Hv' : l_metadata v' ⊆ l_parsed_fields v').
  { destruct (String.eqb (l_log_type v) "unknown").
    - exact (registry_branch_metadata line v v' Hs Hv).
    - injection Hs as <-. exact Hv. }
  apply finish_inv in Hf as (m & extracted & level & ni & _ & _ & _ & _ & ->).
  exact Hv'.
Qed.

Lemma parse_enhanced_log_line_metadata line source e :
  parse_enhanced_log_line now strptime fromisoformat json_loads line source = Some e ->
  e_metadata e ⊆ e_parsed_fields e.
Proof.
  intros H.
  pose proof (parse_enhanced_log_line_cases now strptime fromisoformat json_loads
                line source) as Hc.
  rewrite H in Hc. destruct Hc as [_ [[Hb _] | [_ ->]]].
  - exact (parse_body_metadata line source e Hb).
  - reflexivity.
Qed.

(** The locals of a line that is not JSON: the JSON branch leaves them
    as they were. *)
Lemma json_branch_skipped line init :
  (Py.startswith (Py.strip line) "{" = true -> json_loads line = Raise JSONDecodeError) ->
  (if Py.startswith (Py.strip line) "{"
   then json_branch fromisoformat json_loads line init else Ok init) = Ok init.
Proof.
  intros Hj. destruct (Py.startswith (Py.strip line) "{"); [|reflexivity].
  unfold json_branch. rewrite Hj; reflexivity.
Qed.

(** A line that is not JSON and that no registry entry matches. *)
Lemma unrecognised_line line source :
  (Py.startswith (Py.strip line) "{" = true -> json_loads line = Raise JSONDecodeError) ->
  find (entry_matches line) declared_order = None ->
  parse_body now strptime fromisoformat json_loads line source =
  match extract_network_info (Py.strip line),
        Severity.extract_log_level (Py.strip line) "INFO" with
  | Some extracted, Some level =>
      Ok (Entry (Py.strip line) now level source (Some "unknown") extracted ∅ ∅)
  | _, _ => Raise ValueError
  end.
Proof.
  intros Hj Hf. unfold parse_body, structured_stage.
  rewrite (json_branch_skipped line _ Hj).
  cbn [mbind result_bind l_log_type String.eqb Ascii.eqb Bool.eqb].
  unfold registry_branch, parse_structured_log.
  pose proof (parse_structured_loop_first strptime LOG_PATTERNS line) as H.
  rewrite find_declared_order in Hf.
  destruct (find _ LOG_PATTERNS); [discriminate|]. rewrite H, is_empty_dict_empty.
  cbn [mbind result_bind]. unfold finish.
  cbn [l_message l_level l_network_info l_timestamp l_log_type l_parsed_fields l_metadata
       mbind result_bind String.eqb Ascii.eqb Bool.eqb].
  destruct (extract_network_info (Py.strip line)) as [extracted|] eqn:He;
    cbn [or_raise mbind result_bind]; [|reflexivity].
  destruct (Severity.extract_log_level (Py.strip line) "INFO") as [level|];
    cbn [or_raise mbind result_bind]; [|reflexivity].
  unfold update. rewrite (right_id ∅ (∪)).
  unfold map_protocol. rewrite (extract_network_info_no_protocol _ _ He). reflexivity.
Qed.

(** The locals after the registry branch on a line that a registry entry
    matches. *)
Lemma structured_stage_registry line v :
  (Py.startswith (Py.strip line) "{" = true -> json_loads line = Raise JSONDecodeError) ->
  is_empty_dict (parse_structured_log strptime line) = false ->
  structured_stage now strptime fromisoformat json_loads line = Ok v ->
  let structured_data := parse_structured_log strptime line in
  l_parsed_fields v = structured_data /\
  l_message v = get structured_data "message" (VStr (Py.strip line)) /\
  l_timestamp v = match structured_data !! "parsed_timestamp" with
                  | Some (VTime t) => t
                  | _ => now
                  end /\
  l_level v = match structured_data !! "level" with
              | Some (VStr l) => l
              | _ => "INFO"
              end.
Proof.
  intros Hj Hne. unfold structured_stage.
  rewrite (json_branch_skipped line _ Hj).
  cbn [mbind result_bind l_log_type String.eqb Ascii.eqb Bool.eqb].
  unfold registry_branch. rewrite Hne. cbv zeta.
  generalize (parse_structured_log strptime line). intros structured_data.
  destruct (structured_data !! "level") as [[| l | | |]|]; cbn [mbind result_bind];
    try discriminate; intros [= <-];
    cbn [l_message l_level l_timestamp l_parsed_fields]; repeat split.
Qed.

(** The fields of a record made from the captures of a registry entry. *)
Lemma registry_record line source e :
  (Py.startswith (Py.strip line) "{" = true -> json_loads line = Raise JSONDecodeError) ->
  is_empty_dict (parse_structured_log strptime line) = false ->
  parse_body now strptime fromisoformat json_loads line source = Ok e ->
  let structured_data := parse_structured_log strptime line in
  e_parsed_fields e = structured_data /\
  VStr (e_message e) = get structured_data "message" (VStr (Py.strip line)) /\
  e_timestamp e = match structured_data !! "parsed_timestamp" with
                  | Some (VTime t) => t
                  | _ => now
                  end /\
  match structured_data !! "level" with
  | Some (VStr l) =>
      if String.eqb l "INFO"
      then Severity.extract_log_level (e_message e) "INFO" = Some (e_level e)
      else e_level e = l
  | _ => Severity.extract_log_level (e_message e) "INFO" = Some (e_level e)
  end.
Proof.
  intros Hj Hne Hb. apply parse_body_inv in Hb as (v & Hv & Hf).
  destruct (structured_stage_registry line v Hj Hne Hv) as (Hp & Hm & Ht & Hl).
  apply finish_inv in Hf as (m & extracted & level & ni & Hm' & _ & Hlevel & _ & ->).
  cbn [e_parsed_fields e_message e_timestamp e_level]. cbv zeta.
  rewrite Hp, Ht, <- Hm, Hm'. repeat split.
  rewrite Hl in Hlevel.
  destruct (parse_structured_log strptime line !! "level") as [[| l | | |]|];
    exact Hlevel.
Qed.

End WithLibrary.
End ParseMoreFacts.

(** * More facts about template bookkeeping and ingestion *)

Module IngestMoreFacts.
Import Model Mongo Ingest IngestSpec IngestFacts IngestMore.

(** *** The largest cluster *)

Lemma max_cluster_from (clusters : list (Z * cluster)) : forall best,
  match fold_left
          (fun best '(k, c) =>
             match best with
             | Some (k', _) => if (k' <? k)%Z then Some (k, c) else best
             | None => Some (k, c)
             end)
          clusters best with
  | Some (k, c) =>
      (best = Some (k, c) \/ In (k, c) clusters) /\
      (forall k' c', In (k', c') clusters -> (k' <= k)%Z) /\
      (forall k0 c0, best = Some (k0, c0) -> (k0 <= k)%Z)
  | None => best = None /\ clusters = []
  end.
Proof.
  induction clusters as [|[k1 c1] clusters IH]; intros best; cbn [fold_left].
  - destruct best as [[k c]|]; [|auto].
    split; [auto|]. split; [intros k' c' []|]. intros k0 c0 [= <- <-]. lia.
  - match goal with |- context [fold_left _ clusters ?b] => specialize (IH b) end.
    destruct (fold_left _ clusters _) as [[k c]|].
    + destruct IH as (Hin & Hmax & Hbest). destruct best as [[k0 c0]|].
      * destruct (k0 <? k1)%Z eqn:E.
        -- specialize (Hbest k1 c1 eq_refl). split; [|split].
           ++ destruct Hin as [[= <- <-] | Hin]; right; [left; reflexivity | right; exact Hin].
           ++ intros k' c' [[= <- <-] | H]; [exact Hbest | exact (Hmax k' c' H)].
           ++ intros k2 c2 [= <- <-]. lia.
        -- specialize (Hbest k0 c0 eq_refl). split; [|split].
           ++ destruct Hin as [Hin | Hin]; [left; exact Hin | right; right; exact Hin].
           ++ intros k' c' [[= <- <-] | H]; [lia | exact (Hmax k' c' H)].
           ++ intros k2 c2 [= <- <-]. exact Hbest.
      * specialize (Hbest k1 c1 eq_refl). split; [|split].
        -- destruct Hin as [[= <- <-] | Hin]; right; [left; reflexivity | right; exact Hin].
        -- intros k' c' [[= <- <-] | H]; [exact Hbest | exact (Hmax k' c' H)].
        -- discriminate.
    + destruct IH as [IH _]. destruct best as [[k0 c0]|]; [|discriminate].
      destruct (k0 <? k1)%Z; discriminate.
Qed.

Lemma max_cluster_spec clusters :
  match max_cluster clusters with
  | Some (k, c) => In (k, c) clusters /\ forall k' c', In (k', c') clusters -> (k' <= k)%Z
  | None => clusters = []
  end.
Proof.
  unfold max_cluster. pose proof (max_cluster_from clusters None) as H.
  destruct (fold_left _ clusters None) as [[k c]|].
  - destruct H as ([H | H] & Hmax & _); [discriminate|]. split; assumption.
  - apply H.
Qed.

Section WithService.
Variable now : datetime.
Variable strptime : string -> string -> option datetime.
Variable fromisoformat : string -> option datetime.
Variable json_loads : string -> result json.
Variable miner : Type.
Variable add_log_message : miner -> string -> miner * result miner_result.
Variable id_to_cluster : miner -> option (list (Z * cluster)).
Variable logparser_drain : bool.
Variable responds : nat -> bool.
Variable decode : string -> option string.

Lemma last_resort_id message info : is_Some (template_id (last_resort message info)).
Proof.
  unfold last_resort. destruct (template_id info) eqn:E; [rewrite E|]; eauto.
Qed.

Lemma process_log_always_id message timestamp parser_type st :
  is_Some (template_id (snd (process_log_with_enhanced_parsing miner add_log_message
                               id_to_cluster logparser_drain responds message timestamp
                               parser_type st))).
Proof.
  unfold process_log_with_enhanced_parsing, process_body.
  destruct (_ && _); [eauto|].
  destruct (template_miner miner st) as [m|]; [|eauto].
  destruct (add_log_message m message) as [m' [r|e]]; [|eauto].
  apply last_resort_id.
Qed.

(** What the assembler returns when the miner answers. *)
Lemma process_log_answered message timestamp st m m' r :
  template_miner miner st = Some m ->
  add_log_message m message = (m', Ok r) ->
  snd (process_log_with_enhanced_parsing miner add_log_message id_to_cluster
         logparser_drain responds message timestamp "drain3" st)
  = last_resort message (rescue_from_clusters miner id_to_cluster m' (read_result r)).
Proof.
  intros Hm Ha. unfold process_log_with_enhanced_parsing, process_body.
  cbn [String.eqb Ascii.eqb Bool.eqb andb]. rewrite Hm, Ha. reflexivity.
Qed.

(** *** The log collection *)

Lemma process_log_logs message timestamp parser_type st :
  logs (db miner (fst (process_log_with_enhanced_parsing miner add_log_message
                         id_to_cluster logparser_drain responds message timestamp
                         parser_type st)))
  = logs (db miner st).
Proof.
  unfold process_log_with_enhanced_parsing, process_body.
  destruct (_ && _).
  - cbn [fst db]. apply update_template_statistics_logs.
  - destruct (template_miner miner st) as [m|]; [|reflexivity].
    destruct (add_log_message m message) as [m' [r|e]]; cbn [fst db]; [|reflexivity].
    apply update_template_statistics_logs.
Qed.

Lemma update_template_statistics_files result timestamp d :
  files (update_template_statistics responds result timestamp d) = files d.
Proof.
  unfold update_template_statistics, templates_update_one.
  destruct (template_id result) as [id|], (template result) as [t|]; try reflexivity.
  destruct (String.eqb t ""); [reflexivity|].
  rewrite template_upsert_refused. destruct (responds (calls d)); reflexivity.
Qed.

Lemma process_log_files message timestamp parser_type st :
  files (db miner (fst (process_log_with_enhanced_parsing miner add_log_message
                          id_to_cluster logparser_drain responds message timestamp
                          parser_type st)))
  = files (db miner st).
Proof.
  unfold process_log_with_enhanced_parsing, process_body.
  destruct (_ && _).
  - cbn [fst db]. apply update_template_statistics_files.
  - destruct (template_miner miner st) as [m|]; [|reflexivity].
    destruct (add_log_message m message) as [m' [r|e]]; cbn [fst db]; [|reflexivity].
    apply update_template_statistics_files.
Qed.

(** Storing appends the one document or nothing. *)
Lemma store_logs entry info file_id filename st :
  let r := store_enhanced_log_entry miner responds entry info file_id filename st in
  files (db miner (fst r)) = files (db miner st) /\
  match snd r with
  | Ok _ => logs (db miner (fst r)) = logs (db miner st) ++ [LogDoc entry info file_id filename]
  | Raise e => e = HTTPException 500 /\ logs (db miner (fst r)) = logs (db miner st)
  end.
Proof.
  unfold store_enhanced_log_entry, logs_insert_one.
  destruct (responds (calls (db miner st))); cbn; auto.
Qed.


(** *** The upload loop and the log collection *)

Lemma process_line_logs filename file_id st c line :
  let r := process_line now strptime fromisoformat json_loads miner add_log_message id_to_cluster
             logparser_drain responds filename file_id (st, c) line in
  files (db miner (fst r)) = files (db miner st) /\
  exists new,
    logs (db miner (fst r)) = logs (db miner st) ++ new /\
    (length new + processed_count c)%nat = processed_count (snd r) /\
    List.Forall (of_upload file_id filename) new.
Proof.
  unfold process_line.
  destruct (parse_enhanced_log_line now strptime fromisoformat json_loads line filename) as [e|].
  2:{ cbn [fst snd]. split; [reflexivity|]. exists []. rewrite app_nil_r.
      repeat split. constructor. }
  pose proof (process_log_logs (e_message e) (e_timestamp e) "drain3" st) as Hl.
  pose proof (process_log_files (e_message e) (e_timestamp e) "drain3" st) as Hf.
  destruct (process_log_with_enhanced_parsing _ _ _ _ _ _ _ _ st) as [st1 info].
  cbn [fst] in Hl, Hf.
  pose proof (store_logs e info (Some file_id) (Some filename) st1) as Hs.
  destruct (store_enhanced_log_entry _ _ _ _ _ _ st1) as [st2 [u|x]];
    cbv zeta in Hs; cbn [fst snd] in Hs |- *; destruct Hs as [Hs1 Hs2].
  - split; [congruence|]. exists [LogDoc e info (Some file_id) (Some filename)].
    rewrite Hs2, Hl. repeat split. constructor; [|constructor]. split; reflexivity.
  - destruct Hs2 as [_ Hs2]. split; [congruence|]. exists []. rewrite app_nil_r.
    rewrite Hs2, Hl. repeat split. constructor.
Qed.

Lemma process_lines_logs filename file_id lines : forall st c,
  let r := fold_left (process_line now strptime fromisoformat json_loads miner add_log_message
                        id_to_cluster logparser_drain responds filename file_id)
                     lines (st, c) in
  files (db miner (fst r)) = files (db miner st) /\
  exists new,
    logs (db miner (fst r)) = logs (db miner st) ++ new /\
    (length new + processed_count c)%nat = processed_count (snd r) /\
    List.Forall (of_upload file_id filename) new.
Proof.
  induction lines as [|line lines IH]; intros st c; cbn [fold_left].
  - cbn [fst snd]. split; [reflexivity|]. exists []. rewrite app_nil_r.
    repeat split. constructor.
  - pose proof (process_line_logs filename file_id st c line) as Hstep.
    destruct (process_line _ _ _ _ _ _ _ _ _ _ _ (st, c) line) as [st1 c1].
    cbv zeta in Hstep. cbn [fst snd] in Hstep.
    destruct Hstep as (Hf1 & new1 & Hl1 & Hn1 & Hall1).
    specialize (IH st1 c1). cbv zeta in IH |- *.
    destruct IH as (Hf & new & Hl & Hn & Hall).
    split; [congruence|]. exists (new1 ++ new).
    rewrite Hl, Hl1, <- app_assoc, length_app. repeat split; [lia|].
    apply Forall_app. split; assumption.
Qed.

Lemma files_insert_one_logs doc d :
  logs (fst (files_insert_one responds doc d)) = logs d.
Proof. unfold files_insert_one. destruct (responds (calls d)); reflexivity. Qed.

Lemma files_update_one_logs filter update d :
  logs (fst (files_update_one responds filter update d)) = logs d.
Proof.
  unfold files_update_one. destruct (responds (calls d)); [|reflexivity].
  destruct (update_one filter update false (files d)); reflexivity.
Qed.

Lemma upload_logs_logs filename content file_id ts st st' resp :
  upload_logs now strptime fromisoformat json_loads miner add_log_message id_to_cluster
    logparser_drain responds decode filename content file_id ts st = (st', Ok resp) ->
  exists new,
    logs (db miner st') = logs (db miner st) ++ new /\
    length new = r_processed_logs resp /\
    List.Forall (of_upload file_id filename) new.
Proof.
  unfold upload_logs, upload_failed.
  destruct (_ || _); [discriminate|].
  pose proof (files_insert_one_logs
    (list_to_map [("file_id", BStr file_id);
                  ("filename", BStr (file_id ++ "_" ++ filename));
                  ("original_filename", BStr filename);
                  ("file_size", BInt (Z.of_nat (String.length content)));
                  ("upload_timestamp", BTime ts);
                  ("status", BStr "processing");
                  ("processed_logs", BInt 0);
                  ("failed_logs", BInt 0)]) (db miner st)) as Hi.
  destruct (files_insert_one responds _ (db miner st)) as [d [u|x]].
  2:{ destruct (files_update_one _ _ _ _); discriminate. }
  destruct (decode content) as [text|].
  2:{ destruct (files_update_one _ _ _ _); discriminate. }
  unfold process_lines.
  pose proof (process_lines_logs filename file_id (lines_of text) (with_db miner st d)
                (Counters 0 0)) as Hp.
  destruct (fold_left _ (lines_of text) _) as [st1 c].
  cbv zeta in Hp. cbn [fst snd db with_db processed_count] in Hp, Hi.
  destruct Hp as (_ & new & Hl & Hn & Hall).
  match goal with
  | |- context [files_update_one responds ?f ?u (db miner st1)] =>
      pose proof (files_update_one_logs f u (db miner st1)) as Hu;
      destruct (files_update_one responds f u (db miner st1)) as [d1 [u1|x1]]
  end.
  2:{ destruct (files_update_one _ _ _ _); discriminate. }
  intros [= <- <-]. cbn [fst db with_db r_processed_logs] in Hu |- *.
  exists new. rewrite Hu, Hl, Hi. repeat split; [lia | exact Hall].
Qed.


(** *** The manifest of an upload *)

Lemma update_first_fresh filter update old : forall coll,
  List.Forall (fun doc => matches filter doc = false) old ->
  update_first filter update (old ++ coll) =
  match update_first filter update coll with
  | Some r => Some (coll' ← r; Ok (old ++ coll'))
  | None => None
  end.
Proof.
  induction old as [|doc old IH]; intros coll H.
  - cbn [app]. destruct (update_first filter update coll) as [[c|x]|]; reflexivity.
  - inversion H as [|? ? Hdoc Hold]; subst. cbn [app update_first]. rewrite Hdoc.
    rewrite (IH coll Hold).
    destruct (update_first filter update coll) as [[c|x]|]; reflexivity.
Qed.

Lemma files_insert_one_files doc d d' :
  files_insert_one responds doc d = (d', Ok tt) -> files d' = files d ++ [doc].
Proof.
  unfold files_insert_one. destruct (responds (calls d)); [|discriminate].
  intros [= <-]. reflexivity.
Qed.

Lemma upload_logs_manifest filename content file_id ts st st' resp :
  upload_logs now strptime fromisoformat json_loads miner add_log_message id_to_cluster
    logparser_drain responds decode filename content file_id ts st = (st', Ok resp) ->
  fresh_file_id file_id (files (db miner st)) ->
  exists doc,
    files (db miner st') = files (db miner st) ++ [doc] /\
    doc !! "file_id" = Some (BStr file_id) /\
    doc !! "original_filename" = Some (BStr filename) /\
    doc !! "status" = Some (BStr "completed") /\
    doc !! "processed_logs" = Some (BInt (Z.of_nat (r_processed_logs resp))) /\
    doc !! "failed_logs" = Some (BInt (Z.of_nat (r_failed_logs resp))).
Proof.
  unfold upload_logs, upload_failed. intros H Hfresh. revert H.
  destruct (_ || _); [discriminate|].
  set (file_doc := list_to_map _).
  destruct (files_insert_one responds file_doc (db miner st)) as [d [[]|x]] eqn:Hi.
  2:{ destruct (files_update_one _ _ _ _); discriminate. }
  apply files_insert_one_files in Hi.
  destruct (decode content) as [text|].
  2:{ destruct (files_update_one _ _ _ _); discriminate. }
  unfold process_lines.
  pose proof (process_lines_logs filename file_id (lines_of text) (with_db miner st d)
                (Counters 0 0)) as Hp.
  destruct (fold_left _ (lines_of text) _) as [st1 c].
  cbv zeta in Hp. cbn [fst snd db with_db] in Hp. destruct Hp as [Hf _].
  unfold files_update_one at 1.
  destruct (responds (calls (db miner st1))).
  2:{ destruct (files_update_one _ _ _ _); discriminate. }
  unfold update_one. cbn [conflicting paths flat_map map fst app has_duplicate existsb
                          String.eqb Ascii.eqb Bool.eqb orb].
  rewrite Hf, Hi, (update_first_fresh _ _ _ [file_doc] Hfresh).
  cbn [update_first].
  assert (Hm : matches [("file_id", BStr file_id)] file_doc = true).
  { unfold matches, file_doc, list_to_map. cbn [forallb foldr fst snd].
    rewrite lookup_insert_eq. cbn [bson_eqb]. rewrite String.eqb_refl. reflexivity. }
  rewrite Hm. unfold apply_update.
  cbn [fields_of flat_map operator_eqb app apply_set apply_inc fold_left mbind result_bind].
  intros [= <- <-]. cbn [db with_db files r_processed_logs r_failed_logs].
  eexists. split; [reflexivity|].
  unfold file_doc, list_to_map. cbn [foldr fst snd].
  repeat split;
    repeat (first [ rewrite lookup_insert_eq; reflexivity
                  | rewrite lookup_insert_ne by discriminate ]).
Qed.

(** *** The status of an upload *)

Lemma upload_logs_status filename content file_id ts st :
  match snd (upload_logs now strptime fromisoformat json_loads miner add_log_message id_to_cluster
               logparser_drain responds decode filename content file_id ts st) with
  | Ok resp => supported filename = true /\ is_Some (decode content)
  | Raise e =>
      if supported filename then e = HTTPException 500 else e = HTTPException 400
  end.
Proof.
  unfold upload_logs, upload_failed, supported.
  destruct (String.eqb filename ""); cbn [negb orb andb]; [reflexivity|].
  destruct (endswith filename ".log" || endswith filename ".txt" || endswith filename ".json");
    cbn [negb]; [|reflexivity].
  destruct (files_insert_one responds _ (db miner st)) as [d [u|x]].
  2:{ destruct (files_update_one _ _ _ _); reflexivity. }
  destruct (decode content) as [text|].
  2:{ destruct (files_update_one _ _ _ _); reflexivity. }
  destruct (process_lines _ _ _ _ _ _ _ _ _ _ _ _ (lines_of text)) as [st1 c].
  destruct (files_update_one responds _ _ (db miner st1)) as [d1 [u1|x1]].
  - cbn [snd]. split; [reflexivity | eauto].
  - destruct (files_update_one _ _ _ _); reflexivity.
Qed.

Lemma upload_logs_unsupported filename content file_id ts st :
  supported filename = false ->
  upload_logs now strptime fromisoformat json_loads miner add_log_message id_to_cluster
    logparser_drain responds decode filename content file_id ts st
  = (st, Raise (HTTPException 400)).
Proof.
  unfold upload_logs, supported. intros H.
  destruct (String.eqb filename ""); cbn [negb orb andb] in *; [reflexivity|].
  rewrite H. reflexivity.
Qed.


(** *** The Fluent Bit endpoint *)

Lemma or_else_not_empty x y : y <> "" -> or_else x y <> "".
Proof.
  unfold or_else. intros Hy. destruct x as [s|]; [|exact Hy].
  destruct (String.eqb_spec s ""); assumption.
Qed.

Lemma source_of_not_empty fb : source_of fb <> "".
Proof. unfold source_of. apply or_else_not_empty, or_else_not_empty. discriminate. Qed.

Lemma ingest_fluent_bit_entry_logs st c fb :
  let r := ingest_fluent_bit_entry now fromisoformat miner add_log_message id_to_cluster
             logparser_drain responds (st, c) fb in
  ((processed_count (snd r) = S (processed_count c) /\
    failed_count (snd r) = failed_count c /\
    exists info,
      logs (db miner (fst r)) =
      logs (db miner st) ++ [LogDoc (enhanced_entry_of now fromisoformat fb) info None None])
   \/
   (processed_count (snd r) = processed_count c /\
    failed_count (snd r) = S (failed_count c) /\
    logs (db miner (fst r)) = logs (db miner st))).
Proof.
  unfold ingest_fluent_bit_entry.
  set (entry := enhanced_entry_of now fromisoformat fb).
  pose proof (process_log_logs (e_message entry) (e_timestamp entry) "drain3" st) as Hl.
  destruct (process_log_with_enhanced_parsing _ _ _ _ _ _ _ _ st) as [st1 info].
  cbn [fst] in Hl.
  pose proof (store_logs entry info None None st1) as Hs.
  destruct (store_enhanced_log_entry _ _ _ _ _ _ st1) as [st2 [u|x]];
    cbv zeta in Hs; cbn [fst snd] in Hs |- *; destruct Hs as [_ Hs].
  - left. repeat split. exists info. rewrite Hs, Hl. reflexivity.
  - right. destruct Hs as [_ Hs]. repeat split. rewrite Hs, Hl. reflexivity.
Qed.

Lemma plain_document_of_entry fb info :
  plain_document (LogDoc (enhanced_entry_of now fromisoformat fb) info None None).
Proof.
  unfold plain_document, enhanced_entry_of.
  cbn [d_entry e_level e_log_type e_network_info e_parsed_fields e_source d_file_id d_filename].
  repeat split. apply source_of_not_empty.
Qed.

Lemma ingest_fluent_bit_loop batch : forall st c,
  let r := fold_left (ingest_fluent_bit_entry now fromisoformat miner add_log_message
                        id_to_cluster logparser_drain responds) batch (st, c) in
  (processed_count (snd r) + failed_count (snd r)
   = processed_count c + failed_count c + length batch)%nat /\
  exists new,
    logs (db miner (fst r)) = logs (db miner st) ++ new /\
    (length new + processed_count c)%nat = processed_count (snd r) /\
    List.Forall plain_document new.
Proof.
  induction batch as [|fb batch IH]; intros st c; cbn [fold_left].
  - cbn [fst snd length]. split; [lia|]. exists []. rewrite app_nil_r.
    repeat split. constructor.
  - pose proof (ingest_fluent_bit_entry_logs st c fb) as Hstep.
    destruct (ingest_fluent_bit_entry _ _ _ _ _ _ _ (st, c) fb) as [st1 c1].
    cbv zeta in Hstep. cbn [fst snd] in Hstep.
    specialize (IH st1 c1). cbv zeta in IH |- *.
    destruct IH as (Hsum & new & Hl & Hn & Hall). cbn [length].
    destruct Hstep as [(Hp & Hf & info & Hlogs) | (Hp & Hf & Hlogs)].
    + split; [lia|].
      exists (LogDoc (enhanced_entry_of now fromisoformat fb) info None None :: new).
      rewrite Hl, Hlogs, <- app_assoc. cbn [app length]. repeat split; [lia|].
      constructor; [apply plain_document_of_entry | exact Hall].
    + split; [lia|]. exists new. rewrite Hl, Hlogs. repeat split; [lia | exact Hall].
Qed.

End WithService.

(** *** The query document *)

Lemma set_key_no_empty_dict k c q :
  c <> EmptyDict -> List.Forall no_empty_dict q -> List.Forall no_empty_dict (set_key k c q).
Proof.
  intros Hc Hq. unfold set_key. destruct (existsb _ q).
  - apply List.Forall_forall. intros kc Hin. apply in_map_iff in Hin as (kc' & <- & Hin').
    destruct (String.eqb (fst kc') k); [exact Hc|].
    rewrite List.Forall_forall in Hq. apply Hq, Hin'.
  - apply Forall_app. split; [exact Hq|]. constructor; [exact Hc | constructor].
Qed.

Lemma when_text_no_empty_dict o f q :
  (forall s q', List.Forall no_empty_dict q' -> List.Forall no_empty_dict (f s q')) ->
  List.Forall no_empty_dict q -> List.Forall no_empty_dict (when_text o f q).
Proof.
  intros Hf Hq. unfold when_text. destruct o as [s|]; [|exact Hq].
  destruct (negb (String.eqb s "")); [apply Hf, Hq | exact Hq].
Qed.

Lemma mongo_query_no_empty_dict query : List.Forall no_empty_dict (mongo_query query).
Proof.
  unfold mongo_query.
  repeat first
    [ apply when_text_no_empty_dict;
      [intros s q' Hq'; apply set_key_no_empty_dict; [discriminate | exact Hq']|]
    | match goal with
      | |- List.Forall _ (match ?x with _ => _ end) => destruct x
      end
    | apply set_key_no_empty_dict; [discriminate|]
    | constructor ].
Qed.

End IngestMoreFacts.

(** * More facts about the detectors *)

Module DetectorMoreFacts.
Import Model Detector DetectorSpec DetectorFacts DetectorMore.

(** *** A window without error records *)

Lemma zero_rate_below_threshold y :
  (error_rate_threshold <? (0 / y))%float = false.
Proof.
  rewrite ltb_spec, div_spec.
  destruct (Prim2SF y) as [s | s | | s m e]; try (destruct s); reflexivity.
Qed.

Lemma rate_of_zero total :
  (error_rate_threshold <? rate_of 0 total)%float = false.
Proof. unfold rate_of. apply zero_rate_below_threshold. Qed.

Lemma no_error_records_no_anomaly df :
  existsb (has_column df) error_levels = false ->
  detect_error_rate_anomalies df = Ok [].
Proof.
  intros H.
  rewrite detect_error_rate_anomalies_buckets
    by (unfold columns_selectable; rewrite H; reflexivity).
  f_equal. unfold error_rate_anomalies.
  induction (observed_hours df) as [|h hours IH]; [reflexivity|].
  cbn [flat_map]. rewrite IH, app_nil_r. unfold error_rate.
  rewrite (no_error_column df h H), rate_of_zero. reflexivity.
Qed.

(** *** Which buckets the volume detector can report *)

Lemma nth_error_resample_size df i b :
  nth_error (resample_size df) i = Some b ->
  nth_error (spanned_hours df) i = Some (fst b) /\ snd b = count_in (fst b) df.
Proof.
  unfold resample_size. rewrite nth_error_map.
  destruct (nth_error (spanned_hours df) i) as [h|]; [|discriminate].
  intros [= <-]. split; reflexivity.
Qed.


(** *** Hours *)

Lemma fold_min_le l : forall a,
  (fold_left Z.min l a <= a)%Z /\ forall x, In x l -> (fold_left Z.min l a <= x)%Z.
Proof.
  induction l as [|y l IH]; intros a; cbn [fold_left]; [split; [lia | intros x []]|].
  destruct (IH (Z.min a y)) as [H1 H2]. split; [lia|].
  intros x [<- | Hx]; [lia | exact (H2 x Hx)].
Qed.

Lemma fold_max_ge l : forall a,
  (a <= fold_left Z.max l a)%Z /\ forall x, In x l -> (x <= fold_left Z.max l a)%Z.
Proof.
  induction l as [|y l IH]; intros a; cbn [fold_left]; [split; [lia | intros x []]|].
  destruct (IH (Z.max a y)) as [H1 H2]. split; [lia|].
  intros x [<- | Hx]; [lia | exact (H2 x Hx)].
Qed.

Lemma in_hour_range lo hi h : (lo <= h <= hi)%Z -> In h (hour_range lo hi).
Proof.
  intros H. unfold hour_range. apply in_map_iff. exists (Z.to_nat (h - lo)).
  split; [lia|]. apply in_seq. lia.
Qed.

Lemma NoDup_hour_range lo hi : List.NoDup (hour_range lo hi).
Proof.
  unfold hour_range. generalize (seq_NoDup (Z.to_nat (hi - lo + 1)) 0).
  generalize (seq 0 (Z.to_nat (hi - lo + 1))). intros l Hl.
  induction Hl as [|i l Hi Hl IH]; cbn [map]; constructor; [|exact IH].
  intros Hin. apply in_map_iff in Hin as (j & Hj & Hin).
  assert (j = i) by lia. subst. contradiction.
Qed.

Lemma in_spanned_hours df r : In r df -> In (hour_of (row_timestamp r)) (spanned_hours df).
Proof.
  intros Hr. unfold spanned_hours.
  assert (Hin : In (hour_of (row_timestamp r)) (hours_of df)).
  { unfold hours_of. apply in_map_iff. exists r. split; [reflexivity | exact Hr]. }
  destruct (hours_of df) as [|h hs]; [destruct Hin|].
  destruct (fold_min_le hs h) as [Hlo1 Hlo2]. destruct (fold_max_ge hs h) as [Hhi1 Hhi2].
  apply in_hour_range. destruct Hin as [<- | Hin]; [lia|].
  specialize (Hlo2 _ Hin). specialize (Hhi2 _ Hin). lia.
Qed.

Lemma count_in_positive df r : In r df -> (0 < count_in (hour_of (row_timestamp r)) df)%nat.
Proof.
  intros Hr. unfold count_in.
  assert (Hin : In r (List.filter (fun r0 => Z.eqb (hour_of (row_timestamp r0))
                                                  (hour_of (row_timestamp r))) df)).
  { apply filter_In. split; [exact Hr | apply Z.eqb_refl]. }
  destruct (List.filter _ df); [destruct Hin | cbn [length]; lia].
Qed.

Lemma in_observed_hours df r : In r df -> In (hour_of (row_timestamp r)) (observed_hours df).
Proof.
  intros Hr. unfold observed_hours. apply filter_In. split.
  - apply in_spanned_hours, Hr.
  - apply Nat.ltb_lt, count_in_positive, Hr.
Qed.

Lemma NoDup_observed_hours df : List.NoDup (observed_hours df).
Proof.
  unfold observed_hours, spanned_hours. apply List.NoDup_filter.
  destruct (hours_of df); [constructor | apply NoDup_hour_range].
Qed.

Lemma observed_hour_holds_record df h :
  In h (observed_hours df) -> exists r, In r df /\ hour_of (row_timestamp r) = h.
Proof.
  unfold observed_hours, count_in. intros H. apply filter_In in H as [_ H].
  apply Nat.ltb_lt in H.
  assert (Hex : forall l : list log_row, (0 < length l)%nat -> exists r, In r l).
  { intros [|r l] Hl; [cbn in Hl; lia | exists r; left; reflexivity]. }
  destruct (Hex _ H) as [r Hr].
  apply filter_In in Hr as [Hr Hh]. exists r. split; [exact Hr | lia].
Qed.

(** *** The table of the source detector *)

Lemma list_sum_map_add {T} (f g : T -> nat) l :
  list_sum (map (fun x => f x + g x)%nat l) = (list_sum (map f l) + list_sum (map g l))%nat.
Proof.
  unfold list_sum. induction l as [|x l IH]; cbn [map fold_right]; [reflexivity | rewrite IH; lia].
Qed.

Lemma list_sum_indicator (x : Z) hs :
  List.NoDup hs ->
  list_sum (map (fun h => if Z.eqb x h then 1 else 0)%nat hs) =
  if existsb (Z.eqb x) hs then 1%nat else 0%nat.
Proof.
  unfold list_sum.
  induction 1 as [|h hs Hh Hnd IH]; cbn [map fold_right existsb]; [reflexivity|].
  rewrite IH. destruct (Z.eqb_spec x h) as [-> | Hne]; cbn [orb]; [|reflexivity].
  replace (existsb (Z.eqb h) hs) with false; [reflexivity|].
  symmetry. apply not_true_is_false. intros Hex.
  apply existsb_exists in Hex as (y & Hy & Heq). apply Z.eqb_eq in Heq. subst. contradiction.
Qed.

Lemma list_sum_zero_const {T} (l : list T) : list_sum (map (fun _ => 0%nat) l) = 0%nat.
Proof. unfold list_sum. induction l; cbn [map fold_right]; [reflexivity | exact IHl]. Qed.

(** The cells of a source add up to its records. *)
Lemma source_cells_add_up source hs : forall df,
  List.NoDup hs ->
  (forall r, In r df -> In (hour_of (row_timestamp r)) hs) ->
  list_sum (map (fun h => count_source source h df) hs) = records_of source df.
Proof.
  intros df Hnd. induction df as [|r df IH]; intros Hall.
  - unfold count_source, records_of. cbn [List.filter length]. apply list_sum_zero_const.
  - assert (Hstep : forall h,
      count_source source h (r :: df) =
      ((if Z.eqb (hour_of (row_timestamp r)) h
        then if String.eqb (row_source r) source then 1 else 0 else 0)
       + count_source source h df)%nat).
    { intros h. unfold count_source. cbn [List.filter].
      destruct (Z.eqb (hour_of (row_timestamp r)) h), (String.eqb (row_source r) source);
        reflexivity. }
    rewrite (map_ext _ _ Hstep), list_sum_map_add.
    rewrite IH by (intros r' Hr'; apply Hall; right; exact Hr').
    unfold records_of. cbn [List.filter].
    destruct (String.eqb (row_source r) source).
    + rewrite (list_sum_indicator _ hs Hnd).
      replace (existsb (Z.eqb (hour_of (row_timestamp r))) hs) with true; [reflexivity|].
      symmetry. apply existsb_exists. exists (hour_of (row_timestamp r)).
      split; [apply Hall; left; reflexivity | apply Z.eqb_refl].
    + rewrite (map_ext _ (fun _ => 0%nat))
        by (intros h; destruct (Z.eqb _ h); reflexivity).
      rewrite list_sum_zero_const. reflexivity.
Qed.

Lemma source_data_sum df source : list_sum (source_data df source) = records_of source df.
Proof.
  unfold source_data. apply source_cells_add_up.
  - apply NoDup_observed_hours.
  - intros r Hr. apply in_observed_hours, Hr.
Qed.

Lemma list_sum_zero l : list_sum l = 0%nat -> forall x, In x l -> x = 0%nat.
Proof.
  unfold list_sum. induction l as [|y l IH]; cbn [fold_right]; [intros _ x []|].
  intros H x [<- | Hx]; [lia | apply IH; [lia | exact Hx]].
Qed.

Lemma lastn_map {T U} (f : T -> U) n l : lastn n (map f l) = map f (lastn n l).
Proof. unfold lastn. rewrite length_map, skipn_map. reflexivity. Qed.

(** *** Which sources are reported *)

Lemma in_insert_key s x keys : In x (insert_key s keys) <-> x = s \/ In x keys.
Proof.
  induction keys as [|k keys IH]; cbn [insert_key].
  - simpl. intuition.
  - destruct (String.eqb_spec s k) as [-> | Hne].
    + simpl. intuition.
    + destruct (String.ltb s k); simpl; [intuition|]. rewrite IH. intuition.
Qed.

Lemma in_group_keys x values : In x (group_keys values) <-> In x values.
Proof.
  induction values as [|v values IH]; cbn [group_keys fold_right]; [reflexivity|].
  fold (group_keys values). rewrite in_insert_key, IH. simpl. intuition.
Qed.

Lemma source_silence_in now data source s a :
  In (s, a) (source_silence now data source) ->
  s = source /\ (10 <= list_sum data)%nat /\ list_sum (lastn 2 data) = 0%nat /\
  (2 < length data)%nat /\ (5 <? a_score a)%float = true /\
  a = Anomaly now "SOURCE_SILENCE" "MEDIUM" 0 (a_score a).
Proof.
  unfold source_silence.
  destruct (Nat.ltb_spec (list_sum data) 10) as [Hs | Hs]; [intros []|].
  destruct (Nat.eqb_spec (list_sum (lastn 2 data)) 0) as [Hr | Hr]; cbn [andb]; [|intros []].
  destruct (Nat.ltb_spec 2 (length data)) as [Hl | Hl].
  - destruct (5 <? _)%float eqn:Hz; [|intros []].
    intros [[= <- <-] | []]. cbn [a_score]. repeat split; assumption.
  - replace (5 <? 0)%float with false by reflexivity. intros [].
Qed.

Lemma silent_sources_in now df s a :
  In (s, a) (silent_sources now df) ->
  In s (map row_source df) /\ In (s, a) (source_silence now (source_data df s) s).
Proof.
  unfold silent_sources. destruct df as [|r df]; [intros []|].
  intros H. apply in_flat_map in H as (source & Hk & Hin).
  pose proof (source_silence_in _ _ _ _ _ Hin) as [-> _].
  split; [apply in_group_keys, Hk | exact Hin].
Qed.


Lemma silent_sources_spec now df s a :
  In (s, a) (silent_sources now df) ->
  a = Anomaly now "SOURCE_SILENCE" "MEDIUM" 0 (a_score a) /\
  (5 <? a_score a)%float = true /\
  (10 <= records_of s df)%nat /\
  (2 < length (observed_hours df))%nat /\
  forall h, In h (lastn 2 (observed_hours df)) -> count_source s h df = 0%nat.
Proof.
  intros H. apply silent_sources_in in H as [_ H].
  apply source_silence_in in H as (_ & Hsum & Hrecent & Hlen & Hscore & Ha).
  rewrite source_data_sum in Hsum. unfold source_data in Hrecent, Hlen.
  rewrite length_map in Hlen. rewrite lastn_map in Hrecent.
  repeat split; try assumption.
  intros h Hh. apply (list_sum_zero _ Hrecent). apply in_map_iff. exists h. auto.
Qed.

Lemma lastn_inhabited {T} (l : list T) : (2 < length l)%nat -> exists x, In x (lastn 2 l).
Proof.
  intros H. unfold lastn.
  destruct (skipn (length l - 2) l) as [|x t] eqn:E.
  - apply (f_equal (@length T)) in E. rewrite length_skipn in E. cbn in E. lia.
  - exists x. left. reflexivity.
Qed.

Lemma in_lastn {T} n (l : list T) x : In x (lastn n l) -> In x l.
Proof.
  unfold lastn. intros H. rewrite <- (firstn_skipn (length l - n) l).
  apply in_or_app. right. exact H.
Qed.

Lemma count_source_positive df r :
  In r df -> (0 < count_source (row_source r) (hour_of (row_timestamp r)) df)%nat.
Proof.
  intros Hr. unfold count_source.
  assert (Hin : In r (List.filter
                        (fun r0 => Z.eqb (hour_of (row_timestamp r0))
                                         (hour_of (row_timestamp r))
                                   && String.eqb (row_source r0) (row_source r)) df)).
  { apply filter_In. split; [exact Hr|]. rewrite Z.eqb_refl, String.eqb_refl. reflexivity. }
  destruct (List.filter _ df); [destruct Hin | cbn [length]; lia].
Qed.

Lemma single_source_silent now df source :
  (forall r, In r df -> row_source r = source) -> silent_sources now df = [].
Proof.
  intros Hone. destruct (silent_sources now df) as [|[s a] l] eqn:E; [reflexivity|].
  exfalso.
  assert (Hin : In (s, a) (silent_sources now df)) by (rewrite E; left; reflexivity).
  pose proof (silent_sources_in _ _ _ _ Hin) as [Hs _].
  apply in_map_iff in Hs as (r0 & Hr0 & Hin0). rewrite (Hone r0 Hin0) in Hr0. subst s.
  apply silent_sources_spec in Hin as (_ & _ & _ & Hlen & Hzero).
  destruct (lastn_inhabited _ Hlen) as [h Hh].
  specialize (Hzero h Hh). apply in_lastn in Hh.
  apply observed_hour_holds_record in Hh as (r & Hr & <-).
  pose proof (count_source_positive df r Hr) as Hpos.
  rewrite (Hone r Hr) in Hpos. lia.
Qed.

End DetectorMoreFacts.

(** * Facts about the console report *)

Module ReportFacts.
Import Model Detector Report.

Lemma insert_descending_skip x pre rest :
  List.Forall (fun y => String.ltb (a_severity y) (a_severity x) = false) pre ->
  insert_descending x (pre ++ rest) = pre ++ insert_descending x rest.
Proof.
  induction 1 as [|y pre Hy Hpre IH]; [reflexivity|].
  cbn [app insert_descending]. rewrite Hy, IH. reflexivity.
Qed.

Lemma insert_descending_last x pre :
  List.Forall (fun y => String.ltb (a_severity y) (a_severity x) = false) pre ->
  insert_descending x pre = pre ++ [x].
Proof.
  intros H. rewrite <- (app_nil_r pre) at 1. apply (insert_descending_skip x pre [] H).
Qed.

Lemma insert_descending_here x rest :
  List.Forall (fun y => String.ltb (a_severity y) (a_severity x) = true) rest ->
  insert_descending x rest = x :: rest.
Proof.
  destruct 1 as [|y rest Hy Hrest]; [reflexivity|].
  cbn [insert_descending]. rewrite Hy. reflexivity.
Qed.

Lemma of_severity_all s (P : AnomalyResult -> Prop) l :
  (forall y, a_severity y = s -> P y) -> List.Forall P (of_severity s l).
Proof.
  intros HP. apply List.Forall_forall. intros y Hy.
  apply filter_In in Hy as [_ Hy]. apply HP, String.eqb_eq, Hy.
Qed.

Lemma of_severity_snoc s l x :
  of_severity s (l ++ [x]) =
  of_severity s l ++ (if String.eqb (a_severity x) s then [x] else []).
Proof. unfold of_severity. rewrite List.filter_app. reflexivity. Qed.

Lemma report_order_snoc l x : report_order (l ++ [x]) = insert_descending x (report_order l).
Proof. unfold report_order. rewrite fold_left_app. reflexivity. Qed.

Lemma skip_of_severity s x l rest :
  String.ltb s (a_severity x) = false ->
  insert_descending x (of_severity s l ++ rest) = of_severity s l ++ insert_descending x rest.
Proof.
  intros H. apply insert_descending_skip, of_severity_all.
  intros y Hy. rewrite Hy. exact H.
Qed.

Lemma below_of_severity s x l :
  String.ltb s (a_severity x) = true ->
  List.Forall (fun y => String.ltb (a_severity y) (a_severity x) = true) (of_severity s l).
Proof. intros H. apply of_severity_all. intros y Hy. rewrite Hy. exact H. Qed.

Lemma report_order_blocks l :
  List.Forall (fun a => In (a_severity a) severities) l ->
  report_order l =
  of_severity "MEDIUM" l ++ of_severity "LOW" l ++ of_severity "HIGH" l
  ++ of_severity "CRITICAL" l.
Proof.
  induction l as [|x l IH] using rev_ind; [reflexivity|].
  intros H. apply Forall_app in H as [Hl Hx]. inversion Hx as [|? ? Hsev _]; subst.
  rewrite report_order_snoc, IH by exact Hl. rewrite !of_severity_snoc.
  unfold severities in Hsev. cbn [In] in Hsev.
  destruct Hsev as [Hs | [Hs | [Hs | [Hs | []]]]]; symmetry in Hs; rewrite Hs;
    cbn [String.eqb Ascii.eqb Bool.eqb]; rewrite ?app_nil_r, <- ?app_assoc.
  - (* LOW *)
    rewrite skip_of_severity by (rewrite Hs; reflexivity). f_equal. rewrite skip_of_severity by (rewrite Hs; reflexivity). f_equal.
    rewrite insert_descending_here
      by (repeat (apply Forall_app; split); apply below_of_severity; rewrite Hs; reflexivity). reflexivity.
  - (* MEDIUM *)
    rewrite skip_of_severity by (rewrite Hs; reflexivity). f_equal.
    rewrite insert_descending_here
      by (repeat (apply Forall_app; split); apply below_of_severity; rewrite Hs; reflexivity). reflexivity.
  - (* HIGH *)
    rewrite skip_of_severity by (rewrite Hs; reflexivity). f_equal. rewrite skip_of_severity by (rewrite Hs; reflexivity). f_equal. rewrite skip_of_severity by (rewrite Hs; reflexivity). f_equal.
    rewrite insert_descending_here
      by (repeat (apply Forall_app; split); apply below_of_severity; rewrite Hs; reflexivity). reflexivity.
  - (* CRITICAL *)
    rewrite skip_of_severity by (rewrite Hs; reflexivity). f_equal. rewrite skip_of_severity by (rewrite Hs; reflexivity). f_equal. rewrite skip_of_severity by (rewrite Hs; reflexivity). f_equal.
    apply insert_descending_last. apply of_severity_all. intros y Hy.
    rewrite Hy, Hs. reflexivity.
Qed.

End ReportFacts.

(** * Facts about rejected timestamps and blank uploads *)

Module EdgeFacts.
Import Re Model ParseSpec ParseFacts Ingest IngestSpec IngestFacts.

Section WithService.
Variable now : datetime.
Variable strptime : string -> string -> option datetime.
Variable fromisoformat : string -> option datetime.
Variable json_loads : string -> result json.
Variable miner : Type.
Variable add_log_message : miner -> string -> miner * result miner_result.
Variable id_to_cluster : miner -> option (list (Z * cluster)).
Variable logparser_drain : bool.
Variable responds : nat -> bool.
Variable decode : string -> option string.

Lemma json_bad_timestamp line source fields ts :
  Py.startswith (Py.strip line) "{" = true ->
  json_loads line = Ok (JObj fields) ->
  dict_of_object fields !! "timestamp" = Some (VStr ts) ->
  fromisoformat (replace_Z ts) = None ->
  exists err, parse_body now strptime fromisoformat json_loads line source = Raise err.
Proof.
  intros Hs Hl Hts Hiso. unfold parse_body, structured_stage. rewrite Hs.
  unfold json_branch. rewrite Hl, Hts. unfold parse_iso. rewrite Hiso.
  destruct (get (dict_of_object fields) "level" _); cbn [mbind result_bind]; eauto.
Qed.

Lemma lines_of_blank text : Py.strip text = "" -> lines_of text = [""].
Proof. intros H. unfold lines_of. rewrite H. reflexivity. Qed.

Lemma process_lines_blank filename file_id st text :
  Py.strip text = "" ->
  process_lines now strptime fromisoformat json_loads miner add_log_message id_to_cluster
    logparser_drain responds filename file_id st (lines_of text)
  = (st, Counters 0 1).
Proof.
  intros H. rewrite (lines_of_blank text H). unfold process_lines. cbn [fold_left].
  apply blank_line_fails. reflexivity.
Qed.

Lemma upload_logs_text filename content file_id ts st st' resp text :
  decode content = Some text ->
  upload_logs now strptime fromisoformat json_loads miner add_log_message id_to_cluster
    logparser_drain responds decode filename content file_id ts st = (st', Ok resp) ->
  exists st0,
    let c := snd (process_lines now strptime fromisoformat json_loads miner add_log_message
                    id_to_cluster logparser_drain responds filename file_id st0
                    (lines_of text)) in
    r_processed_logs resp = processed_count c /\ r_failed_logs resp = failed_count c.
Proof.
  intros Hd H. apply upload_logs_counters in H as (text' & st0 & Hd' & H).
  rewrite Hd in Hd'. injection Hd' as <-. exists st0. exact H.
Qed.

End WithService.
End EdgeFacts.

(** * The claims of the specification *)

Module Claims.
Import Re Model Mongo Ingest Detector.
Import SeveritySpec ParseSpec IngestSpec DetectorSpec.

(** ** Network information *)

(** C1, as the specification states it, fails on the JSON line
    [{'message':'conn 1.1.1.1 to 2.2.2.2','src_ip':'10.1.1.1'}]: the
    captures give [src_ip = 10.1.1.1], and the record carries
    [src_ip = 1.1.1.1], the first address found in the message.  The
    captured value has been overwritten. *)
Lemma captured_src_ip_overwritten :
  (captured_network epoch no_strptime no_fromisoformat JsonText.loads overwritten_line
     ≫= lookup "src_ip") = Some (VStr "10.1.1.1") /\
  (parse_enhanced_log_line epoch no_strptime no_fromisoformat JsonText.loads overwritten_line "app.log"
     ≫= fun e => e_network_info e !! "src_ip") = Some (VStr "1.1.1.1").
Proof. split; vm_compute; reflexivity. Qed.

(** C1, amended: for a record that the exception handler did not build
    (its format tag is set), the message extraction returned a map, and
    every key of the map derived from the structured captures is a key
    of the record's network map; a key that the message extraction also
    yields carries the extracted value; any other captured key keeps the
    captured value, a numeric [protocol] being replaced by its name. *)
Theorem network_keys_kept_values_from_message
  (now : datetime) (strptime : string -> string -> option datetime)
  (fromisoformat : string -> option datetime)
  (json_loads : string -> result json)
  (line source : string) (captured : gmap string value) (e : EnhancedLogEntry) :
  captured_network now strptime fromisoformat json_loads line = Some captured ->
  parse_enhanced_log_line now strptime fromisoformat json_loads line source = Some e ->
  is_Some (e_log_type e) ->
  exists extracted,
    extract_network_info (e_message e) = Some extracted /\
    (forall k, is_Some (captured !! k) -> is_Some (e_network_info e !! k)) /\
    (forall k y, extracted !! k = Some y -> e_network_info e !! k = Some y) /\
    (forall k x, captured !! k = Some x -> extracted !! k = None ->
                 e_network_info e !! k =
                 Some (if String.eqb k "protocol" then protocol_name x else x)).
Proof.
  intros Hc He Ht.
  apply (ParseFacts.network_augmented now strptime fromisoformat json_loads line source
           captured e Hc).
  exact (ParseFacts.parse_enhanced_log_line_body now strptime fromisoformat json_loads
           line source e He Ht).
Qed.

Lemma network_keys_kept_values_from_message_witness :
  match captured_network epoch no_strptime no_fromisoformat JsonText.loads overwritten_line,
        parse_enhanced_log_line epoch no_strptime no_fromisoformat JsonText.loads
          overwritten_line "app.log" with
  | Some captured, Some e =>
      e_log_type e = Some "json" /\
      exists extracted,
        extract_network_info (e_message e) = Some extracted /\
        (forall k, is_Some (captured !! k) -> is_Some (e_network_info e !! k)) /\
        (forall k y, extracted !! k = Some y -> e_network_info e !! k = Some y) /\
        (forall k x, captured !! k = Some x -> extracted !! k = None ->
                     e_network_info e !! k =
                     Some (if String.eqb k "protocol" then protocol_name x else x))
  | _, _ => False
  end.
Proof.
  assert (Ht : (parse_enhanced_log_line epoch no_strptime no_fromisoformat JsonText.loads
                  overwritten_line "app.log" ≫= e_log_type) = Some "json")
    by (vm_compute; reflexivity).
  destruct (captured_network epoch no_strptime no_fromisoformat JsonText.loads
              overwritten_line) as [captured|] eqn:Hc;
    [|vm_compute in Hc; discriminate Hc].
  destruct (parse_enhanced_log_line epoch no_strptime no_fromisoformat JsonText.loads
              overwritten_line "app.log") as [e|] eqn:Hp; [|discriminate Ht].
  cbn [mbind option_bind] in Ht. split; [exact Ht|].
  apply (network_keys_kept_values_from_message epoch no_strptime no_fromisoformat
           JsonText.loads overwritten_line "app.log" captured e Hc Hp).
  rewrite Ht. eexists. reflexivity.
Defined.

(** ** Classification *)

(** C2, as the specification states it, fails on the line
    [Jul 10 12:00:01 router %LINK-3-UPDOWN: Interface down]: the
    patterns of [cisco_syslog] and of [syslog] both match it, the
    registry declares [syslog] first and [cisco_syslog] fifth, and the
    record is tagged [syslog]. *)
Lemma cisco_line_tagged_syslog :
  entry_matches cisco_line "cisco_syslog" = true /\
  entry_matches cisco_line "syslog" = true /\
  map fst LOG_PATTERNS =
    ["syslog"; "apache_access"; "nginx_access"; "firewall"; "cisco_syslog";
     "windows_event"; "json_structured"; "docker"] /\
  (parse_enhanced_log_line epoch no_strptime no_fromisoformat JsonText.loads cisco_line "app.log"
     ≫= e_log_type) = Some "syslog".
Proof. repeat apply conj; vm_compute; reflexivity. Qed.

(** C2, amended: a blank line yields no record.  For any other line the
    record either comes from the [try] block, and then its tag is [json]
    when the trimmed line starts with a brace and the line decodes to a
    JSON object, otherwise the name of the first registry entry whose
    pattern matches, in the declared order syslog, apache_access,
    nginx_access, firewall, cisco_syslog, windows_event, json_structured,
    docker ([syslog] is tried before [cisco_syslog]), otherwise
    [unknown]; or the block raised, and the record is the default one,
    without a tag. *)
Theorem classification_in_declared_order
  (now : datetime) (strptime : string -> string -> option datetime)
  (fromisoformat : string -> option datetime)
  (json_loads : string -> result json) (line source : string) :
  map fst LOG_PATTERNS = declared_order /\
  match parse_enhanced_log_line now strptime fromisoformat json_loads line source with
  | None => Py.strip line = ""
  | Some e =>
      Py.strip line <> "" /\
      (parse_body now strptime fromisoformat json_loads line source = Ok e /\
       e_log_type e = Some (classify json_loads line)
       \/
       (exists x, parse_body now strptime fromisoformat json_loads line source = Raise x) /\
       e = fallback_entry now line source)
  end.
Proof.
  split; [reflexivity|].
  apply ParseFacts.parse_enhanced_log_line_cases.
Qed.

(** ** The template upsert *)

(** C3, what the code does: the update document names [count] both
    under [$setOnInsert] and under [$inc], the store refuses such a
    document whatever the collection holds, the handler around the call
    turns the refusal into a warning, and after any number of upserts,
    and after any call of the assembler, the [templates] collection is
    what it was: no count, no [first_seen] and no [last_seen] is ever
    written. *)
Theorem template_upsert_never_applied
  (miner : Type) (add_log_message : miner -> string -> miner * result miner_result)
  (id_to_cluster : miner -> option (list (Z * cluster))) (logparser_drain : bool)
  (responds : nat -> bool) (id : tid) (result : template_info) (ts : datetime)
  (n : nat) (d : database) (coll : list (gmap string bson))
  (message parser_type : string) (st : state miner) :
  conflicting (template_update result ts) = true /\
  update_one (template_filter id) (template_update result ts) true coll = Raise WriteError /\
  templates (Nat.iter n (update_template_statistics responds result ts) d) = templates d /\
  templates (db miner (fst (process_log_with_enhanced_parsing miner add_log_message
                              id_to_cluster logparser_drain responds message ts
                              parser_type st)))
  = templates (db miner st).
Proof.
  split; [reflexivity|]. split; [|split].
  - apply IngestFacts.template_upsert_refused.
  - apply IngestFacts.iter_update_template_statistics.
  - apply IngestFacts.process_log_templates.
Qed.

(** ** Severity *)

(** C4, as the specification states it, fails on the message
    [ERR: disk gone]: none of the twelve keywords of the stated table
    stands in it, it holds no priority and none of the words of the
    heuristic scan, so the stated steps give INFO; the table of the code
    also holds ERR, and the level is ERROR.  It fails as well on a
    priority of 4301 digits between angle brackets, for which the stated
    steps give the severity of its number modulo 8 and the code raises
    ValueError. *)
Lemma err_keyword_gives_error :
  claimed_severity_of "ERR: disk gone" = "INFO" /\
  Severity.extract_log_level "ERR: disk gone" "INFO" = Some "ERROR" /\
  String.length overlong_priority = 4303%nat /\
  Severity.extract_log_level overlong_priority "INFO" = None.
Proof. repeat apply conj; vm_compute; reflexivity. Qed.

(** C4, amended: for every message, [extract_log_level] with the default
    [INFO] returns the class of the first row of the keyword table
    (EMERGENCY, EMERG, PANIC; ALERT; CRITICAL, CRIT, FATAL; ERROR, ERR,
    FAIL, FAILED; WARNING, WARN, NOTICE to WARN; INFO, INFORMATION; DEBUG,
    TRACE, in this order) one of whose keywords stands in the message as
    a whole word, in any case; failing that, for the leftmost [<N>], the
    standard severity of [N mod 8] when N has at most 4300 digits, and
    no level otherwise (the call raises ValueError); failing that, ERROR,
    WARN or DEBUG by the heuristic keyword scan; otherwise INFO. *)
Theorem extract_log_level_order (m : string) :
  Severity.extract_log_level m "INFO" = severity_of m.
Proof. apply SeverityFacts.extract_log_level_steps. Qed.

(** C5, what the code does: the JSON line
    [{'level':'INFO','message':'disk ERROR'}] assigns the level INFO
    explicitly, and the record's level is ERROR: a captured INFO is taken
    for a level that was not determined, and the message is scanned. *)
Theorem explicit_info_level_replaced :
  match structured_stage epoch no_strptime no_fromisoformat JsonText.loads explicit_info_line with
  | Ok v => l_level v = "INFO" /\ l_log_type v = "json"
  | Raise _ => False
  end /\
  (parse_enhanced_log_line epoch no_strptime no_fromisoformat JsonText.loads explicit_info_line "app.log"
     ≫= fun e => Some (e_level e, e_message e)) = Some ("ERROR", "disk ERROR").
Proof. split; vm_compute; [split|]; reflexivity. Qed.

(** ** The volume detector *)

(** C6, what the code does: [rolling(window=w)] is taken over the series
    that holds the bucket being scored, so that a bucket is scored inside
    its own window.  On scenario 6 of the specification, 23 hours of 10
    records and then one hour of 500, the last hour scores far above 5
    against the 23 hours before it, and a VOLUME_SPIKE of severity HIGH
    is due; the detector reports it with severity MEDIUM.  On hourly
    buckets of 1, 1, 1 and 50 records the last one also scores above 5
    against the buckets before it, and the detector reports nothing.
    (The rolling statistics are those of the examples, aggregated window
    by window.) *)
Theorem spike_scored_inside_its_own_window :
  bucket_counts spike_window = repeat 10%float 23 ++ [500%float] /\
  (5 <? z_against_prior spike_window 23)%float = true /\
  map report_of (detect_volume_anomalies window_mean window_std spike_window)
    = [((3600 * 23)%Z, "VOLUME_SPIKE", "MEDIUM", 500%nat)] /\
  bucket_counts burst_window = [1; 1; 1; 50]%float /\
  (5 <? z_against_prior burst_window 3)%float = true /\
  detect_volume_anomalies window_mean window_std burst_window = [].
Proof. repeat apply conj; vm_compute; reflexivity. Qed.

(** ** The error-rate detector *)

(** C7, as the specification states it, fails on three hourly buckets
    with error rates 0.05, 0.4 and 0.03: the second bucket's rate exceeds
    0.10 and twice the mean of the earlier buckets (0.05), so a
    HIGH_ERROR_RATE is due, and the detector reports nothing, because its
    one baseline is the mean of all buckets but the last (0.225). *)
Lemma rate_rise_not_reported :
  (error_rate_threshold <? error_rate rate_window 1)%float = true /\
  (earlier_mean rate_window 1 * 2 <? error_rate rate_window 1)%float = true /\
  columns_selectable rate_window = true /\
  detect_error_rate_anomalies rate_window = Ok [].
Proof. repeat apply conj; vm_compute; reflexivity. Qed.

(** C7, amended: when the four error levels ERROR, CRITICAL, FATAL and
    WARN all occur in the window, or none of them does, the detector
    computes for every hour that holds a record the rate
    errors / (total + 1e-6), and one baseline for the whole window, the
    mean rate of all buckets but the last (0 for a single bucket); it
    reports HIGH_ERROR_RATE for a bucket exactly when its rate exceeds
    0.1 and twice the baseline, with severity CRITICAL when the rate
    exceeds 0.5 and HIGH otherwise. *)
Theorem detect_error_rate_anomalies_baseline (df : list log_row) :
  columns_selectable df = true ->
  detect_error_rate_anomalies df = Ok (error_rate_anomalies df).
Proof. apply DetectorFacts.detect_error_rate_anomalies_buckets. Qed.

Lemma detect_error_rate_anomalies_baseline_witness :
  columns_selectable rate_window = true /\
  detect_error_rate_anomalies rate_window = Ok (error_rate_anomalies rate_window).
Proof.
  split; [reflexivity|].
  apply (detect_error_rate_anomalies_baseline rate_window). reflexivity.
Defined.

(** ** Miner failures *)

(** C8, as the specification states it, fails when the miner raises at
    run time: the message [db down] then gets the template id
    [error_0e1adfac], not one that starts with [fallback_]. *)
Lemma runtime_failure_gets_error_prefix :
  miner_failure unit_miner_raises with_failing_miner "db down"
    = Some ("error_", with_failing_miner) /\
  template_id
    (snd (process_log_with_enhanced_parsing unit unit_miner_raises no_clusters false
            always_responds "db down" epoch "drain3" with_failing_miner))
  = Some (TStr "error_0e1adfac").
Proof. split; vm_compute; reflexivity. Qed.

(** C8, amended: when the miner was never initialised, or raises on the
    record's message, the template id is the prefix [fallback_] in the
    first case and [error_] in the second, followed by 8 hexadecimal
    digits, the first 8 of the MD5 of the message; the template is the
    message and the cluster size 1; and when the database answers the
    insertion, the record is appended to [logs] with this pseudo-template
    and counted as processed. *)
Theorem miner_failure_pseudo_template
  (now : datetime) (strptime : string -> string -> option datetime)
  (fromisoformat : string -> option datetime)
  (json_loads : string -> result json) (miner : Type)
  (add_log_message : miner -> string -> miner * result miner_result)
  (id_to_cluster : miner -> option (list (Z * cluster))) (logparser_drain : bool)
  (responds : nat -> bool) (filename file_id line : string)
  (st st' : state miner) (c : counters) (entry : EnhancedLogEntry) (prefix : string) :
  parse_enhanced_log_line now strptime fromisoformat json_loads line filename = Some entry ->
  miner_failure add_log_message st (e_message entry) = Some (prefix, st') ->
  responds (calls (db miner st)) = true ->
  let info :=
    snd (process_log_with_enhanced_parsing miner add_log_message id_to_cluster
           logparser_drain responds (e_message entry) (e_timestamp entry) "drain3" st) in
  let after :=
    process_line now strptime fromisoformat json_loads miner add_log_message id_to_cluster
      logparser_drain responds filename file_id (st, c) line in
  prefix = match template_miner miner st with
           | Some _ => "error_"
           | None => "fallback_"
           end /\
  template_id info = Some (TStr (prefix ++ Md5.hash8 (e_message entry))) /\
  length (Py.chars (Md5.hash8 (e_message entry))) = 8%nat /\
  forallb is_hex (Py.chars (Md5.hash8 (e_message entry))) = true /\
  template info = Some (e_message entry) /\
  cluster_size info = 1%Z /\
  logs (db miner (fst after)) =
    logs (db miner st) ++ [LogDoc entry info (Some file_id) (Some filename)] /\
  processed_count (snd after) = S (processed_count c) /\
  failed_count (snd after) = failed_count c.
Proof.
  intros Hp Hf Hr info after. subst info after.
  rewrite (IngestFacts.process_line_persists now strptime fromisoformat json_loads
             miner add_log_message id_to_cluster logparser_drain responds filename file_id
             st c line entry prefix st' Hp Hf Hr).
  rewrite (IngestFacts.process_on_failure miner add_log_message id_to_cluster
             logparser_drain responds _ (e_timestamp entry) st prefix st' Hf).
  cbn [snd fst db logs processed_count failed_count pseudo_template template_id
       template cluster_size].
  repeat split.
  - exact (IngestFacts.miner_failure_prefix miner add_log_message _ st prefix st' Hf).
  - apply IngestFacts.hash8_length.
  - apply IngestFacts.hash8_hex.
Qed.

Lemma miner_failure_pseudo_template_witness :
  exists entry,
    parse_enhanced_log_line epoch no_strptime no_fromisoformat JsonText.loads "db down" "app.log"
      = Some entry /\
    let after :=
      process_line epoch no_strptime no_fromisoformat JsonText.loads unit unit_miner_raises no_clusters
        false always_responds "app.log" "f1" (without_miner, Counters 0 0) "db down" in
    map (fun doc => (template_id (d_template doc), template (d_template doc)))
        (logs (db unit (fst after)))
      = [(Some (TStr "fallback_0e1adfac"), Some "db down")] /\
    logs (db unit (fst after)) =
      logs (db unit without_miner) ++
      [LogDoc entry
         (snd (process_log_with_enhanced_parsing unit unit_miner_raises no_clusters false
                 always_responds (e_message entry) (e_timestamp entry) "drain3"
                 without_miner))
         (Some "f1") (Some "app.log")] /\
    processed_count (snd after) = 1%nat.
Proof.
  eexists. split; [vm_compute; reflexivity|].
  cbv zeta. split; [vm_compute; reflexivity|].
  match goal with
  | |- context [LogDoc ?e _ _ _] =>
      pose proof (miner_failure_pseudo_template epoch no_strptime no_fromisoformat JsonText.loads unit
                    unit_miner_raises no_clusters false always_responds "app.log" "f1"
                    "db down" without_miner without_miner (Counters 0 0) e "fallback_") as H
  end.
  specialize (H ltac:(vm_compute; reflexivity) eq_refl eq_refl).
  cbv zeta in H. destruct H as (_ & _ & _ & _ & _ & _ & Hlogs & Hcount & _).
  split; [exact Hlogs | exact Hcount].
Defined.

(** ** The detection cycle *)

(** C9: the cycle returns what the strategies that did not raise found,
    in the order of the strategies; a strategy that raises contributes
    nothing and stops none of the others.  Every anomaly found is handed
    to the store, which appends those whose insertion the database
    answers; when it answers every time, all of them are appended. *)
Theorem run_detection_skips_failures
  (rolling_mean rolling_std : nat -> list float -> list float)
  (detect_new_template_anomalies detect_rare_template_anomalies
   detect_ml_anomalies detect_source_anomalies
     : list log_row -> result (list AnomalyResult))
  (responds : nat -> bool) (df : list log_row) (st : anomaly_store) :
  let ds := detectors rolling_mean rolling_std
              detect_new_template_anomalies detect_rare_template_anomalies
              detect_ml_anomalies detect_source_anomalies in
  let run responds :=
    run_detection rolling_mean rolling_std
      detect_new_template_anomalies detect_rare_template_anomalies
      detect_ml_anomalies detect_source_anomalies responds df st in
  snd (run responds) = flat_map (found_by df) ds /\
  anomalies (fst (run responds))
    = anomalies st ++ accepted responds (store_calls st) (flat_map (found_by df) ds) /\
  anomalies (fst (run (fun _ => true))) = anomalies st ++ flat_map (found_by df) ds.
Proof.
  cbv zeta. unfold run_detection, run_detection_with. cbn [fst snd].
  rewrite !DetectorFacts.run_detectors_found, !DetectorFacts.store_all.
  repeat split. rewrite DetectorFacts.accepted_all; reflexivity.
Qed.

(** ** The upload loop *)

(** C10: when the content of an upload decodes, every line of the
    stripped text, split at newlines, increments exactly one of the two
    counters, so that after the loop their sum is the number of lines;
    a line that is blank after stripping leaves the service state, and
    with it the [logs] collection, as it was and increments the failed
    counter; and the counters of a successful response are those of the
    loop. *)
Theorem upload_counters_partition_lines
  (now : datetime) (strptime : string -> string -> option datetime)
  (fromisoformat : string -> option datetime)
  (json_loads : string -> result json) (miner : Type)
  (add_log_message : miner -> string -> miner * result miner_result)
  (id_to_cluster : miner -> option (list (Z * cluster))) (logparser_drain : bool)
  (responds : nat -> bool) (decode : string -> option string)
  (filename content file_id text : string) :
  decode content = Some text ->
  let step := process_line now strptime fromisoformat json_loads miner add_log_message
                id_to_cluster logparser_drain responds filename file_id in
  (forall st c line,
     let c' := snd (step (st, c) line) in
     (processed_count c' = S (processed_count c) /\ failed_count c' = failed_count c) \/
     (processed_count c' = processed_count c /\ failed_count c' = S (failed_count c))) /\
  (forall st c line,
     Py.strip line = "" ->
     step (st, c) line = (st, Counters (processed_count c) (S (failed_count c)))) /\
  (forall st,
     let c := snd (process_lines now strptime fromisoformat json_loads miner add_log_message
                     id_to_cluster logparser_drain responds filename file_id st
                     (lines_of text)) in
     (processed_count c + failed_count c)%nat = length (lines_of text)) /\
  (forall upload_timestamp st st' response,
     upload_logs now strptime fromisoformat json_loads miner add_log_message id_to_cluster
       logparser_drain responds decode filename content file_id upload_timestamp st
       = (st', Ok response) ->
     (r_processed_logs response + r_failed_logs response)%nat = length (lines_of text)).
Proof.
  intros Hd step. subst step.
  assert (Hsum : forall st,
     let c := snd (process_lines now strptime fromisoformat json_loads miner add_log_message
                     id_to_cluster logparser_drain responds filename file_id st
                     (lines_of text)) in
     (processed_count c + failed_count c)%nat = length (lines_of text)).
  { intros st. unfold process_lines.
    pose proof (IngestFacts.process_lines_sum now strptime fromisoformat json_loads miner
                  add_log_message id_to_cluster logparser_drain responds filename
                  file_id (lines_of text) st (Counters 0 0)) as H.
    cbv zeta in H |- *. cbn [processed_count failed_count] in H. lia. }
  split; [|split; [|split]].
  - intros st c line. apply IngestFacts.process_line_counts.
  - intros st c line. apply IngestFacts.blank_line_fails.
  - exact Hsum.
  - intros ts st st' response H.
    apply IngestFacts.upload_logs_counters in H as (text' & st0 & Hd' & Hp & Hf).
    rewrite Hd in Hd'. injection Hd' as <-. rewrite Hp, Hf. apply Hsum.
Qed.

Lemma upload_counters_partition_lines_witness :
  decode_ascii three_lines = Some three_lines /\
  lines_of three_lines = ["disk full"; "   "; "link up"] /\
  (let c := snd (process_lines epoch no_strptime no_fromisoformat JsonText.loads unit unit_miner_raises
                   no_clusters false always_responds "app.log" "f1" without_miner
                   (lines_of three_lines)) in
   (processed_count c, failed_count c) = (2, 1)%nat /\
   (processed_count c + failed_count c)%nat = length (lines_of three_lines)).
Proof.
  split; [reflexivity|]. split; [vm_compute; reflexivity|].
  cbv zeta. split; [vm_compute; reflexivity|].
  exact (proj1 (proj2 (proj2
           (upload_counters_partition_lines epoch no_strptime no_fromisoformat JsonText.loads unit
              unit_miner_raises no_clusters false always_responds decode_ascii
              "app.log" three_lines "f1" three_lines eq_refl)))
           without_miner).
Defined.

End Claims.

(** * Further properties of the code *)

Module Properties.
Import Re Model Mongo Ingest Detector.
Import SeveritySpec SeverityMore ParseSpec ParseMore IngestSpec IngestMore.
Import DetectorSpec DetectorMore Report MoreExamples.

(** X1: [extract_log_level] raises ValueError exactly when no keyword
    stands in the message as a whole word and its leftmost priority has
    more than 4300 digits, whatever the default.  Otherwise it returns
    one of the eight severity names, the same for every default, or the
    default it was given, and then with another default that one. *)
Theorem extract_log_level_name_or_default (m default default' : string) :
  (Severity.extract_log_level m default = None <->
   explicit_severity m = None /\
   exists digits,
     syslog_priority m = Some digits /\ (Py.max_str_digits < length digits)%nat) /\
  match Severity.extract_log_level m default with
  | None => Severity.extract_log_level m default' = None
  | Some level =>
      (In level level_names /\ Severity.extract_log_level m default' = Some level)
      \/
      (level = default /\ Severity.extract_log_level m default' = Some default')
  end.
Proof.
  rewrite !SeverityMoreFacts.extract_log_level_default.
  pose proof (SeverityMoreFacts.determined_severity_name m) as Hn.
  pose proof (SeverityMoreFacts.determined_severity_overlong m) as Ho.
  destruct (determined_severity m) as [level| |]; cbn [outcome_with]; split.
  - split; [discriminate|]. intros H. apply Ho in H. discriminate H.
  - left. auto.
  - split; [discriminate|]. intros H. apply Ho in H. discriminate H.
  - right. auto.
  - split; [intros _; apply Ho; reflexivity | reflexivity].
  - reflexivity.
Qed.

(** X2: severity extraction ignores the case of the message: two
    messages with the same upper-case form get the same level. *)
Theorem extract_log_level_ignores_case (m1 m2 default : string) :
  Py.upper m1 = Py.upper m2 ->
  Severity.extract_log_level m1 default = Severity.extract_log_level m2 default.
Proof.
  intros H. rewrite !SeverityMoreFacts.extract_log_level_default.
  rewrite <- (SeverityMoreFacts.determined_severity_upper m1), H.
  rewrite SeverityMoreFacts.determined_severity_upper. reflexivity.
Qed.

Lemma extract_log_level_ignores_case_witness :
  Py.upper "Disk failed: Timeout" = Py.upper "DISK FAILED: timeout" /\
  Severity.extract_log_level "Disk failed: Timeout" "INFO" = Some "ERROR" /\
  Severity.extract_log_level "Disk failed: Timeout" "INFO"
    = Severity.extract_log_level "DISK FAILED: timeout" "INFO".
Proof.
  split; [reflexivity|]. split; [vm_compute; reflexivity|].
  apply (extract_log_level_ignores_case "Disk failed: Timeout" "DISK FAILED: timeout" "INFO").
  reflexivity.
Defined.

(** X3: [extract_network_info] raises ValueError exactly when [int]
    rejects one of the texts that the port patterns capture (a run of
    more than 4300 digits).  When it returns, the [ports] entry, when
    present, is a non-empty list without duplicates whose members are
    numbers between 1 and 65535. *)
Theorem extracted_ports_valid (message : string) :
  match extract_network_info message with
  | None => exists port, In port (port_candidates message) /\ Py.int port = None
  | Some extracted =>
      (forall port, In port (port_candidates message) -> Py.int port <> None) /\
      match extracted !! "ports" with
      | None => True
      | Some (VList ports) =>
          ports <> [] /\ List.NoDup ports /\ List.Forall port_in_range ports
      | Some _ => False
      end
  end.
Proof.
  rewrite ParseMoreFacts.extract_network_info_stages.
  pose proof (ParseMoreFacts.collect_ports_spec message) as H.
  destruct (collect_ports message) as [ports|]; cbn [option_map]; [|exact H].
  destruct H as (Hnd & Hall & Hseen). split; [exact Hseen|].
  rewrite ParseMoreFacts.network_of_lookup. cbn [String.eqb Ascii.eqb Bool.eqb].
  destruct ports; [exact I|]. repeat split; [discriminate | |]; assumption.
Qed.

(** X4: the [protocols] entry of the map that [extract_network_info]
    returns, when present, is a non-empty list without duplicates whose
    members are in upper case. *)
Theorem extracted_protocols_upper (message : string) (extracted : gmap string value) :
  extract_network_info message = Some extracted ->
  match extracted !! "protocols" with
  | None => True
  | Some (VList protocols) =>
      protocols <> [] /\ List.NoDup protocols /\
      List.Forall (fun p => Py.upper p = p) protocols
  | Some _ => False
  end.
Proof.
  intros H. apply ParseMoreFacts.extract_network_info_returns in H as (ports & _ & ->).
  rewrite ParseMoreFacts.network_of_lookup.
  cbn [String.eqb Ascii.eqb Bool.eqb].
  destruct (ParseMoreFacts.collect_protocols_spec message) as [Hnd Hall].
  destruct (collect_protocols message); [exact I|].
  repeat split; [discriminate | |]; assumption.
Qed.

Lemma extracted_protocols_upper_witness :
  match extract_network_info protocols_message with
  | Some extracted =>
      extracted !! "protocols" = Some (VList ["UDP"; "TCP"]) /\
      match extracted !! "protocols" with
      | None => True
      | Some (VList protocols) =>
          protocols <> [] /\ List.NoDup protocols /\
          List.Forall (fun p => Py.upper p = p) protocols
      | Some _ => False
      end
  | None => False
  end.
Proof.
  assert (Hp : (extract_network_info protocols_message ≫= lookup "protocols")
               = Some (VList ["UDP"; "TCP"])) by (vm_compute; reflexivity).
  destruct (extract_network_info protocols_message) as [extracted|] eqn:He;
    [|discriminate Hp].
  split; [exact Hp|].
  exact (extracted_protocols_upper protocols_message extracted He).
Defined.

(** X5: the map that [extract_network_info] returns has no key besides
    ip_addresses, src_ip, dst_ip, ip_address, ports, protocols and
    mac_addresses.  With one address found it holds [ip_address]; with
    two or more it holds [src_ip] and [dst_ip], the first two of
    [ip_addresses]; it never holds [ip_address] together with [src_ip]
    or [dst_ip]. *)
Theorem extracted_address_keys (message : string) (ni : gmap string value) :
  extract_network_info message = Some ni ->
  (forall k, is_Some (ni !! k) -> In k network_keys) /\
  match ni !! "ip_addresses" with
  | None => ni !! "ip_address" = None /\ ni !! "src_ip" = None /\ ni !! "dst_ip" = None
  | Some (VList [ip]) =>
      ni !! "ip_address" = Some (VStr ip) /\ ni !! "src_ip" = None /\ ni !! "dst_ip" = None
  | Some (VList (ip0 :: ip1 :: _)) =>
      ni !! "ip_address" = None /\ ni !! "src_ip" = Some (VStr ip0) /\
      ni !! "dst_ip" = Some (VStr ip1)
  | Some _ => False
  end.
Proof.
  intros H. apply ParseMoreFacts.extract_network_info_returns in H as (ports & _ & ->).
  split.
  - intros k. rewrite ParseMoreFacts.network_of_lookup.
    unfold network_keys.
    destruct (String.eqb_spec k "mac_addresses") as [-> | _]; [intros _; simpl; tauto|].
    destruct (String.eqb_spec k "protocols") as [-> | _]; [intros _; simpl; tauto|].
    destruct (String.eqb_spec k "ports") as [-> | _]; [intros _; simpl; tauto|].
    rewrite ParseMoreFacts.with_addresses_lookup.
    destruct (findall false ip_pattern "ip" message) as [|ip0 [|ip1 ips]];
      [intros [x Hx]; discriminate | |];
      (destruct (String.eqb_spec k "ip_addresses") as [-> | _]; [intros _; simpl; tauto|]).
    + destruct (String.eqb_spec k "ip_address") as [-> | _]; [intros _; simpl; tauto|].
      intros [x Hx]; discriminate.
    + destruct (String.eqb_spec k "src_ip") as [-> | _]; [intros _; simpl; tauto|].
      destruct (String.eqb_spec k "dst_ip") as [-> | _]; [intros _; simpl; tauto|].
      intros [x Hx]; discriminate.
  - rewrite !ParseMoreFacts.network_of_lookup.
    cbn [String.eqb Ascii.eqb Bool.eqb]. rewrite !ParseMoreFacts.with_addresses_lookup.
    destruct (findall false ip_pattern "ip" message) as [|ip0 [|ip1 ips]];
      cbn [String.eqb Ascii.eqb Bool.eqb]; repeat split.
Qed.

Lemma extracted_address_keys_witness :
  match extract_network_info protocols_message with
  | Some ni =>
      ni !! "ip_addresses" = Some (VList ["10.0.0.5"; "10.0.0.9"]) /\
      ni !! "src_ip" = Some (VStr "10.0.0.5") /\
      (forall k, is_Some (ni !! k) -> In k network_keys)
  | None => False
  end.
Proof.
  assert (Hp : (extract_network_info protocols_message ≫= lookup "ip_addresses")
               = Some (VList ["10.0.0.5"; "10.0.0.9"])) by (vm_compute; reflexivity).
  destruct (extract_network_info protocols_message) as [ni|] eqn:He; [|discriminate Hp].
  cbn [mbind option_bind] in Hp.
  destruct (extracted_address_keys protocols_message ni He) as [Hk Ha].
  rewrite Hp in Ha. destruct Ha as (_ & Hs & _).
  split; [exact Hp|]. split; [exact Hs | exact Hk].
Defined.

(** X6: when the structured captures hold a [protocol] that is not a
    string (a firewall line whose PROTO group took no part in the match,
    a JSON number), the lookup of [isdigit] raises and the record of a
    non-blank line is the default one: message the trimmed line, level
    INFO, no format tag, no network information. *)
Theorem protocol_without_text_gives_default_record
  (now : datetime) (strptime : string -> string -> option datetime)
  (fromisoformat : string -> option datetime)
  (json_loads : string -> result json)
  (line source : string) (captured : gmap string value) (x : value) :
  Py.strip line <> "" ->
  captured_network now strptime fromisoformat json_loads line = Some captured ->
  captured !! "protocol" = Some x ->
  (forall s, x <> VStr s) ->
  parse_enhanced_log_line now strptime fromisoformat json_loads line source
  = Some (Entry (Py.strip line) now "INFO" source None ∅ ∅ ∅).
Proof.
  intros Hs Hc Hx Hns.
  destruct (ParseMoreFacts.parse_body_protocol_not_str now strptime fromisoformat json_loads
              line source captured x Hc Hx Hns) as [err Hb].
  exact (ParseMoreFacts.parse_enhanced_log_line_raise now strptime fromisoformat json_loads
           line source err Hs Hb).
Qed.

Lemma protocol_without_text_gives_default_record_witness :
  entry_matches firewall_line "firewall" = true /\
  classify JsonText.loads firewall_line = "firewall" /\
  (captured_network epoch no_strptime no_fromisoformat JsonText.loads firewall_line
     ≫= lookup "protocol") = Some VNone /\
  parse_enhanced_log_line epoch no_strptime no_fromisoformat JsonText.loads firewall_line "fw.log"
  = Some (Entry firewall_line epoch "INFO" "fw.log" None ∅ ∅ ∅).
Proof.
  split; [vm_compute; reflexivity|]. split; [vm_compute; reflexivity|].
  split; [vm_compute; reflexivity|].
  assert (H : exists captured,
             captured_network epoch no_strptime no_fromisoformat JsonText.loads firewall_line
               = Some captured /\
             captured !! "protocol" = Some VNone)
    by (eexists; split; vm_compute; reflexivity).
  destruct H as (captured & Hc & Hp).
  apply (protocol_without_text_gives_default_record epoch no_strptime no_fromisoformat JsonText.loads
           firewall_line "fw.log" captured VNone).
  - vm_compute. discriminate.
  - exact Hc.
  - exact Hp.
  - discriminate.
Defined.


(** X7: a record made from a JSON object is tagged json, keeps the whole
    object as its parsed fields, takes its message from the [message]
    field, else from [msg], else the line itself, and takes its level
    from the [level] field, else from [severity], in upper case and
    otherwise unchanged; only when that level is INFO is the message
    scanned, and the level is then what the scan returned. *)
Theorem json_record_fields
  (now : datetime) (strptime : string -> string -> option datetime)
  (fromisoformat : string -> option datetime)
  (json_loads : string -> result json)
  (line source : string) (fields : list (string * json)) (e : EnhancedLogEntry) :
  Py.startswith (Py.strip line) "{" = true ->
  json_loads line = Ok (JObj fields) ->
  parse_enhanced_log_line now strptime fromisoformat json_loads line source = Some e ->
  is_Some (e_log_type e) ->
  let json_log := dict_of_object fields in
  e_log_type e = Some "json" /\
  e_parsed_fields e = json_log /\
  VStr (e_message e) = get json_log "message" (get json_log "msg" (VStr line)) /\
  e_metadata e =
    without_keys ["message"; "msg"; "level"; "severity"; "timestamp"; "time"] json_log /\
  exists l,
    get json_log "level" (get json_log "severity" (VStr "INFO")) = VStr l /\
    if String.eqb (Py.upper l) "INFO"
    then Severity.extract_log_level (e_message e) "INFO" = Some (e_level e)
    else e_level e = Py.upper l.
Proof.
  intros Hs Hl He Ht.
  apply (ParseMoreFacts.json_record now strptime fromisoformat json_loads line source
           fields e Hs Hl).
  exact (ParseFacts.parse_enhanced_log_line_body now strptime fromisoformat json_loads
           line source e He Ht).
Qed.

Lemma json_record_fields_witness :
  exists fields e,
    JsonText.loads json_warning_line = Ok (JObj fields) /\
    parse_enhanced_log_line epoch no_strptime no_fromisoformat JsonText.loads
      json_warning_line "app.log" = Some e /\
    e_level e = "WARNING" /\ e_message e = "link flap on eth0" /\
    e_metadata e !! "host" = Some (VStr "sw1") /\
    e_log_type e = Some "json" /\
    e_parsed_fields e = dict_of_object fields.
Proof.
  eexists _, _. split; [vm_compute; reflexivity|]. split; [vm_compute; reflexivity|].
  split; [reflexivity|]. split; [reflexivity|]. split; [vm_compute; reflexivity|].
  match goal with
  | |- e_log_type ?e = _ /\ e_parsed_fields _ = dict_of_object ?fields =>
      pose proof (json_record_fields epoch no_strptime no_fromisoformat JsonText.loads
                    json_warning_line "app.log" fields e) as H
  end.
  specialize (H ltac:(vm_compute; reflexivity) ltac:(vm_compute; reflexivity)
                ltac:(vm_compute; reflexivity) ltac:(eexists; reflexivity)).
  cbv zeta in H. destruct H as (H1 & H2 & _). split; [exact H1 | exact H2].
Defined.

(** X8: the metadata of every record is a part of its parsed fields:
    each metadata key is a parsed field with the same value. *)
Theorem metadata_within_parsed_fields
  (now : datetime) (strptime : string -> string -> option datetime)
  (fromisoformat : string -> option datetime)
  (json_loads : string -> result json) (line source : string)
  (e : EnhancedLogEntry) :
  parse_enhanced_log_line now strptime fromisoformat json_loads line source = Some e ->
  forall k x, e_metadata e !! k = Some x -> e_parsed_fields e !! k = Some x.
Proof.
  intros He k x Hx.
  pose proof (ParseMoreFacts.parse_enhanced_log_line_metadata now strptime fromisoformat json_loads
                line source e He) as Hsub.
  exact (lookup_weaken _ _ _ _ Hx Hsub).
Qed.

Lemma metadata_within_parsed_fields_witness :
  exists e,
    parse_enhanced_log_line epoch no_strptime no_fromisoformat JsonText.loads json_warning_line "app.log"
      = Some e /\
    e_metadata e !! "host" = Some (VStr "sw1") /\
    e_parsed_fields e !! "host" = Some (VStr "sw1").
Proof.
  eexists. split; [vm_compute; reflexivity|].
  split; [vm_compute; reflexivity|].
  match goal with
  | |- e_parsed_fields ?e !! _ = _ =>
      apply (metadata_within_parsed_fields epoch no_strptime no_fromisoformat JsonText.loads
               json_warning_line "app.log" e)
  end; vm_compute; reflexivity.
Defined.

(** X9: a non-blank line that is not JSON (its trimmed form does not
    start with a brace, or [json.loads] raises JSONDecodeError) and that
    no registry entry matches is never rejected.  When the two
    extractions return for the trimmed line, its record is tagged
    unknown, its message is the trimmed line, its level and its network
    information are the extracted ones, its timestamp is the clock
    reading, and it has no parsed fields and no metadata; when one of
    them raises (a run of more than 4300 digits), its record is the
    default one, without a tag. *)
Theorem unrecognised_line_record
  (now : datetime) (strptime : string -> string -> option datetime)
  (fromisoformat : string -> option datetime)
  (json_loads : string -> result json) (line source : string) :
  Py.strip line <> "" ->
  (Py.startswith (Py.strip line) "{" = true -> json_loads line = Raise JSONDecodeError) ->
  find (entry_matches line) declared_order = None ->
  parse_enhanced_log_line now strptime fromisoformat json_loads line source
  = Some match extract_network_info (Py.strip line),
               Severity.extract_log_level (Py.strip line) "INFO" with
         | Some extracted, Some level =>
             Entry (Py.strip line) now level source (Some "unknown") extracted ∅ ∅
         | _, _ => Entry (Py.strip line) now "INFO" source None ∅ ∅ ∅
         end.
Proof.
  intros Hs Hj Hf. unfold parse_enhanced_log_line.
  rewrite (ParseMoreFacts.unrecognised_line now strptime fromisoformat json_loads
             line source Hj Hf).
  destruct (String.eqb_spec (Py.strip line) ""); [contradiction|].
  destruct (extract_network_info (Py.strip line)) as [extracted|]; [|reflexivity].
  destruct (Severity.extract_log_level (Py.strip line) "INFO"); reflexivity.
Qed.

Lemma unrecognised_line_record_witness :
  (parse_enhanced_log_line epoch no_strptime no_fromisoformat JsonText.loads
     plain_line "app.log"
     ≫= fun e => Some (e_message e, e_level e, e_log_type e, e_network_info e !! "ip_address"))
  = Some ("connection refused from 10.0.0.5 port 22", "INFO", Some "unknown",
          Some (VStr "10.0.0.5")).
Proof.
  rewrite (unrecognised_line_record epoch no_strptime no_fromisoformat JsonText.loads
             plain_line "app.log").
  - vm_compute. reflexivity.
  - vm_compute. discriminate.
  - vm_compute. discriminate.
  - vm_compute. reflexivity.
Defined.

(** X10: [process_log_with_enhanced_parsing] returns a template id for
    every message, whatever the parser type, the state of the miner and
    of the database: the id is never missing. *)
Theorem template_id_never_missing
  (miner : Type) (add_log_message : miner -> string -> miner * result miner_result)
  (id_to_cluster : miner -> option (list (Z * cluster))) (logparser_drain : bool)
  (responds : nat -> bool) (message : string) (timestamp : datetime)
  (parser_type : string) (st : state miner) :
  template_id (snd (process_log_with_enhanced_parsing miner add_log_message id_to_cluster
                      logparser_drain responds message timestamp parser_type st))
  <> None.
Proof.
  destruct (IngestMoreFacts.process_log_always_id miner add_log_message id_to_cluster
              logparser_drain responds message timestamp parser_type st) as [id H].
  rewrite H. discriminate.
Qed.

(** X11: when the miner answers with a result that carries no id, the
    assembler takes the cluster with the largest id that the miner
    holds, with that cluster's size (1 when it has none); when the miner
    holds no cluster, the id is [tmpl_] followed by the first 8
    hexadecimal digits of the MD5 of the message, the template is the
    message and the size is 1. *)
Theorem result_without_id_takes_largest_cluster
  (miner : Type) (add_log_message : miner -> string -> miner * result miner_result)
  (id_to_cluster : miner -> option (list (Z * cluster))) (logparser_drain : bool)
  (responds : nat -> bool) (message : string) (timestamp : datetime)
  (st : state miner) (m m' : miner) (r : miner_result) :
  template_miner miner st = Some m ->
  add_log_message m message = (m', Ok r) ->
  template_id (read_result r) = None ->
  let info := snd (process_log_with_enhanced_parsing miner add_log_message id_to_cluster
                     logparser_drain responds message timestamp "drain3" st) in
  match id_to_cluster m' with
  | Some (cl :: cls) =>
      exists k c,
        In (k, c) (cl :: cls) /\
        (forall k' c', In (k', c') (cl :: cls) -> (k' <= k)%Z) /\
        template_id info = Some (TInt k) /\
        cluster_size info = or_default (c_size c) 1%Z
  | _ =>
      info = TemplateInfo (Some (TStr ("tmpl_" ++ Md5.hash8 message))) (Some message) 1
  end.
Proof.
  intros Hm Ha Hr info. subst info.
  rewrite (IngestMoreFacts.process_log_answered miner add_log_message id_to_cluster
             logparser_drain responds message timestamp st m m' r Hm Ha).
  unfold rescue_from_clusters. rewrite Hr.
  destruct (id_to_cluster m') as [[|cl cls]|].
  - cbn [max_cluster fold_left]. unfold last_resort. rewrite Hr. reflexivity.
  - pose proof (IngestMoreFacts.max_cluster_spec (cl :: cls)) as Hmax.
    destruct (max_cluster (cl :: cls)) as [[k c]|]; [|discriminate].
    destruct Hmax as [Hin Hle]. exists k, c. repeat split; assumption.
  - unfold last_resort. rewrite Hr. reflexivity.
Qed.

Lemma result_without_id_takes_largest_cluster_witness :
  let info := snd (process_log_with_enhanced_parsing unit silent_miner three_clusters false
                     always_responds "user bob logged in" epoch "drain3"
                     with_silent_miner) in
  (template_id info, template info, cluster_size info)
    = (Some (TInt 7), Some "user <*> logged in", 1%Z) /\
  exists k c,
    In (k, c) [(3%Z, Cluster None (Some ["disk"; "<*>"]) (Some 4%Z));
               (7%Z, Cluster (Some (Some "user <*> logged in")) None None);
               (5%Z, Cluster None None None)] /\
    (forall k' c',
       In (k', c') [(3%Z, Cluster None (Some ["disk"; "<*>"]) (Some 4%Z));
                    (7%Z, Cluster (Some (Some "user <*> logged in")) None None);
                    (5%Z, Cluster None None None)] -> (k' <= k)%Z) /\
    template_id info = Some (TInt k) /\
    cluster_size info = or_default (c_size c) 1%Z.
Proof.
  cbv zeta. split; [vm_compute; reflexivity|].
  exact (result_without_id_takes_largest_cluster unit silent_miner three_clusters false
           always_responds "user bob logged in" epoch with_silent_miner tt tt RNone
           eq_refl eq_refl eq_refl).
Defined.

(** X12: after a successful upload the [logs] collection has grown by
    exactly as many documents as the response counts as processed, all
    appended at the end, and each of them carries the upload's file
    identifier and file name. *)
Theorem upload_appends_processed_documents
  (now : datetime) (strptime : string -> string -> option datetime)
  (fromisoformat : string -> option datetime)
  (json_loads : string -> result json) (miner : Type)
  (add_log_message : miner -> string -> miner * result miner_result)
  (id_to_cluster : miner -> option (list (Z * cluster))) (logparser_drain : bool)
  (responds : nat -> bool) (decode : string -> option string)
  (filename content file_id : string) (upload_timestamp : datetime)
  (st st' : state miner) (response : upload_response) :
  upload_logs now strptime fromisoformat json_loads miner add_log_message id_to_cluster
    logparser_drain responds decode filename content file_id upload_timestamp st
  = (st', Ok response) ->
  exists new,
    logs (db miner st') = logs (db miner st) ++ new /\
    length new = r_processed_logs response /\
    List.Forall (of_upload file_id filename) new.
Proof. apply IngestMoreFacts.upload_logs_logs. Qed.

Lemma upload_appends_processed_documents_witness :
  match upload_logs epoch no_strptime no_fromisoformat JsonText.loads unit unit_miner_raises no_clusters
          false always_responds decode_ascii "app.log" three_lines "f1" epoch
          without_miner with
  | (st', Ok response) =>
      r_processed_logs response = 2%nat /\
      exists new,
        logs (db unit st') = logs (db unit without_miner) ++ new /\
        length new = r_processed_logs response /\
        List.Forall (of_upload "f1" "app.log") new
  | (_, Raise _) => False
  end.
Proof.
  destruct (upload_logs epoch no_strptime no_fromisoformat JsonText.loads unit unit_miner_raises
              no_clusters false always_responds decode_ascii "app.log" three_lines "f1"
              epoch without_miner) as [st' [response|e]] eqn:H.
  - split.
    + assert (E : option_map r_processed_logs
                    (match upload_logs epoch no_strptime no_fromisoformat JsonText.loads unit
                             unit_miner_raises no_clusters false always_responds
                             decode_ascii "app.log" three_lines "f1" epoch
                             without_miner with
                     | (_, Ok resp) => Some resp
                     | _ => None
                     end) = Some 2%nat) by (vm_compute; reflexivity).
      rewrite H in E. injection E as E. exact E.
    + exact (upload_appends_processed_documents _ _ _ _ _ _ _ _ _ _ _ _ _ _ _ _ _ H).
  - assert (E : match snd (upload_logs epoch no_strptime no_fromisoformat JsonText.loads unit
                             unit_miner_raises no_clusters false always_responds
                             decode_ascii "app.log" three_lines "f1" epoch
                             without_miner) with
                | Ok _ => true
                | Raise _ => false
                end = true) by (vm_compute; reflexivity).
    rewrite H in E. discriminate E.
Defined.

(** X13: after a successful upload under a file identifier that no
    manifest carried before, the [files] collection has one more
    document, the manifest of this upload: it carries the identifier and
    the original file name, its status is completed, and its counters
    are those of the response. *)
Theorem upload_manifest_matches_response
  (now : datetime) (strptime : string -> string -> option datetime)
  (fromisoformat : string -> option datetime)
  (json_loads : string -> result json) (miner : Type)
  (add_log_message : miner -> string -> miner * result miner_result)
  (id_to_cluster : miner -> option (list (Z * cluster))) (logparser_drain : bool)
  (responds : nat -> bool) (decode : string -> option string)
  (filename content file_id : string) (upload_timestamp : datetime)
  (st st' : state miner) (response : upload_response) :
  upload_logs now strptime fromisoformat json_loads miner add_log_message id_to_cluster
    logparser_drain responds decode filename content file_id upload_timestamp st
  = (st', Ok response) ->
  fresh_file_id file_id (files (db miner st)) ->
  exists doc,
    files (db miner st') = files (db miner st) ++ [doc] /\
    doc !! "file_id" = Some (BStr file_id) /\
    doc !! "original_filename" = Some (BStr filename) /\
    doc !! "status" = Some (BStr "completed") /\
    doc !! "processed_logs" = Some (BInt (Z.of_nat (r_processed_logs response))) /\
    doc !! "failed_logs" = Some (BInt (Z.of_nat (r_failed_logs response))).
Proof. apply IngestMoreFacts.upload_logs_manifest. Qed.

Lemma upload_manifest_matches_response_witness :
  match upload_logs epoch no_strptime no_fromisoformat JsonText.loads unit unit_miner_raises no_clusters
          false always_responds decode_ascii "app.log" three_lines "f1" epoch
          without_miner with
  | (st', Ok response) =>
      exists doc,
        files (db unit st') = files (db unit without_miner) ++ [doc] /\
        doc !! "file_id" = Some (BStr "f1") /\
        doc !! "original_filename" = Some (BStr "app.log") /\
        doc !! "status" = Some (BStr "completed") /\
        doc !! "processed_logs" = Some (BInt (Z.of_nat (r_processed_logs response))) /\
        doc !! "failed_logs" = Some (BInt (Z.of_nat (r_failed_logs response)))
  | (_, Raise _) => False
  end.
Proof.
  destruct (upload_logs epoch no_strptime no_fromisoformat JsonText.loads unit unit_miner_raises
              no_clusters false always_responds decode_ascii "app.log" three_lines "f1"
              epoch without_miner) as [st' [response|e]] eqn:H.
  - apply (upload_manifest_matches_response _ _ _ _ _ _ _ _ _ _ _ _ _ _ _ _ _ H).
    constructor.
  - assert (E : match snd (upload_logs epoch no_strptime no_fromisoformat JsonText.loads unit
                             unit_miner_raises no_clusters false always_responds
                             decode_ascii "app.log" three_lines "f1" epoch
                             without_miner) with
                | Ok _ => true
                | Raise _ => false
                end = true) by (vm_compute; reflexivity).
    rewrite H in E. discriminate E.
Defined.

(** X14: an upload ends in a response, in status 400 or in status 500.
    It ends in 400 exactly when the file name is empty or ends in none
    of .log, .txt and .json, and then the service state is untouched;
    every other failure ends in 500, also content that does not decode,
    for which the handler names 400. *)
Theorem upload_status_codes
  (now : datetime) (strptime : string -> string -> option datetime)
  (fromisoformat : string -> option datetime)
  (json_loads : string -> result json) (miner : Type)
  (add_log_message : miner -> string -> miner * result miner_result)
  (id_to_cluster : miner -> option (list (Z * cluster))) (logparser_drain : bool)
  (responds : nat -> bool) (decode : string -> option string)
  (filename content file_id : string) (upload_timestamp : datetime) (st : state miner) :
  let r := upload_logs now strptime fromisoformat json_loads miner add_log_message id_to_cluster
             logparser_drain responds decode filename content file_id upload_timestamp st in
  match snd r with
  | Ok _ => supported filename = true /\ decode content <> None
  | Raise e =>
      if supported filename
      then e = HTTPException 500
      else e = HTTPException 400 /\ fst r = st
  end.
Proof.
  cbv zeta.
  pose proof (IngestMoreFacts.upload_logs_status now strptime fromisoformat json_loads miner
                add_log_message id_to_cluster logparser_drain responds decode filename
                content file_id upload_timestamp st) as H.
  destruct (supported filename) eqn:Hs.
  - destruct (snd (upload_logs _ _ _ _ _ _ _ _ _ _ _ _ _ _ _)) as [resp|e]; [|exact H].
    destruct H as [_ [text Ht]]. split; [reflexivity|]. rewrite Ht. discriminate.
  - rewrite (IngestMoreFacts.upload_logs_unsupported now strptime fromisoformat json_loads miner
               add_log_message id_to_cluster logparser_drain responds decode filename
               content file_id upload_timestamp st Hs).
    cbn [fst snd]. split; reflexivity.
Qed.

(** X15: the Fluent Bit endpoint counts every entry of the batch as
    processed or as failed; the [logs] collection grows by exactly the
    processed ones, and each stored document has level INFO, no format
    tag, no network information, no parsed fields, no file, and a source
    that is not empty: the message is never scanned for a severity. *)
Theorem fluent_bit_documents_are_plain
  (now : datetime) (fromisoformat : string -> option datetime) (miner : Type)
  (add_log_message : miner -> string -> miner * result miner_result)
  (id_to_cluster : miner -> option (list (Z * cluster))) (logparser_drain : bool)
  (responds : nat -> bool) (batch : list FluentBitLogEntry) (st : state miner) :
  let r := ingest_fluent_bit_logs now fromisoformat miner add_log_message id_to_cluster
             logparser_drain responds batch st in
  (fr_processed_logs (snd r) + fr_failed_logs (snd r))%nat = length batch /\
  exists new,
    logs (db miner (fst r)) = logs (db miner st) ++ new /\
    length new = fr_processed_logs (snd r) /\
    List.Forall plain_document new.
Proof.
  cbv zeta. unfold ingest_fluent_bit_logs.
  pose proof (IngestMoreFacts.ingest_fluent_bit_loop now fromisoformat miner
                add_log_message id_to_cluster logparser_drain responds batch st
                (Counters 0 0)) as H.
  destruct (fold_left _ batch _) as [st' c]. cbv zeta in H.
  cbn [fst snd processed_count failed_count fr_processed_logs fr_failed_logs] in H |- *.
  destruct H as (Hsum & new & Hl & Hn & Hall). split; [lia|].
  exists new. repeat split; [exact Hl | lia | exact Hall].
Qed.

(** X16: the query document that [query_logs] builds never asks for
    records without network information: [has_network_info] set to
    false constrains nothing, exactly as when it is left out. *)
Theorem has_network_info_false_is_ignored (query : LogQueryRequest) :
  mongo_query (with_has_network_info (Some false) query)
    = mongo_query (with_has_network_info None query) /\
  List.Forall no_empty_dict (mongo_query query).
Proof.
  split; [reflexivity | apply IngestMoreFacts.mongo_query_no_empty_dict].
Qed.

(** X17: when some but not all of the levels ERROR, CRITICAL, FATAL and
    WARN occur in the window, the selection of the four columns fails and
    the error-rate detector raises KeyError. *)
Theorem error_rate_detector_needs_all_levels (df : list log_row) :
  existsb (has_column df) error_levels = true ->
  forallb (has_column df) error_levels = false ->
  detect_error_rate_anomalies df = Raise KeyError.
Proof.
  intros He Ha. apply DetectorFacts.detect_error_rate_anomalies_missing_column.
  unfold columns_selectable. rewrite He, Ha. reflexivity.
Qed.

Lemma error_rate_detector_needs_all_levels_witness :
  has_column mixed_window "ERROR" = true /\
  has_column mixed_window "WARN" = false /\
  detect_error_rate_anomalies mixed_window = Raise KeyError.
Proof.
  split; [reflexivity|]. split; [reflexivity|].
  apply (error_rate_detector_needs_all_levels mixed_window); reflexivity.
Defined.

(** X18: a window in which none of the levels ERROR, CRITICAL, FATAL and
    WARN occurs yields no error-rate anomaly, whatever its volume. *)
Theorem no_error_records_no_error_rate_anomaly (df : list log_row) :
  existsb (has_column df) error_levels = false ->
  detect_error_rate_anomalies df = Ok [].
Proof. apply DetectorMoreFacts.no_error_records_no_anomaly. Qed.

Lemma no_error_records_no_error_rate_anomaly_witness :
  length calm_window = 212%nat /\
  detect_error_rate_anomalies calm_window = Ok [].
Proof.
  split; [reflexivity|].
  apply (no_error_records_no_error_rate_anomaly calm_window). reflexivity.
Defined.

(** X19: whatever the rolling statistics are, as long as the rolling
    mean has no value (NaN) for a bucket that does not close a full
    window, every anomaly of the volume detector belongs to one hourly
    bucket of the window: its timestamp is the start of that hour, its
    log count is the number of records of that hour, and its score
    exceeds 3.  The window has at least 3 buckets, and the bucket is not
    among the first min(24, N-1) - 1 of the N buckets; with at most 25
    buckets, only the last two can be reported. *)
Theorem volume_anomaly_belongs_to_late_bucket
  (rolling_mean rolling_std : nat -> list float -> list float)
  (df : list log_row) (a : AnomalyResult) :
  nan_before_full rolling_mean ->
  In a (detect_volume_anomalies rolling_mean rolling_std df) ->
  let n := length (spanned_hours df) in
  exists i h,
    nth_error (spanned_hours df) i = Some h /\
    a_timestamp a = (3600 * h)%Z /\
    a_log_count a = count_in h df /\
    (3 <? a_score a)%float = true /\
    (3 <= n)%nat /\ (Nat.min 24 (n - 1) <= S i)%nat /\
    ((n <= 25)%nat -> (n - 2 <= i)%nat).
Proof.
  intros Hnan H.
  apply (DetectorFacts.detect_volume_anomalies_in _ _ _ _ Hnan) in H.
  cbv zeta in H |- *.
  destruct H as (i & b & Hb & Hn & Hw & z & Hz & ->).
  apply DetectorMoreFacts.nth_error_resample_size in Hb as [Hh Hc].
  unfold resample_size in Hn, Hw. rewrite length_map in Hn, Hw.
  exists i, (fst b). unfold volume_anomaly.
  cbn [a_timestamp a_log_count a_score].
  repeat split; try assumption. lia.
Qed.

Lemma volume_anomaly_belongs_to_late_bucket_witness :
  match detect_volume_anomalies window_mean window_std spike_window with
  | [a] =>
      report_of a = ((3600 * 23)%Z, "VOLUME_SPIKE", "MEDIUM", 500%nat) /\
      exists i h,
        nth_error (spanned_hours spike_window) i = Some h /\
        a_timestamp a = (3600 * h)%Z /\
        a_log_count a = count_in h spike_window /\
        (3 <? a_score a)%float = true /\
        (3 <= length (spanned_hours spike_window))%nat /\
        (Nat.min 24 (length (spanned_hours spike_window) - 1) <= S i)%nat /\
        ((length (spanned_hours spike_window) <= 25)%nat ->
         (length (spanned_hours spike_window) - 2 <= i)%nat)
  | _ => False
  end.
Proof.
  destruct (detect_volume_anomalies window_mean window_std spike_window)
    as [|a [|a' l]] eqn:E;
    [vm_compute in E; discriminate E | | vm_compute in E; discriminate E].
  split.
  - assert (H : map report_of (detect_volume_anomalies window_mean window_std spike_window)
                = [((3600 * 23)%Z, "VOLUME_SPIKE", "MEDIUM", 500%nat)])
      by (vm_compute; reflexivity).
    rewrite E in H. cbn [map] in H. congruence.
  - apply (volume_anomaly_belongs_to_late_bucket window_mean window_std spike_window a).
    + apply DetectorFacts.rolling_nan_before_full.
    + rewrite E. left. reflexivity.
Defined.

(** X20: a source that the source detector reports has at least 10
    records in the window, the table has more than two hour columns (the
    hours in which some source has a record), the source has no record
    in the last two of these hours, and the mean of its earlier cells,
    the score, exceeds 5; the anomaly is a SOURCE_SILENCE of severity
    MEDIUM with log count 0, stamped with the clock reading. *)
Theorem reported_source_is_silent_in_last_two_columns
  (now : datetime) (df : list log_row) (source : string) (a : AnomalyResult) :
  In (source, a) (silent_sources now df) ->
  a = Anomaly now "SOURCE_SILENCE" "MEDIUM" 0 (a_score a) /\
  (5 <? a_score a)%float = true /\
  (10 <= records_of source df)%nat /\
  (2 < length (observed_hours df))%nat /\
  forall h, In h (lastn 2 (observed_hours df)) -> count_source source h df = 0%nat.
Proof. apply DetectorMoreFacts.silent_sources_spec. Qed.

Lemma reported_source_is_silent_in_last_two_columns_witness :
  silent_sources epoch silence_window
    = [("db", Anomaly epoch "SOURCE_SILENCE" "MEDIUM" 0 7)] /\
  (10 <= records_of "db" silence_window)%nat /\
  forall h, In h (lastn 2 (observed_hours silence_window)) ->
            count_source "db" h silence_window = 0%nat.
Proof.
  assert (E : silent_sources epoch silence_window
              = [("db", Anomaly epoch "SOURCE_SILENCE" "MEDIUM" 0 7)])
    by (vm_compute; reflexivity).
  split; [exact E|].
  destruct (reported_source_is_silent_in_last_two_columns epoch silence_window "db"
              (Anomaly epoch "SOURCE_SILENCE" "MEDIUM" 0 7)) as (_ & _ & H10 & _ & Hz).
  - rewrite E. left. reflexivity.
  - split; [exact H10 | exact Hz].
Defined.

(** X21: when every record of the window comes from one and the same
    source, the source detector reports nothing: the last hour column of
    the table is an hour in which that source has a record. *)
Theorem single_source_is_never_silent
  (now : datetime) (df : list log_row) (source : string) :
  (forall r, In r df -> row_source r = source) ->
  detect_source_anomalies now df = [].
Proof.
  intros H. unfold detect_source_anomalies.
  rewrite (DetectorMoreFacts.single_source_silent now df source H). reflexivity.
Qed.

Lemma single_source_is_never_silent_witness :
  length lone_source_window = 21%nat /\
  detect_source_anomalies epoch lone_source_window = [].
Proof.
  split; [reflexivity|].
  apply (single_source_is_never_silent epoch lone_source_window "db").
  intros r Hr. unfold lone_source_window, from_source in Hr.
  rewrite !in_app_iff in Hr.
  destruct Hr as [Hr | [Hr | Hr]]; apply repeat_spec in Hr; subst; reflexivity.
Defined.

(** X22: a JSON line whose [timestamp] field is a string that
    [fromisoformat] rejects loses all its structure: the error leaves
    the [try] block, and the record of the line is the default one,
    with level INFO whatever the object says, no format tag and no parsed
    fields. *)
Theorem rejected_json_timestamp_gives_default_record
  (now : datetime) (strptime : string -> string -> option datetime)
  (fromisoformat : string -> option datetime)
  (json_loads : string -> result json)
  (line source : string) (fields : list (string * json)) (ts : string) :
  Py.startswith (Py.strip line) "{" = true ->
  json_loads line = Ok (JObj fields) ->
  dict_of_object fields !! "timestamp" = Some (VStr ts) ->
  fromisoformat (replace_Z ts) = None ->
  parse_enhanced_log_line now strptime fromisoformat json_loads line source
  = Some (Entry (Py.strip line) now "INFO" source None ∅ ∅ ∅).
Proof.
  intros Hs Hl Hts Hiso.
  destruct (EdgeFacts.json_bad_timestamp now strptime fromisoformat json_loads line source fields ts
              Hs Hl Hts Hiso) as [err Hb].
  apply (ParseMoreFacts.parse_enhanced_log_line_raise now strptime fromisoformat json_loads
           line source err); [|exact Hb].
  intros E. rewrite E in Hs. discriminate Hs.
Qed.

Lemma rejected_json_timestamp_gives_default_record_witness :
  (dict_of_object
     [("level", JStr "error"); ("message", JStr "db down"); ("timestamp", JStr "yesterday")]
   !! "level") = Some (VStr "error") /\
  parse_enhanced_log_line epoch no_strptime no_fromisoformat JsonText.loads bad_timestamp_line "app.log"
  = Some (Entry bad_timestamp_line epoch "INFO" "app.log" None ∅ ∅ ∅).
Proof.
  split; [vm_compute; reflexivity|].
  apply (rejected_json_timestamp_gives_default_record epoch no_strptime no_fromisoformat JsonText.loads
           bad_timestamp_line "app.log"
           [("level", JStr "error"); ("message", JStr "db down");
            ("timestamp", JStr "yesterday")] "yesterday").
  - vm_compute; reflexivity.
  - vm_compute; reflexivity.
  - vm_compute; reflexivity.
  - reflexivity.
Defined.

(** X23: an upload whose content is empty or only white space still has
    one line, the empty one: nothing is stored, and a successful
    response reports 0 processed and 1 failed line. *)
Theorem blank_upload_counts_one_failed_line
  (now : datetime) (strptime : string -> string -> option datetime)
  (fromisoformat : string -> option datetime)
  (json_loads : string -> result json) (miner : Type)
  (add_log_message : miner -> string -> miner * result miner_result)
  (id_to_cluster : miner -> option (list (Z * cluster))) (logparser_drain : bool)
  (responds : nat -> bool) (decode : string -> option string)
  (filename content file_id text : string) :
  decode content = Some text ->
  Py.strip text = "" ->
  lines_of text = [""] /\
  (forall st,
     process_lines now strptime fromisoformat json_loads miner add_log_message id_to_cluster
       logparser_drain responds filename file_id st (lines_of text)
     = (st, Counters 0 1)) /\
  (forall upload_timestamp st st' response,
     upload_logs now strptime fromisoformat json_loads miner add_log_message id_to_cluster
       logparser_drain responds decode filename content file_id upload_timestamp st
     = (st', Ok response) ->
     r_processed_logs response = 0%nat /\ r_failed_logs response = 1%nat /\
     logs (db miner st') = logs (db miner st)).
Proof.
  intros Hd Hs. split; [exact (EdgeFacts.lines_of_blank text Hs)|]. split.
  - intros st. apply EdgeFacts.process_lines_blank, Hs.
  - intros ts st st' response H.
    destruct (EdgeFacts.upload_logs_text now strptime fromisoformat json_loads miner add_log_message
                id_to_cluster logparser_drain responds decode filename content file_id
                ts st st' response text Hd H) as [st0 Hc].
    cbv zeta in Hc.
    rewrite (EdgeFacts.process_lines_blank now strptime fromisoformat json_loads miner
               add_log_message id_to_cluster logparser_drain responds filename file_id
               st0 text Hs) in Hc.
    cbn [snd processed_count failed_count] in Hc. destruct Hc as [Hp Hf].
    destruct (IngestMoreFacts.upload_logs_logs now strptime fromisoformat json_loads miner
                add_log_message id_to_cluster logparser_drain responds decode filename
                content file_id ts st st' response H) as (new & Hl & Hn & _).
    rewrite Hp in Hn. destruct new; [|discriminate Hn].
    rewrite app_nil_r in Hl. repeat split; assumption.
Qed.

Lemma blank_upload_counts_one_failed_line_witness :
  Py.strip blank_upload = "" /\
  process_lines epoch no_strptime no_fromisoformat JsonText.loads unit unit_miner_raises no_clusters
    false always_responds "app.log" "f1" without_miner (lines_of blank_upload)
  = (without_miner, Counters 0 1).
Proof.
  split; [reflexivity|].
  exact (proj1 (proj2
           (blank_upload_counts_one_failed_line epoch no_strptime no_fromisoformat JsonText.loads unit
              unit_miner_raises no_clusters false always_responds decode_ascii "app.log"
              blank_upload "f1" blank_upload eq_refl eq_refl)) without_miner).
Defined.

(** X24: the console report sorts the anomalies by the text of their
    severity, in descending order: for anomalies of severity LOW, MEDIUM,
    HIGH or CRITICAL it lists those of severity MEDIUM first, then LOW,
    then HIGH, and CRITICAL last, each group in the order of
    detection. *)
Theorem report_lists_critical_last (anomalies : list AnomalyResult) :
  List.Forall (fun a => In (a_severity a) severities) anomalies ->
  report_order anomalies =
  of_severity "MEDIUM" anomalies ++ of_severity "LOW" anomalies
  ++ of_severity "HIGH" anomalies ++ of_severity "CRITICAL" anomalies.
Proof. apply ReportFacts.report_order_blocks. Qed.

Lemma report_lists_critical_last_witness :
  map a_severity (report_order three_anomalies) = ["MEDIUM"; "HIGH"; "CRITICAL"] /\
  report_order three_anomalies =
  of_severity "MEDIUM" three_anomalies ++ of_severity "LOW" three_anomalies
  ++ of_severity "HIGH" three_anomalies ++ of_severity "CRITICAL" three_anomalies.
Proof.
  split; [reflexivity|].
  apply (report_lists_critical_last three_anomalies).
  repeat constructor; simpl; tauto.
Defined.

(** X25: a record made from the captures of a registry entry (the line
    is not JSON: its trimmed form does not start with a brace, or
    [json.loads] raises JSONDecodeError) keeps the captures as its parsed
    fields; its message is the captured [message], else the trimmed
    line; its timestamp is the parsed stamp when [strptime] accepted it,
    else the clock reading; its level is the captured or mapped [level]
    unless that is missing or INFO, in which case it is what the scan of
    the message returned. *)
Theorem registry_record_fields
  (now : datetime) (strptime : string -> string -> option datetime)
  (fromisoformat : string -> option datetime)
  (json_loads : string -> result json)
  (line source : string) (e : EnhancedLogEntry) :
  (Py.startswith (Py.strip line) "{" = true -> json_loads line = Raise JSONDecodeError) ->
  is_empty_dict (parse_structured_log strptime line) = false ->
  parse_enhanced_log_line now strptime fromisoformat json_loads line source = Some e ->
  is_Some (e_log_type e) ->
  let structured_data := parse_structured_log strptime line in
  e_parsed_fields e = structured_data /\
  VStr (e_message e) = get structured_data "message" (VStr (Py.strip line)) /\
  e_timestamp e = match structured_data !! "parsed_timestamp" with
                  | Some (VTime t) => t
                  | _ => now
                  end /\
  match structured_data !! "level" with
  | Some (VStr l) =>
      if String.eqb l "INFO"
      then Severity.extract_log_level (e_message e) "INFO" = Some (e_level e)
      else e_level e = l
  | _ => Severity.extract_log_level (e_message e) "INFO" = Some (e_level e)
  end.
Proof.
  intros Hj Hne He Ht.
  apply (ParseMoreFacts.registry_record now strptime fromisoformat json_loads line source
           e Hj Hne).
  exact (ParseFacts.parse_enhanced_log_line_body now strptime fromisoformat json_loads
           line source e He Ht).
Qed.

Lemma registry_record_fields_witness :
  exists e,
    parse_enhanced_log_line epoch one_instant no_fromisoformat JsonText.loads
      sshd_line "auth.log" = Some e /\
    (e_log_type e, e_level e, e_timestamp e, e_message e)
      = (Some "syslog", "ERROR", 1720612801%Z,
         "Failed password for root from 10.0.0.5 port 22 ssh2") /\
    e_parsed_fields e = parse_structured_log one_instant sshd_line.
Proof.
  eexists. split; [vm_compute; reflexivity|]. split; [reflexivity|].
  match goal with
  | |- e_parsed_fields ?e = _ =>
      pose proof (registry_record_fields epoch one_instant no_fromisoformat JsonText.loads
                    sshd_line "auth.log" e) as H
  end.
  specialize (H ltac:(vm_compute; discriminate) ltac:(vm_compute; reflexivity)
                ltac:(vm_compute; reflexivity) ltac:(eexists; reflexivity)).
  cbv zeta in H. exact (proj1 H).
Defined.

End Properties.
